(** * Attendance form: record store adapter and deletion confirmation

    A shallow embedding of [src/pages/index.js]: the IndexedDB adapter
    ([openDB], [addRecord], [getAllRecords], [deleteRecord],
    [deleteAllRecords]), the React component state of [App] with its handlers,
    effects and timers, and the properties of the two-step deletion
    confirmation.

    Conventions.
    - The browser is a [World]: the object store, the local-storage slot, the
      clock, the signature canvas, the pending timers.  What the platform does
      to a storage call (succeed or fail, and where) is read from an oracle of
      [Fault]s, one per adapter call, in call order; an exhausted oracle means
      success.  A key generator at its ceiling, a full disk and the like are
      faults of the store request.
    - A handler sees the state of the render it was created in; its state
      updates take effect together in the next render.  After a render the
      effects whose dependencies changed run again, in the order of the
      source, each first cancelling the timer it had set.
    - A user event or a timer callback runs to completion, together with the
      storage calls it starts and the re-renders they cause, before the next
      one begins; storage calls settle in the order they were started.
      Overlapping in-flight storage calls are not modelled.
    - Time is counted in milliseconds; a [setTimeout] timer holds the time
      that is left until it fires.
    - A string is the UTF-8 encoding of the JavaScript string, so [includes]
      and [trim] work on bytes; strings with lone surrogates, which have no
      such encoding, are not modelled. *)

From Stdlib Require Import List String Ascii Bool Arith PeanoNat NArith Lia Sorted.
Import ListNotations.
Local Open Scope string_scope.
Local Open Scope list_scope.
Local Open Scope nat_scope.

(** ** Strings as the code uses them *)

Module Str.

(** [haystack.includes(needle)], case sensitive. *)
Fixpoint includes (needle haystack : string) : bool :=
  if prefix needle haystack then true
  else match haystack with
       | EmptyString => false
       | String _ rest => includes needle rest
       end.

(** A string from its bytes. *)
Definition utf8 (bytes : list N) : string :=
  string_of_list_ascii (map ascii_of_N bytes).

(** The code points [String.prototype.trim] strips, in UTF-8: WhiteSpace
    (TAB, VT, FF, ZWNBSP and the category Zs) and LineTerminator (LF, CR, LS,
    PS) of ECMAScript. *)
Definition whiteSpace : list (list N) :=
  [ [9]; [10]; [11]; [12]; [13];      (* U+0009 .. U+000D *)
    [32];                             (* U+0020 *)
    [194; 160];                       (* U+00A0 *)
    [225; 154; 128];                  (* U+1680 *)
    [226; 128; 128]; [226; 128; 129]; [226; 128; 130]; [226; 128; 131];
    [226; 128; 132]; [226; 128; 133]; [226; 128; 134]; [226; 128; 135];
    [226; 128; 136]; [226; 128; 137]; [226; 128; 138];  (* U+2000 .. U+200A *)
    [226; 128; 168]; [226; 128; 169]; (* U+2028, U+2029 *)
    [226; 128; 175];                  (* U+202F *)
    [226; 129; 159];                  (* U+205F *)
    [227; 128; 128];                  (* U+3000 *)
    [239; 187; 191] ]%N.              (* U+FEFF *)

Fixpoint sameBytes (a b : list N) : bool :=
  match a, b with
  | [], [] => true
  | x :: a', y :: b' => (x =? y)%N && sameBytes a' b'
  | _, _ => false
  end.

(** The bytes are one white-space code point. *)
Definition isSpace (bytes : list ascii) : bool :=
  existsb (sameBytes (map N_of_ascii bytes)) whiteSpace.

(** Drops the white space a string starts with.  With [fromEnd] the string is
    read back to front, so the bytes of a code point come in reverse. *)
Fixpoint strip (fromEnd : bool) (s : string) : string :=
  let inOrder (l : list ascii) := if fromEnd then List.rev l else l in
  match s with
  | EmptyString => EmptyString
  | String b1 r1 =>
      if isSpace [b1] then strip fromEnd r1
      else
        match r1 with
        | EmptyString => s
        | String b2 r2 =>
            if isSpace (inOrder [b1; b2]) then strip fromEnd r2
            else
              match r2 with
              | EmptyString => s
              | String b3 r3 =>
                  if isSpace (inOrder [b1; b2; b3]) then strip fromEnd r3
                  else s
              end
        end
  end.

Definition reverse (s : string) : string :=
  string_of_list_ascii (List.rev (list_ascii_of_string s)).

Definition trimStart (s : string) : string := strip false s.

Definition trimEnd (s : string) : string := reverse (strip true (reverse s)).

(** [s.trim()]. *)
Definition trim (s : string) : string := trimEnd (trimStart s).

(** JavaScript truthiness of a string: the empty string is falsy. *)
Definition truthy (s : string) : bool :=
  match s with EmptyString => false | _ => true end.

(** [a || b] on strings. *)
Definition orElse (a b : string) : string := if truthy a then a else b.

Definition dquote : string := String (ascii_of_nat 34) EmptyString.

End Str.

(** ** Data model *)

(** [formData.status]. *)
Record Status := { pwd : bool; senior : bool; osy : bool }.

(** The form state, which is also what [handleSubmit] hands to [addRecord]
    (with [signature] filled in).  [signature] is [null] in the initial
    form. *)
Record FormData := {
  completeName : string;
  sex : string;
  designation : string;
  division : string;
  status : Status;
  signature : option string
}.

(** A stored record: the submitted object spread into a new one together with
    [timestamp], and the key the store puts at the key path [id]. *)
Record AttendanceRecord := {
  id : nat;
  data : FormData;
  timestamp : N
}.

(** A JavaScript error object, as far as the code reads it. *)
Record JsError := { errName : string; errMessage : string }.

(** [new Error(msg)]. *)
Definition mkError (msg : string) : JsError :=
  {| errName := "Error"; errMessage := msg |}.

(** How a promise settles. *)
Inductive Settled (A : Type) : Type :=
| Fulfilled (v : A)
| Rejected (e : JsError).
Arguments Fulfilled {A} v.
Arguments Rejected {A} e.

Definition DB_NAME := "SimpleNameDB".
Definition STORE_NAME := "names".
Definition IDB_SUCCESS_MESSAGE := "Record saved successfully to IndexedDB.".
Definition IDB_DELETE_MESSAGE := "Record deleted successfully.".
Definition IDB_CLEAR_ALL_MESSAGE := "All records cleared successfully.".
Definition IDB_ERROR_MESSAGE :=
  "Could not access IndexedDB. Check console for details.".

(** ** The object store

    An IndexedDB object store created with [{ keyPath: 'id', autoIncrement:
    true }]: records held in ascending key order and a key generator that
    starts at 1 and never goes back, neither on [delete] nor on [clear]. *)

Module IDB.

Record ObjectStore := {
  keyGenerator : nat;
  rows : list AttendanceRecord
}.

(** [db.createObjectStore(STORE_NAME, { keyPath: 'id', autoIncrement: true })]. *)
Definition createObjectStore : ObjectStore :=
  {| keyGenerator := 1; rows := [] |}.

(** The store keeps its records ordered by key. *)
Fixpoint insertByKey (r : AttendanceRecord) (l : list AttendanceRecord)
  : list AttendanceRecord :=
  match l with
  | [] => [r]
  | x :: rest =>
      if id r <? id x then r :: x :: rest else x :: insertByKey r rest
  end.

(** [store.add(value)] for a value without [id]: the generator supplies the
    key, which is also the request's result. *)
Definition add (value : FormData) (stamp : N) (st : ObjectStore)
  : nat * ObjectStore :=
  let key := keyGenerator st in
  (key, {| keyGenerator := S key;
           rows := insertByKey {| id := key; data := value; timestamp := stamp |}
                               (rows st) |}).

(** [store.getAll()]: every record, in ascending key order. *)
Definition getAll (st : ObjectStore) : list AttendanceRecord := rows st.

(** [store.delete(key)]: succeeds whether or not the key is there. *)
Definition delete (key : nat) (st : ObjectStore) : ObjectStore :=
  {| keyGenerator := keyGenerator st;
     rows := filter (fun r => negb (id r =? key)) (rows st) |}.

(** [store.clear()]. *)
Definition clear (st : ObjectStore) : ObjectStore :=
  {| keyGenerator := keyGenerator st; rows := [] |}.

Definition keys (st : ObjectStore) : list nat := map id (rows st).

(** What the platform maintains: keys ascending without repetition, and all
    of them handed out by the generator already. *)
Definition wf (st : ObjectStore) : Prop :=
  StronglySorted (fun x y => id x < id y) (rows st)
  /\ Forall (fun r => id r < keyGenerator st) (rows st).

End IDB.

(** ** The browser *)

(** What the platform does to one adapter call. *)
Inductive Fault :=
| NoFault
| NoIndexedDB                      (* [window.indexedDB] is missing *)
| OpenError (e : JsError)          (* the open request fires [onerror] *)
| TransactionError (e : JsError)   (* [db.transaction] or [objectStore] throws *)
| RequestError (e : JsError).      (* the store request fires [onerror] *)

Inductive Call :=
| CallAdd (recordData : FormData)
| CallGetAll
| CallDelete (key : nat)
| CallClear.

(** [eventConfig.eventDate]: what a date input delivered, or the day taken from
    the clock by [new Date().toISOString().split('T')[0]], a function of the
    UTC day number. *)
Inductive DateValue :=
| DateText (s : string)
| UtcDay (day : N).

Record EventConfig := {
  activityName : string;
  venue : string;
  eventDate : DateValue
}.

(** The three timers the effects of [App] create; each holds the milliseconds
    left, [None] when it is not set. *)
Record Timers := {
  clearTimer : option N;     (* resets [confirmClear] *)
  deleteTimer : option N;    (* resets [confirmDeleteId] *)
  successTimer : option N    (* wipes a success message *)
}.

Definition noTimers : Timers :=
  {| clearTimer := None; deleteTimer := None; successTimer := None |}.

(** Everything mutable outside the React state: the browser and the refs. *)
Record World := {
  database : option IDB.ObjectStore;   (* [None]: not created yet *)
  localStorage : option EventConfig;   (* the [eventConfig] slot, parsed *)
  now : N;                             (* [Date.now()] *)
  canvasImage : string;                (* what [canvas.toDataURL] returns *)
  isDrawing : bool;                    (* [isDrawingRef.current] *)
  timers : Timers;                     (* the pending [setTimeout] calls *)
  oracle : list Fault;                 (* faults of the coming adapter calls *)
  calls : list Call;                   (* adapter calls made, latest first *)
  inflight : list string               (* [fetchRecords] calls not yet settled,
                                          each with the [message] it closed over *)
}.

Definition setDatabase (v : option IDB.ObjectStore) (w : World) : World :=
  {| database := v; localStorage := localStorage w; now := now w;
     canvasImage := canvasImage w; isDrawing := isDrawing w;
     timers := timers w; oracle := oracle w; calls := calls w;
     inflight := inflight w |}.

Definition setLocalStorage (v : option EventConfig) (w : World) : World :=
  {| database := database w; localStorage := v; now := now w;
     canvasImage := canvasImage w; isDrawing := isDrawing w;
     timers := timers w; oracle := oracle w; calls := calls w;
     inflight := inflight w |}.

Definition setNow (v : N) (w : World) : World :=
  {| database := database w; localStorage := localStorage w; now := v;
     canvasImage := canvasImage w; isDrawing := isDrawing w;
     timers := timers w; oracle := oracle w; calls := calls w;
     inflight := inflight w |}.

Definition setCanvasImage (v : string) (w : World) : World :=
  {| database := database w; localStorage := localStorage w; now := now w;
     canvasImage := v; isDrawing := isDrawing w; timers := timers w;
     oracle := oracle w; calls := calls w; inflight := inflight w |}.

Definition setIsDrawing (v : bool) (w : World) : World :=
  {| database := database w; localStorage := localStorage w; now := now w;
     canvasImage := canvasImage w; isDrawing := v; timers := timers w;
     oracle := oracle w; calls := calls w; inflight := inflight w |}.

Definition setTimers (v : Timers) (w : World) : World :=
  {| database := database w; localStorage := localStorage w; now := now w;
     canvasImage := canvasImage w; isDrawing := isDrawing w; timers := v;
     oracle := oracle w; calls := calls w; inflight := inflight w |}.

Definition setOracle (v : list Fault) (w : World) : World :=
  {| database := database w; localStorage := localStorage w; now := now w;
     canvasImage := canvasImage w; isDrawing := isDrawing w;
     timers := timers w; oracle := v; calls := calls w;
     inflight := inflight w |}.

Definition setCalls (v : list Call) (w : World) : World :=
  {| database := database w; localStorage := localStorage w; now := now w;
     canvasImage := canvasImage w; isDrawing := isDrawing w;
     timers := timers w; oracle := oracle w; calls := v;
     inflight := inflight w |}.

Definition setInflight (v : list string) (w : World) : World :=
  {| database := database w; localStorage := localStorage w; now := now w;
     canvasImage := canvasImage w; isDrawing := isDrawing w;
     timers := timers w; oracle := oracle w; calls := calls w;
     inflight := v |}.

(** The object store as the next transaction sees it: a database that was never
    opened has its store created, empty, by [onupgradeneeded]. *)
Definition store (w : World) : IDB.ObjectStore :=
  match database w with
  | Some st => st
  | None => IDB.createObjectStore
  end.

(** The collection: the records in the store. *)
Definition collection (w : World) : list AttendanceRecord := IDB.rows (store w).

(** ** The adapter *)

(** Takes the fault of the coming call from the oracle and logs the call. *)
Definition begin (c : Call) (w : World) : Fault * World :=
  (hd NoFault (oracle w), setOracle (tl (oracle w)) (setCalls (c :: calls w) w)).

(** [openDB]: rejects when IndexedDB is missing or the open request fails;
    otherwise creates the store if the database has none and resolves. *)
Definition openDB (f : Fault) (w : World) : Settled unit * World :=
  match f with
  | NoIndexedDB =>
      (Rejected (mkError "IndexedDB is not supported by this browser."), w)
  | OpenError e => (Rejected e, w)
  | _ => (Fulfilled tt, setDatabase (Some (store w)) w)
  end.

(** The world a store request runs in: the call taken note of, the database
    open. *)
Definition opened (c : Call) (w : World) : World :=
  setDatabase (Some (store w)) (snd (begin c w)).

(** The shape shared by the four adapter functions: [await openDB()] and the
    opening of the transaction sit inside [try], so their failures reach
    [catch] and become [new Error(IDB_ERROR_MESSAGE)]; the promise around the
    store request is returned without [await], so its rejection passes the
    [catch] by and reaches the caller as the request's own error. *)
Definition withStore {A : Type} (c : Call)
  (request : World -> A * World) (w : World) : Settled A * World :=
  let (f, w0) := begin c w in
  match openDB f w0 with
  | (Rejected _, w1) => (Rejected (mkError IDB_ERROR_MESSAGE), w1)
  | (Fulfilled _, w1) =>
      match f with
      | TransactionError _ => (Rejected (mkError IDB_ERROR_MESSAGE), w1)
      | RequestError e => (Rejected e, w1)
      | _ => let (v, w2) := request w1 in (Fulfilled v, w2)
      end
  end.

(** [addRecord(recordData)]. *)
Definition addRecord (recordData : FormData) (w : World) : Settled nat * World :=
  withStore (CallAdd recordData)
    (fun w1 =>
       let (key, st) := IDB.add recordData (now w1) (store w1) in
       (key, setDatabase (Some st) w1))
    w.

(** [getAllRecords()]: the store's records, reversed for newest first. *)
Definition getAllRecords (w : World) : Settled (list AttendanceRecord) * World :=
  withStore CallGetAll (fun w1 => (rev (IDB.getAll (store w1)), w1)) w.

(** [deleteRecord(id)]. *)
Definition deleteRecord (key : nat) (w : World) : Settled bool * World :=
  withStore (CallDelete key)
    (fun w1 => (true, setDatabase (Some (IDB.delete key (store w1))) w1))
    w.

(** [deleteAllRecords()]. *)
Definition deleteAllRecords (w : World) : Settled bool * World :=
  withStore CallClear
    (fun w1 => (true, setDatabase (Some (IDB.clear (store w1))) w1))
    w.

(** ** The component state

    The [useState] values of [App]. *)

Inductive Page := setup | form | records.

Definition Page_eqb (a b : Page) : bool :=
  match a, b with
  | setup, setup | form, form | records, records => true
  | _, _ => false
  end.

Record AppState := {
  formData : FormData;
  storedRecords : list AttendanceRecord;
  eventConfig : EventConfig;
  message : string;
  isDBReady : bool;
  confirmClear : bool;
  confirmDeleteId : option nat;
  currentPage : Page;
  signatureCaptured : bool
}.

Definition setFormData (v : FormData) (s : AppState) : AppState :=
  {| formData := v; storedRecords := storedRecords s;
     eventConfig := eventConfig s; message := message s;
     isDBReady := isDBReady s; confirmClear := confirmClear s;
     confirmDeleteId := confirmDeleteId s; currentPage := currentPage s;
     signatureCaptured := signatureCaptured s |}.

Definition setStoredRecords (v : list AttendanceRecord) (s : AppState) : AppState :=
  {| formData := formData s; storedRecords := v;
     eventConfig := eventConfig s; message := message s;
     isDBReady := isDBReady s; confirmClear := confirmClear s;
     confirmDeleteId := confirmDeleteId s; currentPage := currentPage s;
     signatureCaptured := signatureCaptured s |}.

Definition setEventConfig (v : EventConfig) (s : AppState) : AppState :=
  {| formData := formData s; storedRecords := storedRecords s;
     eventConfig := v; message := message s; isDBReady := isDBReady s;
     confirmClear := confirmClear s; confirmDeleteId := confirmDeleteId s;
     currentPage := currentPage s;
     signatureCaptured := signatureCaptured s |}.

Definition setMessage (v : string) (s : AppState) : AppState :=
  {| formData := formData s; storedRecords := storedRecords s;
     eventConfig := eventConfig s; message := v; isDBReady := isDBReady s;
     confirmClear := confirmClear s; confirmDeleteId := confirmDeleteId s;
     currentPage := currentPage s;
     signatureCaptured := signatureCaptured s |}.

Definition setIsDBReady (v : bool) (s : AppState) : AppState :=
  {| formData := formData s; storedRecords := storedRecords s;
     eventConfig := eventConfig s; message := message s; isDBReady := v;
     confirmClear := confirmClear s; confirmDeleteId := confirmDeleteId s;
     currentPage := currentPage s;
     signatureCaptured := signatureCaptured s |}.

Definition setConfirmClear (v : bool) (s : AppState) : AppState :=
  {| formData := formData s; storedRecords := storedRecords s;
     eventConfig := eventConfig s; message := message s;
     isDBReady := isDBReady s; confirmClear := v;
     confirmDeleteId := confirmDeleteId s; currentPage := currentPage s;
     signatureCaptured := signatureCaptured s |}.

Definition setConfirmDeleteId (v : option nat) (s : AppState) : AppState :=
  {| formData := formData s; storedRecords := storedRecords s;
     eventConfig := eventConfig s; message := message s;
     isDBReady := isDBReady s; confirmClear := confirmClear s;
     confirmDeleteId := v; currentPage := currentPage s;
     signatureCaptured := signatureCaptured s |}.

Definition setCurrentPage (v : Page) (s : AppState) : AppState :=
  {| formData := formData s; storedRecords := storedRecords s;
     eventConfig := eventConfig s; message := message s;
     isDBReady := isDBReady s; confirmClear := confirmClear s;
     confirmDeleteId := confirmDeleteId s; currentPage := v;
     signatureCaptured := signatureCaptured s |}.

Definition setSignatureCaptured (v : bool) (s : AppState) : AppState :=
  {| formData := formData s; storedRecords := storedRecords s;
     eventConfig := eventConfig s; message := message s;
     isDBReady := isDBReady s; confirmClear := confirmClear s;
     confirmDeleteId := confirmDeleteId s; currentPage := currentPage s;
     signatureCaptured := v |}.

Definition initialFormData : FormData :=
  {| completeName := ""; sex := "M"; designation := ""; division := "";
     status := {| pwd := false; senior := false; osy := false |};
     signature := None |}.

(** [new Date().toISOString().split('T')[0]]: the UTC day of the clock. *)
Definition today (w : World) : DateValue := UtcDay (now w / 86400000)%N.

Definition initialEventConfig (w : World) : EventConfig :=
  {| activityName := ""; venue := ""; eventDate := today w |}.

Definition initialState (w : World) : AppState :=
  {| formData := initialFormData;
     storedRecords := [];
     eventConfig := initialEventConfig w;
     message := "";
     isDBReady := false;
     confirmClear := false;
     confirmDeleteId := None;
     currentPage := setup;
     signatureCaptured := false |}.

(** A canvas nothing was drawn on, as [toDataURL] reports it. *)
Definition blankCanvas : string := "data:image/png;base64,".

(** [canvasRef.current] is set while [FormView] is rendered. *)
Definition canvasMounted (s : AppState) : bool := Page_eqb (currentPage s) form.

Definition option_nat_eqb (a b : option nat) : bool :=
  match a, b with
  | Some x, Some y => x =? y
  | None, None => true
  | _, _ => false
  end.

(** ** Handlers *)

(** The call [fetchRecords()]: the request is under way; it settles in
    [fetchRecordsSettle].  The function called is the one of the render the
    caller belongs to, so it tests the [message] of that render. *)
Definition fetchRecords (closedMessage : string) (w : World) : World :=
  setInflight (inflight w ++ [closedMessage]) w.

(** What [fetchRecords] does once [getAllRecords] has settled. *)
Definition fetchRecordsSettle (closedMessage : string) (s : AppState) (w : World)
  : AppState * World :=
  match getAllRecords w with
  | (Fulfilled fetched, w1) =>
      let s1 := setIsDBReady true (setStoredRecords fetched s) in
      (if negb (Str.includes "success" closedMessage)
          && negb (Str.includes "confirm" closedMessage)
          && negb (Str.includes "SURE" closedMessage)
       then setMessage "" s1 else s1,
       w1)
  | (Rejected _, w1) => (setIsDBReady false (setMessage IDB_ERROR_MESSAGE s), w1)
  end.

Definition handleClearSignature (s : AppState) (w : World) : AppState * World :=
  if canvasMounted s
  then (setSignatureCaptured false s, setCanvasImage blankCanvas w)
  else (s, w).

(** The [name] attributes of the inputs wired to [handleInputChange]. *)
Inductive InputName := nameCompleteName | nameSex | nameDesignation | nameDivision.

(** [{ ...prev, [name]: value }]. *)
Definition assignField (name : InputName) (value : string) (prev : FormData)
  : FormData :=
  match name with
  | nameCompleteName =>
      {| completeName := value; sex := sex prev; designation := designation prev;
         division := division prev; status := status prev;
         signature := signature prev |}
  | nameSex =>
      {| completeName := completeName prev; sex := value;
         designation := designation prev; division := division prev;
         status := status prev; signature := signature prev |}
  | nameDesignation =>
      {| completeName := completeName prev; sex := sex prev; designation := value;
         division := division prev; status := status prev;
         signature := signature prev |}
  | nameDivision =>
      {| completeName := completeName prev; sex := sex prev;
         designation := designation prev; division := value;
         status := status prev; signature := signature prev |}
  end.

Definition handleInputChange (name : InputName) (value : string)
  (s : AppState) (w : World) : AppState * World :=
  (setConfirmDeleteId None
     (setConfirmClear false
        (setFormData (assignField name value (formData s)) s)),
   w).

(** The [name] attributes of the inputs of [ConfigView]. *)
Inductive ConfigName := nameActivityName | nameVenue | nameEventDate.

Definition assignConfig (name : ConfigName) (value : string) (c : EventConfig)
  : EventConfig :=
  match name with
  | nameActivityName =>
      {| activityName := value; venue := venue c; eventDate := eventDate c |}
  | nameVenue =>
      {| activityName := activityName c; venue := value; eventDate := eventDate c |}
  | nameEventDate =>
      {| activityName := activityName c; venue := venue c;
         eventDate := DateText value |}
  end.

(** Writes the state and the local-storage slot; [JSON.stringify] followed by
    [JSON.parse] gives back an object of three strings as it was. *)
Definition handleConfigChange (name : ConfigName) (value : string)
  (s : AppState) (w : World) : AppState * World :=
  let newConfig := assignConfig name value (eventConfig s) in
  (setEventConfig newConfig s, setLocalStorage (Some newConfig) w).

(** The [name] attributes of the three check boxes. *)
Inductive StatusName := namePwd | nameSenior | nameOsy.

Definition assignStatus (name : StatusName) (checked : bool) (st : Status) : Status :=
  match name with
  | namePwd => {| pwd := checked; senior := senior st; osy := osy st |}
  | nameSenior => {| pwd := pwd st; senior := checked; osy := osy st |}
  | nameOsy => {| pwd := pwd st; senior := senior st; osy := checked |}
  end.

Definition handleStatusChange (name : StatusName) (checked : bool)
  (s : AppState) (w : World) : AppState * World :=
  let prev := formData s in
  (setConfirmDeleteId None
     (setConfirmClear false
        (setFormData
           {| completeName := completeName prev; sex := sex prev;
              designation := designation prev; division := division prev;
              status := assignStatus name checked (status prev);
              signature := signature prev |} s)),
   w).

(** [{ ...formData, signature: signatureData }]. *)
Definition withSignature (signatureData : string) (f : FormData) : FormData :=
  {| completeName := completeName f; sex := sex f; designation := designation f;
     division := division f; status := status f;
     signature := Some signatureData |}.

Definition blank (field : string) : bool := negb (Str.truthy (Str.trim field)).

Definition handleSubmit (s : AppState) (w : World) : AppState * World :=
  if blank (completeName (formData s)) || blank (designation (formData s))
     || blank (division (formData s))
  then (setMessage "Please fill in all required fields (indicated by *)." s, w)
  else if negb (signatureCaptured s)
  then (setMessage "Please provide a signature in section 6." s, w)
  else if negb (canvasMounted s)
  then (setMessage "Error: Signature canvas not found." s, w)
  else
    let signatureData := canvasImage w in
    if negb (isDBReady s)
    then (setMessage "Database not ready. Cannot save." s, w)
    else
      let newRecord := withSignature signatureData (formData s) in
      match addRecord newRecord w with
      | (Fulfilled _, w1) =>
          let (s1, w2) := handleClearSignature (setFormData initialFormData s) w1 in
          (setConfirmDeleteId None
             (setConfirmClear false (setMessage IDB_SUCCESS_MESSAGE s1)),
           fetchRecords (message s) w2)
      | (Rejected error, w1) =>
          (setMessage (Str.orElse (errMessage error) IDB_ERROR_MESSAGE) s, w1)
      end.

(** [storedRecords.find(r => r.id === id)?.completeName] inside a template
    literal: a record that is not found prints as [undefined]. *)
Definition recordName (key : nat) (s : AppState) : string :=
  match find (fun r => id r =? key) (storedRecords s) with
  | Some r => completeName (data r)
  | None => "undefined"
  end.

Definition confirmDeleteMessage (name : string) : string :=
  "Click the icon again next to " ++ Str.dquote ++ name ++ Str.dquote
  ++ " to CONFIRM deletion. This action is irreversible.".

Definition handleDelete (key : nat) (s : AppState) (w : World) : AppState * World :=
  if negb (isDBReady s) then (s, w)
  else if option_nat_eqb (confirmDeleteId s) (Some key)
  then
    match deleteRecord key w with
    | (Fulfilled _, w1) =>
        (setConfirmDeleteId None (setMessage IDB_DELETE_MESSAGE s),
         fetchRecords (message s) w1)
    | (Rejected error, w1) =>
        (setMessage (Str.orElse (errMessage error) "Error deleting record.") s, w1)
    end
  else
    (setConfirmClear false
       (setConfirmDeleteId (Some key)
          (setMessage (confirmDeleteMessage (recordName key s)) s)),
     w).

Definition confirmClearMessage : string :=
  "ARE YOU SURE? Click this button again to CONFIRM deleting ALL records.".

Definition handleClearAll (s : AppState) (w : World) : AppState * World :=
  if negb (isDBReady s) then (s, w)
  else if confirmClear s
  then
    match deleteAllRecords w with
    | (Fulfilled _, w1) =>
        (setConfirmDeleteId None
           (setConfirmClear false (setMessage IDB_CLEAR_ALL_MESSAGE s)),
         fetchRecords (message s) w1)
    | (Rejected error, w1) =>
        (setMessage (Str.orElse (errMessage error) "Error clearing all records.") s,
         w1)
    end
  else
    (setConfirmDeleteId None
       (setConfirmClear true (setMessage confirmClearMessage s)),
     w).

(** The three tab buttons; only the one of the records page resets the
    confirmations. *)
Definition handleNavigate (p : Page) (s : AppState) (w : World) : AppState * World :=
  match p with
  | records =>
      (setConfirmDeleteId None (setConfirmClear false (setCurrentPage records s)),
       w)
  | _ => (setCurrentPage p s, w)
  end.

(** The canvas listeners, attached while the form page is shown.  A stroke is
    kept as the image the canvas shows after it. *)
Definition startDrawing (s : AppState) (w : World) : AppState * World :=
  if negb (isDBReady s) then (s, w)
  else (setSignatureCaptured true s, setIsDrawing true w).

Definition draw (image : string) (s : AppState) (w : World) : AppState * World :=
  if negb (isDrawing w) then (s, w) else (s, setCanvasImage image w).

Definition stopDrawing (s : AppState) (w : World) : AppState * World :=
  (s, setIsDrawing false w).

(** ** Timer callbacks *)

(** [() => setConfirmClear(false)]. *)
Definition clearTimerCallback (s : AppState) : AppState := setConfirmClear false s.

(** Resets [confirmDeleteId] and wipes the message if it is the one named.
    The callback reads the [message] of the render that set the timer, which is
    the current one: a change of [message] sets the timer anew. *)
Definition deleteTimerCallback (s : AppState) : AppState :=
  let s1 := setConfirmDeleteId None s in
  if Str.includes "Click the trash icon again" (message s)
  then setMessage "" s1 else s1.

(** [() => setMessage('')]. *)
Definition successTimerCallback (s : AppState) : AppState := setMessage "" s.

(** ** Effects

    [runEffects first p s w] runs, in the order of the source, the effects
    whose dependencies differ between the previous render [p] and the new one
    [s] (all of them on the first render).  An effect that runs again first
    cancels the timer it had set. *)

Definition setClearTimer (v : option N) (t : Timers) : Timers :=
  {| clearTimer := v; deleteTimer := deleteTimer t;
     successTimer := successTimer t |}.

Definition setDeleteTimer (v : option N) (t : Timers) : Timers :=
  {| clearTimer := clearTimer t; deleteTimer := v;
     successTimer := successTimer t |}.

Definition setSuccessTimer (v : option N) (t : Timers) : Timers :=
  {| clearTimer := clearTimer t; deleteTimer := deleteTimer t;
     successTimer := v |}.

(** The body of the effect on [[fetchRecords]], before it calls
    [fetchRecords]: the configuration is read back from local storage, or its
    date set to today when nothing was saved. *)
Definition loadedConfig (prev : EventConfig) (w : World) : EventConfig :=
  match localStorage w with
  | Some savedConfig => savedConfig
  | None =>
      {| activityName := activityName prev; venue := venue prev;
         eventDate := today w |}
  end.

Definition loadEventConfig (s : AppState) (w : World) : AppState :=
  setEventConfig (loadedConfig (eventConfig s) w) s.

Definition runEffects (first : bool) (p s : AppState) (w : World)
  : AppState * World :=
  let messageChanged := first || negb (message p =? message s)%string in
  let clearChanged := first || negb (Bool.eqb (confirmClear p) (confirmClear s)) in
  let deleteChanged :=
    first || negb (option_nat_eqb (confirmDeleteId p) (confirmDeleteId s)) in
  let canvasChanged :=
    first || negb (Bool.eqb (isDBReady p) (isDBReady s))
    || negb (Page_eqb (currentPage p) (currentPage s)) in
  (* [fetchRecords] is made anew when [message] changes *)
  let s1 := if messageChanged then loadEventConfig s w else s in
  let w1 := if messageChanged then fetchRecords (message s) w else w in
  (* [confirmClear] *)
  let w2 :=
    if clearChanged
    then setTimers
           (setClearTimer (if confirmClear s then Some 5000%N else None) (timers w1)) w1
    else w1 in
  (* [confirmDeleteId, message] *)
  let w3 :=
    if deleteChanged || messageChanged
    then setTimers
           (setDeleteTimer
              (match confirmDeleteId s with Some _ => Some 5000%N | None => None end)
              (timers w2)) w2
    else w2 in
  (* [message] *)
  let w4 :=
    if messageChanged
    then setTimers
           (setSuccessTimer
              (if Str.includes "success" (message s) then Some 3000%N else None)
              (timers w3)) w3
    else w3 in
  (* [isDBReady, currentPage]: sizing the canvas wipes it *)
  let w5 :=
    if canvasChanged && canvasMounted s then setCanvasImage blankCanvas w4 else w4 in
  (s1, w5).

(** Renders until nothing is under way: the effects of the new render run, then
    the oldest [fetchRecords] call settles, which is a new render. *)
Fixpoint settle (fuel : nat) (first : bool) (p s : AppState) (w : World)
  : AppState * World :=
  let (s1, w1) := runEffects first p s w in
  match fuel, inflight w1 with
  | S fuel', closedMessage :: rest =>
      let (s2, w2) := fetchRecordsSettle closedMessage s1 (setInflight rest w1) in
      settle fuel' false s1 s2 w2
  | _, _ => (s1, w1)
  end.

(** Enough rounds for [settle] to come to rest (lemma [render_at_rest]). *)
Definition settleFuel (w : World) : nat :=
  List.length (inflight w) + 2 * List.length (oracle w) + 2.

Definition render (p s : AppState) (w : World) : AppState * World :=
  settle (settleFuel w) false p s w.

(** ** Time *)

Definition countDown (t : option N) : option N :=
  match t with
  | Some k => Some (N.pred k)
  | None => None
  end.

Definition due (t : option N) : bool :=
  match t with
  | Some k => (k =? 0)%N
  | None => false
  end.

Definition fireClearTimer (c : AppState * World) : AppState * World :=
  let (s, w) := c in
  if due (clearTimer (timers w))
  then render s (clearTimerCallback s) (setTimers (setClearTimer None (timers w)) w)
  else c.

Definition fireDeleteTimer (c : AppState * World) : AppState * World :=
  let (s, w) := c in
  if due (deleteTimer (timers w))
  then render s (deleteTimerCallback s) (setTimers (setDeleteTimer None (timers w)) w)
  else c.

Definition fireSuccessTimer (c : AppState * World) : AppState * World :=
  let (s, w) := c in
  if due (successTimer (timers w))
  then render s (successTimerCallback s)
         (setTimers (setSuccessTimer None (timers w)) w)
  else c.

(** One millisecond passes; the timers that run out fire. *)
Definition tick (c : AppState * World) : AppState * World :=
  let (s, w) := c in
  let t := timers w in
  let w1 :=
    setNow (now w + 1)%N
      (setTimers {| clearTimer := countDown (clearTimer t);
                    deleteTimer := countDown (deleteTimer t);
                    successTimer := countDown (successTimer t) |} w) in
  fireSuccessTimer (fireDeleteTimer (fireClearTimer (s, w1))).

Definition elapse (ms : N) (c : AppState * World) : AppState * World :=
  N.iter ms tick c.

(** ** Events *)

(** The inputs wired to [handleInputChange]: three text fields and the two
    radio buttons of [sex], whose values are fixed. *)
Inductive FormInput :=
| CompleteNameInput (value : string)
| SexRadioM
| SexRadioF
| DesignationInput (value : string)
| DivisionInput (value : string).

Definition targetName (i : FormInput) : InputName :=
  match i with
  | CompleteNameInput _ => nameCompleteName
  | SexRadioM | SexRadioF => nameSex
  | DesignationInput _ => nameDesignation
  | DivisionInput _ => nameDivision
  end.

Definition targetValue (i : FormInput) : string :=
  match i with
  | CompleteNameInput v | DesignationInput v | DivisionInput v => v
  | SexRadioM => "M"
  | SexRadioF => "F"
  end.

Inductive Event :=
| Navigate (p : Page)
| ConfigChange (name : ConfigName) (value : string)
| InputChange (input : FormInput)
| StatusChange (name : StatusName) (checked : bool)
| PointerDown
| PointerMove (image : string)
| PointerUp
| ClearSignatureClick
| Submit
| DeleteClick (key : nat)
| ClearAllClick
| Elapse (ms : N).

(** The handler an event reaches.  The canvas has listeners on the form page
    only. *)
Definition handle (e : Event) (s : AppState) (w : World) : AppState * World :=
  match e with
  | Navigate p => handleNavigate p s w
  | ConfigChange name value => handleConfigChange name value s w
  | InputChange input => handleInputChange (targetName input) (targetValue input) s w
  | StatusChange name checked => handleStatusChange name checked s w
  | PointerDown => if canvasMounted s then startDrawing s w else (s, w)
  | PointerMove image => if canvasMounted s then draw image s w else (s, w)
  | PointerUp => if canvasMounted s then stopDrawing s w else (s, w)
  | ClearSignatureClick => handleClearSignature s w
  | Submit => handleSubmit s w
  | DeleteClick key => handleDelete key s w
  | ClearAllClick => handleClearAll s w
  | Elapse _ => (s, w)
  end.

(** One event, with the faults the platform has in store for the adapter calls
    it leads to. *)
Definition step (e : Event) (faults : list Fault) (c : AppState * World)
  : AppState * World :=
  let (s, w) := c in
  let w0 := setOracle faults w in
  match e with
  | Elapse ms => elapse ms (s, w0)
  | _ => let (s1, w1) := handle e s w0 in render s s1 w1
  end.

(** The browser when the page is loaded. *)
Definition pageLoad (db : option IDB.ObjectStore) (saved : option EventConfig)
  (clock : N) (faults : list Fault) : World :=
  {| database := db; localStorage := saved; now := clock;
     canvasImage := blankCanvas; isDrawing := false; timers := noTimers;
     oracle := faults; calls := []; inflight := [] |}.

(** The first render and its effects. *)
Definition boot (w : World) : AppState * World :=
  settle (settleFuel w) true (initialState w) (initialState w) w.

(** The database the page finds is one the platform has kept. *)
Definition kept (db : option IDB.ObjectStore) : Prop :=
  match db with
  | Some st => IDB.wf st
  | None => True
  end.

Inductive reachable : AppState * World -> Prop :=
| reach_boot db saved clock faults :
    kept db -> reachable (boot (pageLoad db saved clock faults))
| reach_step c e faults :
    reachable c -> reachable (step e faults c).

(** ** What the views offer *)

(** [RecordsView] shows the trash button of a record when the page is the
    records page, the database is ready and the record is in the list. *)
Definition deleteButtonShown (key : nat) (s : AppState) : bool :=
  Page_eqb (currentPage s) records && isDBReady s
  && existsb (fun r => id r =? key) (storedRecords s).

(** The clear-all button is there on the records page and enabled when the
    database is ready and the list is not empty. *)
Definition clearAllEnabled (s : AppState) : bool :=
  Page_eqb (currentPage s) records && isDBReady s
  && negb (List.length (storedRecords s) =? 0).

(** ** Histories of the record store *)

(** The next [n] adapter calls meet no fault. *)
Fixpoint calmFor (n : nat) (faults : list Fault) : bool :=
  match n, faults with
  | S n', NoFault :: rest => calmFor n' rest
  | S _, _ :: _ => false
  | _, _ => true
  end.

Definition calm (n : nat) (w : World) : Prop := calmFor n (oracle w) = true.

(** What can happen to the store between two moments: adapter calls, each
    meeting the fault the oracle holds for it, and time passing. *)
Inductive Op :=
| OpInsert (recordData : FormData)
| OpListAll
| OpDeleteOne (key : nat)
| OpDeleteAll
| OpWait (ms : N).

Definition runOp (o : Op) (w : World) : World :=
  match o with
  | OpInsert recordData => snd (addRecord recordData w)
  | OpListAll => snd (getAllRecords w)
  | OpDeleteOne key => snd (deleteRecord key w)
  | OpDeleteAll => snd (deleteAllRecords w)
  | OpWait ms => setNow (now w + ms)%N w
  end.

Definition runOps (ops : list Op) (w : World) : World :=
  fold_left (fun acc o => runOp o acc) ops w.

(** [b] comes before [a] in [l]. *)
Definition before {A : Type} (b a : A) (l : list A) : Prop :=
  exists l1 l2 l3, l = l1 ++ b :: l2 ++ a :: l3.

(** The record [addRecord] stores for [recordData] under [key] at time
    [stamp]. *)
Definition stored (key : nat) (recordData : FormData) (stamp : N)
  : AttendanceRecord :=
  {| id := key; data := recordData; timestamp := stamp |}.

(** ** Sample data *)

Module Sample.

Definition noStatus : Status := {| pwd := false; senior := false; osy := false |}.

Definition jane : FormData :=
  {| completeName := "Jane Doe"; sex := "F"; designation := "Engineer";
     division := "R&D"; status := noStatus;
     signature := Some "data:image/png;base64,AAA" |}.

Definition bob : FormData :=
  {| completeName := "Unsuccessful Bob"; sex := "M"; designation := "Clerk";
     division := "Records"; status := noStatus;
     signature := Some "data:image/png;base64,BBB" |}.

(** A browser that has never seen the page. *)
Definition freshBrowser : World := pageLoad None None 0%N [].

Definition quota : JsError :=
  {| errName := "QuotaExceededError";
     errMessage := "The quota has been exceeded." |}.

End Sample.

(** ** Vocabulary of the statements *)

(** The two confirmations. *)
Definition deletePending (s : AppState) : Prop := confirmDeleteId s <> None.
Definition clearPending (s : AppState) : Prop := confirmClear s = true.
Definition idle (s : AppState) : Prop :=
  confirmClear s = false /\ confirmDeleteId s = None.

(** At most one of the two confirmations is pending. *)
Definition exclusive (s : AppState) : Prop :=
  confirmClear s = false \/ confirmDeleteId s = None.

(** What a re-render leaves alone in the component... *)
Definition sameForm (s s' : AppState) : Prop :=
  formData s' = formData s
  /\ confirmClear s' = confirmClear s
  /\ confirmDeleteId s' = confirmDeleteId s
  /\ currentPage s' = currentPage s
  /\ signatureCaptured s' = signatureCaptured s.

(** ... and in the browser. *)
Definition sameDisk (w w' : World) : Prop :=
  store w' = store w
  /\ localStorage w' = localStorage w
  /\ now w' = now w
  /\ isDrawing w' = isDrawing w.

(** The adapter calls made between [w] and [w']. *)
Definition callsSince (w w' : World) (made : list Call) : Prop :=
  calls w' = made ++ calls w.

Definition isInsert (c : Call) : bool :=
  match c with CallAdd _ => true | _ => false end.

Definition isDestructive (c : Call) : bool :=
  match c with CallDelete _ | CallClear => true | _ => false end.

(** The checks of [handleSubmit] before it turns to the adapter. *)
Definition readyToSubmit (s : AppState) : bool :=
  negb (blank (completeName (formData s)))
  && negb (blank (designation (formData s)))
  && negb (blank (division (formData s)))
  && signatureCaptured s && canvasMounted s && isDBReady s.

(** The fault an adapter call meets makes it fail. *)
Definition failing (f : Fault) : bool :=
  match f with NoFault => false | _ => true end.

(** The error a failing adapter call is rejected with. *)
Definition rejection (f : Fault) : JsError :=
  match f with
  | RequestError e => e
  | _ => mkError IDB_ERROR_MESSAGE
  end.

Fixpoint steps (events : list Event) (c : AppState * World) : AppState * World :=
  match events with
  | [] => c
  | e :: rest => steps rest (step e [] c)
  end.

(** What an adapter call [c] that was rejected has done to the browser: the
    call is on record and its fault consumed. *)
Definition afterCall (c : Call) (w w' : World) : Prop :=
  sameDisk w w'
  /\ calls w' = c :: calls w
  /\ oracle w' = tl (oracle w)
  /\ canvasImage w' = canvasImage w
  /\ timers w' = timers w
  /\ inflight w' = inflight w.

(** What the passing of time leaves alone in the component: a confirmation may
    be reset by its timer, never set. *)
Definition mayReset (s s' : AppState) : Prop :=
  formData s' = formData s
  /\ currentPage s' = currentPage s
  /\ signatureCaptured s' = signatureCaptured s
  /\ (confirmClear s' = confirmClear s \/ confirmClear s' = false)
  /\ (confirmDeleteId s' = confirmDeleteId s \/ confirmDeleteId s' = None).

(** The list shown is the store's content, newest first, whenever the
    database counts as ready. *)
Definition synced (s : AppState) (w : World) : Prop :=
  isDBReady s = true -> storedRecords s = rev (collection w).

(** The timers agree with the state they were set for: a confirmation that is
    not pending has no timer, and neither has a message without "success". *)
Definition timersTidy (s : AppState) (w : World) : Prop :=
  (confirmClear s = false -> clearTimer (timers w) = None)
  /\ (confirmDeleteId s = None -> deleteTimer (timers w) = None)
  /\ (Str.includes "success" (message s) = false ->
      successTimer (timers w) = None).

(** The timer the effect on [[confirmDeleteId, message]] leaves. *)
Definition deleteTimerFor (s : AppState) : option N :=
  match confirmDeleteId s with
  | Some _ => Some 5000%N
  | None => None
  end.

(** ** Scenarios *)

Module Scenario.

(** The page loaded in a browser that never saw it. *)
Definition loaded : AppState * World := boot Sample.freshBrowser.

Definition drawn (f : FormData) : string :=
  match signature f with
  | Some image => image
  | None => blankCanvas
  end.

(** Filling the form in and signing it. *)
Definition fillForm (f : FormData) : list Event :=
  [ Navigate form;
    InputChange (CompleteNameInput (completeName f));
    InputChange (if (sex f =? "F")%string then SexRadioF else SexRadioM);
    InputChange (DesignationInput (designation f));
    InputChange (DivisionInput (division f));
    PointerDown; PointerMove (drawn f); PointerUp ].

Definition formFilled : AppState * World := steps (fillForm Sample.jane) loaded.

(** Jane Doe and Unsuccessful Bob have signed in, in this order; the records
    page is shown. *)
Definition twoRecords : AppState * World :=
  steps (fillForm Sample.jane ++ [Submit]
         ++ fillForm Sample.bob ++ [Submit]
         ++ [Navigate records]) loaded.

(** The trash icon of record [key] was clicked once. *)
Definition clickedOnce (key : nat) : AppState * World :=
  step (DeleteClick key) [] twoRecords.

(** The clear-all button was clicked once. *)
Definition clearClickedOnce : AppState * World :=
  step ClearAllClick [] twoRecords.

End Scenario.

(** Between [w] and [w'] the store was read at most: its content and the saved
    configuration are as before and every call made was a [getAllRecords]. *)
Definition onlyReads (w w' : World) : Prop :=
  store w' = store w
  /\ localStorage w' = localStorage w
  /\ exists n, calls w' = repeat CallGetAll n ++ calls w.

(** The values [sex] can take: those of the two radio buttons. *)
Definition sexGiven (s : AppState) : Prop :=
  sex (formData s) = "M" \/ sex (formData s) = "F".

(** ** More of the views and of the display *)

(** [FormView]: the submit button is there on the form page; it is disabled
    while the database is not ready or a required text field is blank. *)
Definition submitEnabled (s : AppState) : bool :=
  Page_eqb (currentPage s) form && isDBReady s
  && negb (blank (completeName (formData s)))
  && negb (blank (designation (formData s)))
  && negb (blank (division (formData s))).

(** [RecordsView]: [isPendingDelete] of a list item, which decides whether its
    button shows the warning icon. *)
Definition isPendingDelete (item : AttendanceRecord) (s : AppState) : bool :=
  option_nat_eqb (Some (id item)) (confirmDeleteId s).

(** The items of the list whose button shows the warning icon. *)
Definition pendingItems (s : AppState) : list AttendanceRecord :=
  filter (fun item => isPendingDelete item s) (storedRecords s).

(** What [getStatusBadges] renders: a row of badges, or the word None. *)
Inductive BadgeView :=
| BadgeRow (labels : list string)
| BadgeNone.

(** [getStatusBadges(status)]; a record without [status] counts as one with
    no flag set. *)
Definition getStatusBadges (status : option Status) : BadgeView :=
  let safeStatus :=
    match status with
    | Some st => st
    | None => {| pwd := false; senior := false; osy := false |}
    end in
  let statuses :=
    (if pwd safeStatus then ["PWD"] else [])
    ++ (if senior safeStatus then ["Senior"] else [])
    ++ (if osy safeStatus then ["OSY"] else []) in
  match statuses with
  | [] => BadgeNone
  | _ => BadgeRow statuses
  end.

(** [message] has none of the three words [fetchRecords] looks for. *)
Definition plain (m : string) : bool :=
  negb (Str.includes "success" m) && negb (Str.includes "confirm" m)
  && negb (Str.includes "SURE" m).

(** The configuration shown is the saved one; with nothing saved, no name and
    no venue were ever entered. *)
Definition configKept (s : AppState) (w : World) : Prop :=
  (forall saved, localStorage w = Some saved -> eventConfig s = saved)
  /\ (localStorage w = None ->
      activityName (eventConfig s) = "" /\ venue (eventConfig s) = "").

(** ** More scenarios *)

(** The four fields filled in, the canvas not touched. *)
Definition fillFields (f : FormData) : list Event :=
  [ Navigate form;
    InputChange (CompleteNameInput (completeName f));
    InputChange (if (sex f =? "F")%string then SexRadioF else SexRadioM);
    InputChange (DesignationInput (designation f));
    InputChange (DivisionInput (division f)) ].

(** Jane has filled in the fields and pressed and released the pointer on the
    canvas without moving it: nothing was drawn. *)
Definition pressedOnly : AppState * World :=
  steps (fillFields Sample.jane ++ [PointerDown; PointerUp]) Scenario.loaded.

(** Jane has filled in the form and signed, looked at the setup page and come
    back to the form page. *)
Definition cameBack : AppState * World :=
  steps [Navigate setup; Navigate form] Scenario.formFilled.


(** The header of [FormView]: [eventConfig.activityName || "Activity
    Attendance"]. *)
Definition headerText (c : EventConfig) : string :=
  Str.orElse (activityName c) "Activity Attendance".

(** The page is loaded again in the browser as it is. *)
Definition reload (w : World) (clock : N) (faults : list Fault)
  : AppState * World :=
  boot (pageLoad (database w) (localStorage w) clock faults).

(** No call of the list meets a fault. *)
Definition faultless (faults : list Fault) : Prop :=
  Forall (fun f => f = NoFault) faults.

(** The messages a settled [fetchRecords] does not wipe, and the one it
    leaves itself. *)
Definition lasting (m : string) : Prop :=
  m = "" \/ plain m = false \/ m = IDB_ERROR_MESSAGE.

(** A timer that does not run out within [k] milliseconds, and what is left
    of it after them. *)
Definition outlasts (k : N) (t : option N) : Prop :=
  match t with
  | Some n => (k < n)%N
  | None => True
  end.

Definition ranFor (k : N) (t : option N) : option N :=
  match t with
  | Some n => Some (n - k)%N
  | None => None
  end.

(** The timer the effect on [[message]] leaves. *)
Definition successTimerFor (m : string) : option N :=
  if Str.includes "success" m then Some 3000%N else None.

(** The events whose handlers set no message and call no adapter function. *)
Definition quiet (e : Event) : bool :=
  match e with
  | Navigate _ | ConfigChange _ _ | InputChange _ | StatusChange _ _
  | PointerDown | PointerMove _ | PointerUp | ClearSignatureClick => true
  | Submit | DeleteClick _ | ClearAllClick | Elapse _ => false
  end.

(** What a user does to sign in: the form page, the four fields, the three
    check boxes, a stroke on the canvas, the submit button. *)
Definition enter (f : FormData) (image : string) : list Event :=
  [ Navigate form;
    InputChange (CompleteNameInput (completeName f));
    InputChange (if (sex f =? "F")%string then SexRadioF else SexRadioM);
    InputChange (DesignationInput (designation f));
    InputChange (DivisionInput (division f));
    StatusChange namePwd (pwd (status f));
    StatusChange nameSenior (senior (status f));
    StatusChange nameOsy (osy (status f));
    PointerDown; PointerMove image; PointerUp;
    Submit ].

(** * Facts about the object store *)

Module IDBFacts.
Import IDB.

Lemma insertByKey_last (r : AttendanceRecord) (l : list AttendanceRecord) :
  Forall (fun x => id x < id r) l -> insertByKey r l = l ++ [r].
Proof.
  induction 1 as [| x rest Hx _ IH]; simpl.
  - reflexivity.
  - apply Nat.lt_asymm in Hx. apply Nat.ltb_nlt in Hx.
    rewrite Hx, IH. reflexivity.
Qed.

Lemma sorted_snoc (l : list AttendanceRecord) (r : AttendanceRecord) :
  StronglySorted (fun x y => id x < id y) l ->
  Forall (fun x => id x < id r) l ->
  StronglySorted (fun x y => id x < id y) (l ++ [r]).
Proof.
  induction 1 as [| x rest Hs IH Hx]; intros Hall; simpl.
  - repeat constructor.
  - inversion Hall; subst. constructor.
    + apply IH; assumption.
    + apply Forall_app. split; [assumption | repeat constructor; assumption].
Qed.

Lemma sorted_filter (keep : AttendanceRecord -> bool) (l : list AttendanceRecord) :
  StronglySorted (fun x y => id x < id y) l ->
  StronglySorted (fun x y => id x < id y) (filter keep l).
Proof.
  induction 1 as [| x rest Hs IH Hx]; simpl.
  - constructor.
  - destruct (keep x); [| assumption].
    constructor; [assumption |].
    rewrite Forall_forall in *. intros y Hy.
    apply filter_In in Hy. apply Hx, Hy.
Qed.

Lemma wf_createObjectStore : wf createObjectStore.
Proof. split; constructor. Qed.

Lemma rows_add (value : FormData) (stamp : N) (st : ObjectStore) :
  wf st ->
  rows (snd (add value stamp st))
  = rows st ++ [stored (keyGenerator st) value stamp].
Proof. intros [_ Hall]. apply insertByKey_last. exact Hall. Qed.

Lemma wf_add (value : FormData) (stamp : N) (st : ObjectStore) :
  wf st -> wf (snd (add value stamp st)).
Proof.
  intros Hwf. pose proof (rows_add value stamp st Hwf) as Hrows.
  destruct Hwf as [Hs Hall]. unfold wf. rewrite Hrows.
  split.
  - apply sorted_snoc; assumption.
  - apply Forall_app. split.
    + eapply Forall_impl; [| exact Hall]. simpl. intros; lia.
    + repeat constructor.
Qed.

Lemma wf_delete (key : nat) (st : ObjectStore) : wf st -> wf (delete key st).
Proof.
  intros [Hs Hall]. split; simpl.
  - apply sorted_filter. exact Hs.
  - rewrite Forall_forall in *. intros y Hy.
    apply filter_In in Hy. apply Hall, Hy.
Qed.

Lemma wf_clear (st : ObjectStore) : wf st -> wf (clear st).
Proof. intros _. split; constructor. Qed.

(** In a store, a record with the smaller key comes first. *)
Lemma sorted_before (l : list AttendanceRecord) (a b : AttendanceRecord) :
  StronglySorted (fun x y => id x < id y) l ->
  In a l -> In b l -> id a < id b -> before a b l.
Proof.
  induction 1 as [| x rest Hs IH Hx]; intros Ha Hb Hlt.
  - destruct Ha.
  - rewrite Forall_forall in Hx.
    destruct Ha as [-> | Ha], Hb as [Hb | Hb]; subst.
    + lia.
    + apply in_split in Hb. destruct Hb as (l2 & l3 & ->).
      exists [], l2, l3. reflexivity.
    + apply Hx in Ha. lia.
    + destruct (IH Ha Hb Hlt) as (l1 & l2 & l3 & ->).
      exists (x :: l1), l2, l3. reflexivity.
Qed.

Lemma before_rev {A : Type} (a b : A) (l : list A) :
  before a b l -> before b a (rev l).
Proof.
  intros (l1 & l2 & l3 & ->).
  exists (rev l3), (rev l2), (rev l1).
  rewrite rev_app_distr. simpl. rewrite rev_app_distr. simpl.
  repeat rewrite <- app_assoc. reflexivity.
Qed.

Lemma sorted_keys_NoDup (l : list AttendanceRecord) :
  StronglySorted (fun x y => id x < id y) l -> NoDup (map id l).
Proof.
  induction 1 as [| x rest Hs IH Hx]; simpl; constructor; [| assumption].
  rewrite Forall_forall in Hx. intros Hin.
  apply in_map_iff in Hin. destruct Hin as (y & Heq & Hy).
  apply Hx in Hy. lia.
Qed.

End IDBFacts.

(** * Facts about the adapter *)

Lemma calm_S (n : nat) (w : World) :
  calm (S n) w ->
  hd NoFault (oracle w) = NoFault /\ calmFor n (tl (oracle w)) = true.
Proof.
  unfold calm. destruct (oracle w) as [| f rest]; simpl.
  - destruct n; auto.
  - destruct f; try discriminate. auto.
Qed.

(** An adapter call either is rejected and leaves the store as it was, or met
    no fault and ran its request on the opened database. *)
Lemma withStore_inv {A : Type} (c : Call) (request : World -> A * World) (w : World) :
  (exists e w', withStore c request w = (Rejected e, w')
                /\ (w' = snd (begin c w) \/ w' = opened c w)
                /\ hd NoFault (oracle w) <> NoFault)
  \/ (hd NoFault (oracle w) = NoFault
      /\ withStore c request w
         = (Fulfilled (fst (request (opened c w))), snd (request (opened c w)))).
Proof.
  unfold withStore, opened, begin, openDB; simpl.
  destruct (hd NoFault (oracle w)) eqn:Hf; simpl.
  - right. split; [reflexivity |].
    destruct (request _); reflexivity.
  - left. eexists _, _. split; [reflexivity |].
    split; [left; reflexivity | discriminate].
  - left. eexists _, _. split; [reflexivity |].
    split; [left; reflexivity | discriminate].
  - left. eexists _, _. split; [reflexivity |].
    split; [right; reflexivity | discriminate].
  - left. eexists _, _. split; [reflexivity |].
    split; [right; reflexivity | discriminate].
Qed.

Lemma withStore_calm {A : Type} (c : Call) (request : World -> A * World) (w : World) :
  calm 1 w ->
  withStore c request w
  = (Fulfilled (fst (request (opened c w))), snd (request (opened c w))).
Proof.
  intros Hc. apply calm_S in Hc. destruct Hc as [Hf _].
  destruct (withStore_inv c request w) as [(e & w' & _ & _ & Hne) | [_ H]].
  - contradiction.
  - exact H.
Qed.

Lemma store_opened (c : Call) (w : World) : store (opened c w) = store w.
Proof. reflexivity. Qed.

Lemma store_begin (c : Call) (w : World) : store (snd (begin c w)) = store w.
Proof. reflexivity. Qed.

(** A rejected call changes nothing in the store. *)
Lemma withStore_rejected {A : Type} (c : Call) (request : World -> A * World)
  (w w' : World) (e : JsError) :
  withStore c request w = (Rejected e, w') -> store w' = store w.
Proof.
  intros H.
  destruct (withStore_inv c request w) as [(e' & w'' & H' & [-> | ->] & _) | [_ H']];
    rewrite H' in H; inversion H; subst; reflexivity.
Qed.

Lemma addRecord_fulfilled (recordData : FormData) (w w' : World) (key : nat) :
  addRecord recordData w = (Fulfilled key, w') ->
  key = IDB.keyGenerator (store w)
  /\ store w' = snd (IDB.add recordData (now w) (store w))
  /\ now w' = now w.
Proof.
  unfold addRecord. intros H.
  destruct (withStore_inv (CallAdd recordData)
              (fun w1 => let (key, st) := IDB.add recordData (now w1) (store w1) in
                         (key, setDatabase (Some st) w1)) w)
    as [(e' & w'' & H' & _) | [_ H']];
    rewrite H' in H; inversion H; subst; clear H.
  simpl. repeat split.
Qed.

Lemma addRecord_store (recordData : FormData) (w : World) :
  store (snd (addRecord recordData w)) = store w
  \/ store (snd (addRecord recordData w)) = snd (IDB.add recordData (now w) (store w)).
Proof.
  destruct (addRecord recordData w) as [[key | e] w'] eqn:H; simpl.
  - right. apply addRecord_fulfilled in H. apply H.
  - left. eapply withStore_rejected. exact H.
Qed.

Lemma getAllRecords_store (w : World) : store (snd (getAllRecords w)) = store w.
Proof.
  unfold getAllRecords.
  destruct (withStore_inv CallGetAll
              (fun w1 => (rev (IDB.getAll (store w1)), w1)) w)
    as [(e' & w'' & H' & [-> | ->] & _) | [_ H']]; rewrite H'; reflexivity.
Qed.

Lemma deleteRecord_store (key : nat) (w : World) :
  store (snd (deleteRecord key w)) = store w
  \/ store (snd (deleteRecord key w)) = IDB.delete key (store w).
Proof.
  unfold deleteRecord.
  destruct (withStore_inv (CallDelete key)
              (fun w1 => (true, setDatabase (Some (IDB.delete key (store w1))) w1)) w)
    as [(e' & w'' & H' & [-> | ->] & _) | [_ H']]; rewrite H'; auto.
Qed.

Lemma deleteAllRecords_store (w : World) :
  store (snd (deleteAllRecords w)) = store w
  \/ store (snd (deleteAllRecords w)) = IDB.clear (store w).
Proof.
  unfold deleteAllRecords.
  destruct (withStore_inv CallClear
              (fun w1 => (true, setDatabase (Some (IDB.clear (store w1))) w1)) w)
    as [(e' & w'' & H' & [-> | ->] & _) | [_ H']]; rewrite H'; auto.
Qed.

(** Every operation keeps the store well formed and never turns the key
    generator back. *)
Lemma runOp_wf (o : Op) (w : World) :
  IDB.wf (store w) ->
  IDB.wf (store (runOp o w))
  /\ IDB.keyGenerator (store w) <= IDB.keyGenerator (store (runOp o w)).
Proof.
  intros Hwf. destruct o as [recordData | | key | | ms]; simpl.
  - destruct (addRecord_store recordData w) as [-> | ->].
    + auto.
    + split; [apply IDBFacts.wf_add; assumption | simpl; lia].
  - rewrite getAllRecords_store. auto.
  - destruct (deleteRecord_store key w) as [-> | ->].
    + auto.
    + split; [apply IDBFacts.wf_delete; assumption | simpl; lia].
  - destruct (deleteAllRecords_store w) as [-> | ->].
    + auto.
    + split; [apply IDBFacts.wf_clear; assumption | simpl; lia].
  - auto.
Qed.

Lemma runOps_wf (ops : list Op) (w : World) :
  IDB.wf (store w) ->
  IDB.wf (store (runOps ops w))
  /\ IDB.keyGenerator (store w) <= IDB.keyGenerator (store (runOps ops w)).
Proof.
  revert w. induction ops as [| o ops IH]; intros w Hwf; simpl.
  - auto.
  - destruct (runOp_wf o w Hwf) as [Hwf1 Hle1].
    destruct (IH _ Hwf1) as [Hwf2 Hle2].
    split; [exact Hwf2 | unfold runOps in *; simpl in *; lia].
Qed.

Lemma runOps_app (ops1 ops2 : list Op) (w : World) :
  runOps (ops1 ++ ops2) w = runOps ops2 (runOps ops1 w).
Proof. apply fold_left_app. Qed.

(** * The adapter operations *)

Lemma filter_twice {A : Type} (keep : A -> bool) (l : list A) :
  filter keep (filter keep l) = filter keep l.
Proof.
  induction l as [| x l IH]; simpl; [reflexivity |].
  destruct (keep x) eqn:Hk; simpl; rewrite ?Hk, ?IH; reflexivity.
Qed.

Lemma filter_absent (key : nat) (l : list AttendanceRecord) :
  ~ In key (map id l) -> filter (fun r => negb (id r =? key)) l = l.
Proof.
  induction l as [| x l IH]; simpl; intros Hn; [reflexivity |].
  destruct (Nat.eqb_spec (id x) key) as [Heq | _]; simpl.
  - exfalso. apply Hn. left. exact Heq.
  - rewrite IH; [reflexivity |]. intros H. apply Hn. right. exact H.
Qed.

Lemma filter_removes (key : nat) (l : list AttendanceRecord) :
  ~ In key (map id (filter (fun r => negb (id r =? key)) l)).
Proof.
  intros H. apply in_map_iff in H. destruct H as (r & Hid & Hin).
  apply filter_In in Hin. destruct Hin as [_ Hne].
  rewrite <- Hid, Nat.eqb_refl in Hne. discriminate.
Qed.

(** C3. [getAllRecords] returns every stored record, newest first: the result
    is the store's content reversed, an empty store gives the empty list and
    not a rejection, and of two records present the one inserted later (by a
    later [addRecord] of the history) comes first. *)
Theorem getAllRecords_newest_first :
  forall (w0 : World) (history : list Op),
    IDB.wf (store w0) ->
    calm 1 (runOps history w0) ->
    exists listed w',
      getAllRecords (runOps history w0) = (Fulfilled listed, w')
      /\ listed = rev (collection (runOps history w0))
      /\ collection w' = collection (runOps history w0)
      /\ (forall r, In r listed <-> In r (collection (runOps history w0)))
      /\ (collection (runOps history w0) = [] -> listed = [])
      /\ (forall earlier a between b later ka kb ra rb,
            history = earlier ++ OpInsert a :: between ++ OpInsert b :: later ->
            fst (addRecord a (runOps earlier w0)) = Fulfilled ka ->
            fst (addRecord b (runOps (earlier ++ OpInsert a :: between) w0))
            = Fulfilled kb ->
            In ra listed -> In rb listed -> id ra = ka -> id rb = kb ->
            before rb ra listed).
Proof.
  intros w0 history Hwf0 Hcalm.
  set (w := runOps history w0) in *.
  exists (rev (collection w)), (opened CallGetAll w).
  split; [| split; [| split; [| split; [| split]]]].
  - unfold getAllRecords. rewrite withStore_calm by exact Hcalm. reflexivity.
  - reflexivity.
  - reflexivity.
  - intros r. symmetry. apply in_rev.
  - intros ->. reflexivity.
  - intros earlier a between b later ka kb ra rb Hhist Ha Hb Hra Hrb Hka Hkb.
    apply IDBFacts.before_rev.
    apply in_rev in Hra. apply in_rev in Hrb.
    destruct (runOps_wf history w0 Hwf0) as [[Hsorted _] _].
    apply IDBFacts.sorted_before; try assumption.
    rewrite Hka, Hkb.
    (* the keys follow the order of insertion *)
    destruct (runOps_wf earlier w0 Hwf0) as [HwfA _].
    set (wA := runOps earlier w0) in *.
    destruct (addRecord a wA) as [resA wA'] eqn:HaddA. simpl in Ha. subst resA.
    destruct (addRecord_fulfilled _ _ _ _ HaddA) as (HkA & HstA & _).
    rewrite runOps_app in Hb. simpl in Hb. fold wA in Hb.
    change (fold_left (fun acc o => runOp o acc) between
              (runOp (OpInsert a) wA))
      with (runOps between (runOp (OpInsert a) wA)) in Hb.
    simpl in Hb. rewrite HaddA in Hb. simpl in Hb.
    assert (HwfA' : IDB.wf (store wA')).
    { rewrite HstA. apply IDBFacts.wf_add. exact HwfA. }
    destruct (runOps_wf between wA' HwfA') as [_ Hle].
    destruct (addRecord b (runOps between wA')) as [resB wB'] eqn:HaddB.
    simpl in Hb. subst resB.
    destruct (addRecord_fulfilled _ _ _ _ HaddB) as (HkB & _).
    rewrite HstA in Hle. simpl in Hle. lia.
Qed.

(** C4. [addRecord] on a record without [id] and [timestamp] stamps it with
    the clock, the store gives it the next key of its generator, which no
    record of the store bears, that key is the result, and a [getAllRecords]
    that follows lists the record first, its submitted fields as they were
    handed in. *)
Theorem addRecord_assigns_id_and_timestamp :
  forall (w : World) (recordData : FormData),
    IDB.wf (store w) ->
    calm 2 w ->
    exists key w',
      addRecord recordData w = (Fulfilled key, w')
      /\ key = IDB.keyGenerator (store w)
      /\ ~ In key (IDB.keys (store w))
      /\ (forall k, In k (IDB.keys (store w)) -> k < key)
      /\ collection w' = collection w ++ [stored key recordData (now w)]
      /\ NoDup (IDB.keys (store w'))
      /\ exists listed w'',
           getAllRecords w' = (Fulfilled listed, w'')
           /\ hd_error listed = Some (stored key recordData (now w))
           /\ (forall r, In r listed -> id r = key ->
                         data r = recordData /\ timestamp r = now w)
           /\ (forall r, In r (collection w) -> In r listed).
Proof.
  intros w recordData Hwf Hcalm.
  pose proof (calm_S _ _ Hcalm) as [Hf Hcalm'].
  assert (Hc1 : calm 1 w).
  { unfold calm in *. destruct (oracle w) as [| f rest]; [reflexivity |].
    simpl in *. destruct f; try discriminate. reflexivity. }
  assert (Hbelow : forall k, In k (IDB.keys (store w)) -> k < IDB.keyGenerator (store w)).
  { intros k Hk. destruct Hwf as [_ Hall]. rewrite Forall_forall in Hall.
    apply in_map_iff in Hk. destruct Hk as (r & <- & Hr). apply Hall, Hr. }
  unfold addRecord. rewrite withStore_calm by exact Hc1.
  set (w1 := opened (CallAdd recordData) w).
  assert (Hrows : IDB.rows (snd (IDB.add recordData (now w) (store w)))
                  = IDB.rows (store w)
                    ++ [stored (IDB.keyGenerator (store w)) recordData (now w)])
    by (apply IDBFacts.rows_add; exact Hwf).
  eexists _, _. split; [reflexivity |]. simpl.
  split; [reflexivity |].
  split; [intros Hin; apply Hbelow in Hin; apply Nat.lt_irrefl in Hin; exact Hin |].
  split; [exact Hbelow |].
  split; [exact Hrows |].
  split.
  { apply IDBFacts.sorted_keys_NoDup.
    apply (IDBFacts.wf_add recordData (now w) _ Hwf). }
  unfold getAllRecords. rewrite withStore_calm by exact Hcalm'.
  eexists _, _. split; [reflexivity |]. simpl.
  unfold IDB.getAll. simpl.
  change (IDB.insertByKey _ _)
    with (IDB.rows (snd (IDB.add recordData (now w) (store w)))).
  rewrite Hrows, rev_app_distr. simpl.
  split; [reflexivity |].
  split.
  - intros r [<- | Hr] Hid; [split; reflexivity |].
    apply in_rev in Hr. exfalso.
    assert (id r < IDB.keyGenerator (store w)).
    { apply Hbelow. apply in_map. exact Hr. }
    change (store w1) with (store w) in Hid. lia.
  - intros r Hr. right. apply (proj1 (in_rev _ r)). exact Hr.
Qed.

(** C5. [deleteRecord] is idempotent: it resolves whether or not the key is
    in the store, a key that is absent leaves the collection as it was, and a
    second call for the same key resolves too and changes nothing more. *)
Theorem deleteRecord_idempotent :
  forall (w : World) (key : nat),
    calm 2 w ->
    exists w1 w2,
      deleteRecord key w = (Fulfilled true, w1)
      /\ deleteRecord key w1 = (Fulfilled true, w2)
      /\ collection w1 = filter (fun r => negb (id r =? key)) (collection w)
      /\ ~ In key (map id (collection w1))
      /\ collection w2 = collection w1
      /\ (~ In key (map id (collection w)) -> collection w1 = collection w).
Proof.
  intros w key Hcalm.
  pose proof (calm_S _ _ Hcalm) as [Hf Hcalm'].
  assert (Hc1 : calm 1 w).
  { unfold calm in *. destruct (oracle w) as [| f rest]; [reflexivity |].
    simpl in *. destruct f; try discriminate. reflexivity. }
  unfold deleteRecord. rewrite withStore_calm by exact Hc1.
  eexists _, _. split; [reflexivity |]. simpl.
  rewrite withStore_calm by exact Hcalm'. simpl.
  split; [reflexivity |].
  split; [reflexivity |].
  split; [apply filter_removes |].
  split; [apply filter_twice |].
  apply filter_absent.
Qed.

(** * What a re-render leaves alone *)

Arguments Str.includes : simpl never.
Arguments Str.trim : simpl never.
Arguments String.eqb : simpl never.

(** Case analysis on which dependencies changed. *)
Ltac effects_cases first p s :=
  unfold runEffects;
  generalize (first || negb (message p =? message s)%string);
  generalize (first || negb (Bool.eqb (confirmClear p) (confirmClear s)));
  generalize
    (first || negb (option_nat_eqb (confirmDeleteId p) (confirmDeleteId s)));
  generalize
    (first || negb (Bool.eqb (isDBReady p) (isDBReady s))
     || negb (Page_eqb (currentPage p) (currentPage s)));
  let vc := fresh "canvasChanged" in
  let dc := fresh "deleteChanged" in
  let cc := fresh "clearChanged" in
  let mc := fresh "messageChanged" in
  intros vc dc cc mc; cbv zeta;
  destruct mc, cc, dc, vc; cbn [orb andb].

Lemma sameForm_refl (s : AppState) : sameForm s s.
Proof. repeat split. Qed.

Lemma sameForm_trans (s1 s2 s3 : AppState) :
  sameForm s1 s2 -> sameForm s2 s3 -> sameForm s1 s3.
Proof.
  unfold sameForm. intros (A1 & A2 & A3 & A4 & A5) (B1 & B2 & B3 & B4 & B5).
  repeat split; congruence.
Qed.

Lemma sameDisk_refl (w : World) : sameDisk w w.
Proof. repeat split. Qed.

Lemma sameDisk_trans (w1 w2 w3 : World) :
  sameDisk w1 w2 -> sameDisk w2 w3 -> sameDisk w1 w3.
Proof.
  unfold sameDisk. intros (A1 & A2 & A3 & A4) (B1 & B2 & B3 & B4).
  repeat split; congruence.
Qed.

Lemma loadedConfig_twice (c : EventConfig) (w w' : World) :
  sameDisk w w' -> loadedConfig (loadedConfig c w) w' = loadedConfig c w.
Proof.
  intros (_ & Hls & Hnow & _). unfold loadedConfig, today.
  rewrite Hls, Hnow. destruct (localStorage w); reflexivity.
Qed.

Lemma loadedConfig_disk (c : EventConfig) (w w' : World) :
  sameDisk w w' -> loadedConfig c w' = loadedConfig c w.
Proof.
  intros (_ & Hls & Hnow & _). unfold loadedConfig, today.
  rewrite Hls, Hnow. reflexivity.
Qed.

(** The effects touch the configuration, the timers, the canvas and the queue
    of requests under way, and nothing else. *)
Lemma runEffects_frame (first : bool) (p s : AppState) (w : World) :
  sameForm s (fst (runEffects first p s w))
  /\ sameDisk w (snd (runEffects first p s w))
  /\ message (fst (runEffects first p s w)) = message s
  /\ isDBReady (fst (runEffects first p s w)) = isDBReady s
  /\ storedRecords (fst (runEffects first p s w)) = storedRecords s
  /\ oracle (snd (runEffects first p s w)) = oracle w
  /\ calls (snd (runEffects first p s w)) = calls w
  /\ (eventConfig (fst (runEffects first p s w)) = eventConfig s
      \/ eventConfig (fst (runEffects first p s w)) = loadedConfig (eventConfig s) w)
  /\ (canvasImage (snd (runEffects first p s w)) = canvasImage w
      \/ canvasImage (snd (runEffects first p s w)) = blankCanvas).
Proof.
  effects_cases first p s; destruct (canvasMounted s);
    unfold sameForm, sameDisk, loadEventConfig, fetchRecords; simpl;
    repeat split; auto.
Qed.

Arguments runEffects : simpl never.

(** A settled [fetchRecords] touches the list, the readiness flag and the
    message; of the browser it consumes one fault and leaves one call. *)
Lemma fetchRecordsSettle_frame (closedMessage : string) (s : AppState) (w : World) :
  sameForm s (fst (fetchRecordsSettle closedMessage s w))
  /\ sameDisk w (snd (fetchRecordsSettle closedMessage s w))
  /\ eventConfig (fst (fetchRecordsSettle closedMessage s w)) = eventConfig s
  /\ oracle (snd (fetchRecordsSettle closedMessage s w)) = tl (oracle w)
  /\ calls (snd (fetchRecordsSettle closedMessage s w)) = CallGetAll :: calls w
  /\ canvasImage (snd (fetchRecordsSettle closedMessage s w)) = canvasImage w
  /\ timers (snd (fetchRecordsSettle closedMessage s w)) = timers w
  /\ inflight (snd (fetchRecordsSettle closedMessage s w)) = inflight w.
Proof.
  unfold fetchRecordsSettle, getAllRecords, withStore, begin, openDB,
    sameForm, sameDisk.
  destruct (hd NoFault (oracle w)); simpl;
    try match goal with
        | |- context [if ?b then _ else _] => destruct b
        end;
    simpl; repeat split.
Qed.

Arguments fetchRecordsSettle : simpl never.

Lemma settle_0 (first : bool) (p s : AppState) (w : World) :
  settle 0 first p s w = runEffects first p s w.
Proof.
  cbn [settle]. destruct (runEffects first p s w) as [s1 w1].
  destruct (inflight w1); reflexivity.
Qed.

Lemma settle_S (fuel : nat) (first : bool) (p s : AppState) (w : World) :
  settle (S fuel) first p s w
  = match inflight (snd (runEffects first p s w)) with
    | [] => runEffects first p s w
    | closedMessage :: rest =>
        let r := fetchRecordsSettle closedMessage (fst (runEffects first p s w))
                   (setInflight rest (snd (runEffects first p s w))) in
        settle fuel false (fst (runEffects first p s w)) (fst r) (snd r)
    end.
Proof.
  cbn [settle]. destruct (runEffects first p s w) as [s1 w1]. cbn [fst snd].
  destruct (inflight w1); [reflexivity |].
  destruct (fetchRecordsSettle _ _ _). reflexivity.
Qed.

Lemma settle_frame (fuel : nat) :
  forall (first : bool) (p s : AppState) (w : World),
    sameForm s (fst (settle fuel first p s w))
    /\ sameDisk w (snd (settle fuel first p s w))
    /\ (exists n, calls (snd (settle fuel first p s w))
                  = repeat CallGetAll n ++ calls w)
    /\ (eventConfig (fst (settle fuel first p s w)) = eventConfig s
        \/ eventConfig (fst (settle fuel first p s w))
           = loadedConfig (eventConfig s) w)
    /\ (canvasImage (snd (settle fuel first p s w)) = canvasImage w
        \/ canvasImage (snd (settle fuel first p s w)) = blankCanvas).
Proof.
  induction fuel as [| fuel IH]; intros first p s w.
  - rewrite settle_0.
    pose proof (runEffects_frame first p s w)
      as (F & D & _ & _ & _ & _ & C & E & V).
    split; [exact F |]. split; [exact D |].
    split; [exists 0; exact C |]. split; assumption.
  - rewrite settle_S.
    pose proof (runEffects_frame first p s w)
      as (F & D & _ & _ & _ & _ & C & E & V).
    destruct (runEffects first p s w) as [s1 w1]. cbn [fst snd] in *.
    destruct (inflight w1) as [| closedMessage rest] eqn:Hq.
    + split; [exact F |]. split; [exact D |].
      split; [exists 0; exact C |]. split; assumption.
    + pose proof (fetchRecordsSettle_frame closedMessage s1 (setInflight rest w1))
        as (F2 & D2 & E2 & _ & C2 & V2 & _).
      cbv zeta.
      destruct (fetchRecordsSettle closedMessage s1 (setInflight rest w1))
        as [s2 w2]. cbn [fst snd] in *.
      specialize (IH false s1 s2 w2).
      destruct IH as (F3 & D3 & (n & C3) & E3 & V3).
      assert (D12 : sameDisk w w2).
      { eapply sameDisk_trans; [exact D |].
        destruct D2 as (A1 & A2 & A3 & A4). repeat split; assumption. }
      split; [| split; [| split; [| split]]].
      * eapply sameForm_trans; [exact F |].
        eapply sameForm_trans; [exact F2 | exact F3].
      * eapply sameDisk_trans; [exact D12 | exact D3].
      * exists (S n). simpl in C2. rewrite C3, C2, C.
        change (repeat CallGetAll (S n) ++ calls w)
          with ((CallGetAll :: repeat CallGetAll n) ++ calls w).
        rewrite repeat_cons, <- app_assoc. reflexivity.
      * rewrite E2 in E3.
        rewrite (loadedConfig_disk _ _ _ D12) in E3.
        destruct E as [E | E]; rewrite E in E3.
        -- exact E3.
        -- right. destruct E3 as [E3 | E3]; rewrite E3; [reflexivity |].
           apply loadedConfig_twice. apply sameDisk_refl.
      * rewrite V2 in V3. simpl in V3.
        destruct V3 as [V3 | V3]; [rewrite V3 | right]; assumption.
Qed.

(** * The re-rendering comes to rest *)

Lemma runEffects_inflight (first : bool) (p s : AppState) (w : World) :
  inflight (snd (runEffects first p s w))
  = inflight w
    ++ (if first || negb (message p =? message s)%string then [message s] else []).
Proof.
  effects_cases first p s; destruct (canvasMounted s); unfold fetchRecords; simpl;
    rewrite ?app_nil_r; reflexivity.
Qed.

(** How a settled [fetchRecords] leaves the message: untouched or wiped when
    the request met no fault, the generic error message when it failed, which
    takes a fault from the oracle. *)
Lemma fetchRecordsSettle_message (closedMessage : string) (s : AppState) (w : World) :
  (message (fst (fetchRecordsSettle closedMessage s w)) = message s
   \/ message (fst (fetchRecordsSettle closedMessage s w)) = "")
  \/ (message (fst (fetchRecordsSettle closedMessage s w)) = IDB_ERROR_MESSAGE
      /\ oracle w <> []).
Proof.
  unfold fetchRecordsSettle, getAllRecords, withStore, begin, openDB.
  destruct (oracle w) as [| f rest]; simpl.
  - left. match goal with |- context [if ?b then _ else _] => destruct b end; auto.
  - destruct f; simpl;
      try (right; split; [reflexivity | discriminate]).
    left. match goal with |- context [if ?b then _ else _] => destruct b end; auto.
Qed.

Lemma b2n_eqb_le (a b : string) :
  b = "" ->
  Nat.b2n (negb (a =? b)%string) + Nat.b2n (negb (b =? "")%string)
  <= Nat.b2n (negb (a =? "")%string).
Proof. intros ->. rewrite String.eqb_refl. simpl. lia. Qed.

Lemma settle_at_rest (fuel : nat) :
  forall (first : bool) (p s : AppState) (w : World),
    List.length (inflight w)
    + Nat.b2n (first || negb (message p =? message s)%string)
    + 2 * List.length (oracle w)
    + Nat.b2n (negb (message s =? "")%string) <= fuel ->
    inflight (snd (settle fuel first p s w)) = [].
Proof.
  induction fuel as [| fuel IH]; intros first p s w Hfuel.
  - rewrite settle_0, runEffects_inflight.
    destruct (inflight w); [| simpl in Hfuel; lia].
    destruct (first || negb (message p =? message s)%string);
      [simpl in Hfuel; lia | reflexivity].
  - rewrite settle_S.
    pose proof (runEffects_inflight first p s w) as Hq.
    pose proof (runEffects_frame first p s w)
      as (_ & _ & Hm & _ & _ & Ho & _).
    destruct (runEffects first p s w) as [s1 w1]. cbn [fst snd] in *.
    destruct (inflight w1) as [| closedMessage rest] eqn:Hq1; [exact Hq1 |].
    cbv zeta.
    pose proof (fetchRecordsSettle_frame closedMessage s1 (setInflight rest w1))
      as (_ & _ & _ & Ho2 & _ & _ & _ & Hq2).
    pose proof (fetchRecordsSettle_message closedMessage s1 (setInflight rest w1))
      as Hm2.
    destruct (fetchRecordsSettle closedMessage s1 (setInflight rest w1))
      as [s2 w2]. cbn [fst snd] in *. simpl in Ho2, Hq2, Hm2.
    apply IH. rewrite Hq2, Ho2, Ho.
    assert (Hlen : S (List.length rest)
                   = List.length (inflight w)
                     + Nat.b2n (first || negb (message p =? message s)%string)).
    { apply (f_equal (@List.length string)) in Hq.
      rewrite length_app in Hq. simpl in Hq. rewrite Hq.
      destruct (first || negb (message p =? message s)%string); reflexivity. }
    assert (Htl : List.length (tl (oracle w)) <= List.length (oracle w)).
    { destruct (oracle w); simpl; lia. }
    rewrite Hm in *. simpl orb.
    destruct Hm2 as [[Hsame | Hwiped] | [Herr Hne]].
    + rewrite Hsame, String.eqb_refl. simpl Nat.b2n. lia.
    + pose proof (b2n_eqb_le (message s) _ Hwiped). lia.
    + assert (S (List.length (tl (oracle w))) = List.length (oracle w)).
      { destruct (oracle w); [contradiction | reflexivity]. }
      destruct (negb (message s =? message s2)%string),
        (negb (message s2 =? "")%string), (negb (message s =? "")%string);
        simpl Nat.b2n; lia.
Qed.

(** [render] and [boot] stop because no request is under way any more, not
    because they ran out of rounds. *)
Lemma render_at_rest (p s : AppState) (w : World) :
  inflight (snd (render p s w)) = [].
Proof.
  unfold render, settleFuel. apply settle_at_rest.
  destruct (false || negb (message p =? message s)%string),
    (negb (message s =? "")%string); simpl Nat.b2n; lia.
Qed.

Lemma boot_at_rest (w : World) : inflight (snd (boot w)) = [].
Proof.
  unfold boot, settleFuel. apply settle_at_rest. simpl. lia.
Qed.

(** * Handlers *)

Arguments Str.orElse : simpl never.

Lemma option_nat_eqb_eq (a b : option nat) :
  option_nat_eqb a b = true <-> a = b.
Proof.
  destruct a as [x |], b as [y |]; simpl; split; intros H;
    try discriminate; try reflexivity.
  - apply Nat.eqb_eq in H. congruence.
  - inversion H. apply Nat.eqb_refl.
Qed.

Lemma option_nat_eqb_neq (a b : option nat) :
  option_nat_eqb a b = false <-> a <> b.
Proof.
  rewrite <- option_nat_eqb_eq. destruct (option_nat_eqb a b); split;
    intros H; try reflexivity; try discriminate; try congruence.
Qed.

Lemma afterCall_begin (c : Call) (w : World) : afterCall c w (snd (begin c w)).
Proof. repeat split. Qed.

Lemma afterCall_opened (c : Call) (w : World) : afterCall c w (opened c w).
Proof. repeat split. Qed.

(** The two ways an adapter call can go. *)
Lemma withStore_cases {A : Type} (c : Call) (request : World -> A * World) (w : World) :
  (hd NoFault (oracle w) = NoFault
   /\ withStore c request w
      = (Fulfilled (fst (request (opened c w))), snd (request (opened c w))))
  \/ (failing (hd NoFault (oracle w)) = true
      /\ exists w', withStore c request w
                    = (Rejected (rejection (hd NoFault (oracle w))), w')
                    /\ afterCall c w w').
Proof.
  unfold withStore, begin, openDB.
  destruct (hd NoFault (oracle w)) eqn:Hf; simpl.
  - left. split; [reflexivity |].
    unfold opened, begin. destruct (request _); reflexivity.
  - right. split; [reflexivity |]. eexists. split; [reflexivity |].
    apply afterCall_begin.
  - right. split; [reflexivity |]. eexists. split; [reflexivity |].
    apply afterCall_begin.
  - right. split; [reflexivity |]. eexists. split; [reflexivity |].
    apply afterCall_opened.
  - right. split; [reflexivity |]. eexists. split; [reflexivity |].
    apply afterCall_opened.
Qed.

Lemma handleDelete_first (key : nat) (s : AppState) (w : World) :
  isDBReady s = true ->
  confirmDeleteId s <> Some key ->
  handleDelete key s w
  = (setConfirmClear false
       (setConfirmDeleteId (Some key)
          (setMessage (confirmDeleteMessage (recordName key s)) s)),
     w).
Proof.
  intros Hready Hne. unfold handleDelete. rewrite Hready. simpl.
  apply option_nat_eqb_neq in Hne. rewrite Hne. reflexivity.
Qed.

Lemma handleDelete_confirmed (key : nat) (s : AppState) (w : World) :
  isDBReady s = true ->
  confirmDeleteId s = Some key ->
  hd NoFault (oracle w) = NoFault ->
  handleDelete key s w
  = (setConfirmDeleteId None (setMessage IDB_DELETE_MESSAGE s),
     fetchRecords (message s)
       (setDatabase (Some (IDB.delete key (store w))) (opened (CallDelete key) w))).
Proof.
  intros Hready Hpending Hcalm. unfold handleDelete. rewrite Hready. simpl.
  apply option_nat_eqb_eq in Hpending. rewrite Hpending.
  unfold deleteRecord.
  destruct (withStore_cases (CallDelete key)
              (fun w1 => (true, setDatabase (Some (IDB.delete key (store w1))) w1)) w)
    as [[_ H] | [Hfail _]].
  - rewrite H. reflexivity.
  - rewrite Hcalm in Hfail. discriminate.
Qed.

Lemma handleDelete_failed (key : nat) (s : AppState) (w : World) :
  isDBReady s = true ->
  confirmDeleteId s = Some key ->
  failing (hd NoFault (oracle w)) = true ->
  exists w',
    handleDelete key s w
    = (setMessage (Str.orElse (errMessage (rejection (hd NoFault (oracle w))))
                     "Error deleting record.") s, w')
    /\ deleteRecord key w = (Rejected (rejection (hd NoFault (oracle w))), w')
    /\ afterCall (CallDelete key) w w'.
Proof.
  intros Hready Hpending Hfail. unfold handleDelete. rewrite Hready. simpl.
  apply option_nat_eqb_eq in Hpending. rewrite Hpending.
  unfold deleteRecord.
  destruct (withStore_cases (CallDelete key)
              (fun w1 => (true, setDatabase (Some (IDB.delete key (store w1))) w1)) w)
    as [[Hcalm _] | [_ (w' & H & Hafter)]].
  - rewrite Hcalm in Hfail. discriminate.
  - rewrite H. exists w'. repeat split; apply Hafter.
Qed.

Lemma handleClearAll_first (s : AppState) (w : World) :
  isDBReady s = true ->
  confirmClear s = false ->
  handleClearAll s w
  = (setConfirmDeleteId None
       (setConfirmClear true (setMessage confirmClearMessage s)), w).
Proof.
  intros Hready Hne. unfold handleClearAll. rewrite Hready, Hne. reflexivity.
Qed.

Lemma handleClearAll_confirmed (s : AppState) (w : World) :
  isDBReady s = true ->
  confirmClear s = true ->
  hd NoFault (oracle w) = NoFault ->
  handleClearAll s w
  = (setConfirmDeleteId None
       (setConfirmClear false (setMessage IDB_CLEAR_ALL_MESSAGE s)),
     fetchRecords (message s)
       (setDatabase (Some (IDB.clear (store w))) (opened CallClear w))).
Proof.
  intros Hready Hpending Hcalm. unfold handleClearAll.
  rewrite Hready, Hpending. simpl.
  unfold deleteAllRecords.
  destruct (withStore_cases CallClear
              (fun w1 => (true, setDatabase (Some (IDB.clear (store w1))) w1)) w)
    as [[_ H] | [Hfail _]].
  - rewrite H. reflexivity.
  - rewrite Hcalm in Hfail. discriminate.
Qed.

Lemma handleClearAll_failed (s : AppState) (w : World) :
  isDBReady s = true ->
  confirmClear s = true ->
  failing (hd NoFault (oracle w)) = true ->
  exists w',
    handleClearAll s w
    = (setMessage (Str.orElse (errMessage (rejection (hd NoFault (oracle w))))
                     "Error clearing all records.") s, w')
    /\ deleteAllRecords w = (Rejected (rejection (hd NoFault (oracle w))), w')
    /\ afterCall CallClear w w'.
Proof.
  intros Hready Hpending Hfail. unfold handleClearAll.
  rewrite Hready, Hpending. simpl.
  unfold deleteAllRecords.
  destruct (withStore_cases CallClear
              (fun w1 => (true, setDatabase (Some (IDB.clear (store w1))) w1)) w)
    as [[Hcalm _] | [_ (w' & H & Hafter)]].
  - rewrite Hcalm in Hfail. discriminate.
  - rewrite H. exists w'. repeat split; apply Hafter.
Qed.

(** [handleSubmit] when a check fails: a message and nothing else. *)
Lemma handleSubmit_invalid (s : AppState) (w : World) :
  readyToSubmit s = false ->
  snd (handleSubmit s w) = w
  /\ sameForm s (fst (handleSubmit s w))
  /\ eventConfig (fst (handleSubmit s w)) = eventConfig s.
Proof.
  unfold readyToSubmit, handleSubmit. intros H.
  destruct (blank (completeName (formData s))); simpl in *;
    [repeat split |].
  destruct (blank (designation (formData s))); simpl in *;
    [repeat split |].
  destruct (blank (division (formData s))); simpl in *;
    [repeat split |].
  destruct (signatureCaptured s); simpl in *; [| repeat split].
  destruct (canvasMounted s); simpl in *; [| repeat split].
  destruct (isDBReady s); simpl in *; [discriminate | repeat split].
Qed.

Lemma handleSubmit_ready (s : AppState) (w : World) :
  readyToSubmit s = true ->
  handleSubmit s w
  = match addRecord (withSignature (canvasImage w) (formData s)) w with
    | (Fulfilled _, w1) =>
        (setConfirmDeleteId None
           (setConfirmClear false
              (setMessage IDB_SUCCESS_MESSAGE
                 (setSignatureCaptured false (setFormData initialFormData s)))),
         fetchRecords (message s) (setCanvasImage blankCanvas w1))
    | (Rejected error, w1) =>
        (setMessage (Str.orElse (errMessage error) IDB_ERROR_MESSAGE) s, w1)
    end.
Proof.
  unfold readyToSubmit, handleSubmit, handleClearSignature. intros H.
  repeat (apply andb_prop in H; destruct H as [H ?]).
  apply negb_true_iff in H.
  repeat match goal with
         | H : negb _ = true |- _ => apply negb_true_iff in H
         end.
  repeat match goal with
         | H : _ = _ |- _ => rewrite H
         end.
  simpl.
  destruct (addRecord _ w) as [[key | e] w1]; [| reflexivity].
  assert (Hm : canvasMounted (setFormData initialFormData s) = true) by assumption.
  rewrite Hm. reflexivity.
Qed.

(** * One event *)

Arguments handleSubmit : simpl never.
Arguments handleDelete : simpl never.
Arguments handleClearAll : simpl never.

(** What a handler can do to the store: nothing, or the one adapter call of
    [handleSubmit], of a confirming [handleDelete] or of a confirming
    [handleClearAll], which may succeed or be rejected. *)
Lemma handle_cases (e : Event) (s : AppState) (w : World) :
  (store (snd (handle e s w)) = store w
   /\ calls (snd (handle e s w)) = calls w)
  \/ (e = Submit /\ readyToSubmit s = true
      /\ calls (snd (handle e s w))
         = CallAdd (withSignature (canvasImage w) (formData s)) :: calls w
      /\ (store (snd (handle e s w)) = store w
          \/ store (snd (handle e s w))
             = snd (IDB.add (withSignature (canvasImage w) (formData s))
                      (now w) (store w))))
  \/ (exists key, e = DeleteClick key /\ isDBReady s = true
                  /\ confirmDeleteId s = Some key
                  /\ calls (snd (handle e s w)) = CallDelete key :: calls w
                  /\ (store (snd (handle e s w)) = store w
                      \/ store (snd (handle e s w)) = IDB.delete key (store w)))
  \/ (e = ClearAllClick /\ isDBReady s = true /\ confirmClear s = true
      /\ calls (snd (handle e s w)) = CallClear :: calls w
      /\ (store (snd (handle e s w)) = store w
          \/ store (snd (handle e s w)) = IDB.clear (store w))).
Proof.
  destruct e as [p | name value | input | name checked | | image | | | | key | | ms];
    simpl.
  - left. destruct p; split; reflexivity.
  - left. split; reflexivity.
  - left. split; reflexivity.
  - left. split; reflexivity.
  - left. unfold startDrawing. destruct (canvasMounted s), (isDBReady s);
      split; reflexivity.
  - left. unfold draw. destruct (canvasMounted s), (isDrawing w);
      split; reflexivity.
  - left. destruct (canvasMounted s); split; reflexivity.
  - left. unfold handleClearSignature. destruct (canvasMounted s);
      split; reflexivity.
  - (* Submit *)
    destruct (readyToSubmit s) eqn:Hready.
    + right. left. split; [reflexivity |]. split; [reflexivity |].
      rewrite (handleSubmit_ready s w Hready). unfold addRecord.
      destruct (withStore_cases
                  (CallAdd (withSignature (canvasImage w) (formData s)))
                  (fun w1 =>
                     let (key, st) :=
                       IDB.add (withSignature (canvasImage w) (formData s))
                         (now w1) (store w1) in
                     (key, setDatabase (Some st) w1)) w)
        as [[_ H] | [_ (w' & H & Hafter)]]; rewrite H; simpl.
      * split; [reflexivity | right; reflexivity].
      * destruct Hafter as ((Hst & _) & Hcalls & _).
        split; [exact Hcalls | left; exact Hst].
    + left. destruct (handleSubmit_invalid s w Hready) as (-> & _). split; reflexivity.
  - (* DeleteClick *)
    destruct (isDBReady s) eqn:Hready;
      [| left; unfold handleDelete; rewrite Hready; split; reflexivity].
    destruct (option_nat_eqb (confirmDeleteId s) (Some key)) eqn:Hp.
    + apply option_nat_eqb_eq in Hp.
      right. right. left. exists key.
      split; [reflexivity |]. split; [reflexivity |]. split; [exact Hp |].
      destruct (failing (hd NoFault (oracle w))) eqn:Hf.
      * destruct (handleDelete_failed key s w Hready Hp Hf)
          as (w' & -> & _ & (Hst & _) & Hcalls & _).
        simpl. split; [exact Hcalls | left; exact Hst].
      * assert (Hcalm : hd NoFault (oracle w) = NoFault)
          by (destruct (hd NoFault (oracle w)); try discriminate; reflexivity).
        rewrite (handleDelete_confirmed key s w Hready Hp Hcalm). simpl.
        split; [reflexivity | right; reflexivity].
    + apply option_nat_eqb_neq in Hp.
      rewrite (handleDelete_first key s w Hready Hp).
      left. split; reflexivity.
  - (* ClearAllClick *)
    destruct (isDBReady s) eqn:Hready;
      [| left; unfold handleClearAll; rewrite Hready; split; reflexivity].
    destruct (confirmClear s) eqn:Hp.
    + right. right. right.
      split; [reflexivity |]. split; [reflexivity |]. split; [reflexivity |].
      destruct (failing (hd NoFault (oracle w))) eqn:Hf.
      * destruct (handleClearAll_failed s w Hready Hp Hf)
          as (w' & -> & _ & (Hst & _) & Hcalls & _).
        simpl. split; [exact Hcalls | left; exact Hst].
      * assert (Hcalm : hd NoFault (oracle w) = NoFault)
          by (destruct (hd NoFault (oracle w)); try discriminate; reflexivity).
        rewrite (handleClearAll_confirmed s w Hready Hp Hcalm). simpl.
        split; [reflexivity | right; reflexivity].
    + rewrite (handleClearAll_first s w Hready Hp).
      left. split; reflexivity.
  - left. split; reflexivity.
Qed.

(** No handler leaves both confirmations pending. *)
Lemma handle_exclusive (e : Event) (s : AppState) (w : World) :
  exclusive s -> exclusive (fst (handle e s w)).
Proof.
  unfold exclusive. intros Hex.
  destruct e as [p | name value | input | name checked | | image | | | | key | | ms];
    simpl.
  - destruct p; simpl; auto.
  - exact Hex.
  - left. reflexivity.
  - left. reflexivity.
  - unfold startDrawing. destruct (canvasMounted s), (isDBReady s); exact Hex.
  - unfold draw. destruct (canvasMounted s), (isDrawing w); exact Hex.
  - destruct (canvasMounted s); exact Hex.
  - unfold handleClearSignature. destruct (canvasMounted s); exact Hex.
  - destruct (readyToSubmit s) eqn:Hready.
    + rewrite (handleSubmit_ready s w Hready).
      destruct (addRecord _ w) as [[k | err] w1]; simpl; auto.
    + destruct (handleSubmit_invalid s w Hready) as (_ & (_ & Hc & Hd & _) & _).
      rewrite Hc, Hd. exact Hex.
  - unfold handleDelete. destruct (isDBReady s); simpl; [| exact Hex].
    destruct (option_nat_eqb (confirmDeleteId s) (Some key)).
    + destruct (deleteRecord key w) as [[k | err] w1]; simpl; auto.
    + left. reflexivity.
  - unfold handleClearAll. destruct (isDBReady s); simpl; [| exact Hex].
    destruct (confirmClear s) eqn:Hc.
    + destruct Hex as [Hex | Hex]; [discriminate |].
      destruct (deleteAllRecords w) as [[k | err] w1]; simpl; auto.
    + right. reflexivity.
  - exact Hex.
Qed.

(** [sex] only ever holds the value of a radio button. *)
Lemma handle_sexGiven (e : Event) (s : AppState) (w : World) :
  sexGiven s -> sexGiven (fst (handle e s w)).
Proof.
  unfold sexGiven. intros Hsex.
  destruct e as [p | name value | input | name checked | | image | | | | key | | ms];
    simpl.
  - destruct p; exact Hsex.
  - exact Hsex.
  - destruct input; simpl; auto.
  - exact Hsex.
  - unfold startDrawing. destruct (canvasMounted s), (isDBReady s); exact Hsex.
  - unfold draw. destruct (canvasMounted s), (isDrawing w); exact Hsex.
  - destruct (canvasMounted s); exact Hsex.
  - unfold handleClearSignature. destruct (canvasMounted s); exact Hsex.
  - destruct (readyToSubmit s) eqn:Hready.
    + rewrite (handleSubmit_ready s w Hready).
      destruct (addRecord _ w) as [[k | err] w1]; simpl; auto.
    + destruct (handleSubmit_invalid s w Hready) as (_ & (Hf & _) & _).
      rewrite Hf. exact Hsex.
  - unfold handleDelete. destruct (isDBReady s); simpl; [| exact Hsex].
    destruct (option_nat_eqb (confirmDeleteId s) (Some key)).
    + destruct (deleteRecord key w) as [[k | err] w1]; exact Hsex.
    + exact Hsex.
  - unfold handleClearAll. destruct (isDBReady s); simpl; [| exact Hsex].
    destruct (confirmClear s).
    + destruct (deleteAllRecords w) as [[k | err] w1]; exact Hsex.
    + exact Hsex.
  - exact Hsex.
Qed.

(** * Re-rendering and time *)

Lemma render_frame (p s : AppState) (w : World) :
  sameForm s (fst (render p s w))
  /\ sameDisk w (snd (render p s w))
  /\ (exists n, calls (snd (render p s w)) = repeat CallGetAll n ++ calls w)
  /\ (eventConfig (fst (render p s w)) = eventConfig s
      \/ eventConfig (fst (render p s w)) = loadedConfig (eventConfig s) w)
  /\ (canvasImage (snd (render p s w)) = canvasImage w
      \/ canvasImage (snd (render p s w)) = blankCanvas).
Proof. apply settle_frame. Qed.

Lemma mayReset_refl (s : AppState) : mayReset s s.
Proof. unfold mayReset. auto 10. Qed.

Lemma mayReset_trans (s1 s2 s3 : AppState) :
  mayReset s1 s2 -> mayReset s2 s3 -> mayReset s1 s3.
Proof.
  unfold mayReset.
  intros (A1 & A2 & A3 & A4 & A5) (B1 & B2 & B3 & B4 & B5).
  repeat split; try congruence.
  - destruct A4 as [A4 | A4], B4 as [B4 | B4]; rewrite B4; auto.
  - destruct A5 as [A5 | A5], B5 as [B5 | B5]; rewrite B5; auto.
Qed.

Lemma sameForm_mayReset (s s' : AppState) : sameForm s s' -> mayReset s s'.
Proof. unfold sameForm, mayReset. intros (A1 & A2 & A3 & A4 & A5). auto 10. Qed.

Lemma mayReset_exclusive (s s' : AppState) :
  mayReset s s' -> exclusive s -> exclusive s'.
Proof.
  unfold mayReset, exclusive. intros (_ & _ & _ & Hc & Hd) Hex.
  destruct Hc as [Hc | Hc]; [| left; exact Hc].
  destruct Hd as [Hd | Hd]; [| right; exact Hd].
  rewrite Hc, Hd. exact Hex.
Qed.

Lemma onlyReads_refl (w : World) : onlyReads w w.
Proof. repeat split. exists 0. reflexivity. Qed.

Lemma onlyReads_trans (w1 w2 w3 : World) :
  onlyReads w1 w2 -> onlyReads w2 w3 -> onlyReads w1 w3.
Proof.
  unfold onlyReads. intros (A1 & A2 & n & A3) (B1 & B2 & m & B3).
  repeat split; try congruence.
  exists (m + n). rewrite B3, A3, app_assoc, <- repeat_app. reflexivity.
Qed.

Lemma onlyReads_timers (t : Timers) (w : World) : onlyReads w (setTimers t w).
Proof. repeat split. exists 0. reflexivity. Qed.

Lemma onlyReads_clock (t : N) (w : World) : onlyReads w (setNow t w).
Proof. repeat split. exists 0. reflexivity. Qed.

Lemma render_onlyReads (p s : AppState) (w : World) :
  onlyReads w (snd (render p s w)).
Proof.
  destruct (render_frame p s w) as (_ & (Hst & Hls & _) & Hcalls & _).
  repeat split; assumption.
Qed.

Lemma fireClearTimer_frame (c : AppState * World) :
  mayReset (fst c) (fst (fireClearTimer c))
  /\ onlyReads (snd c) (snd (fireClearTimer c)).
Proof.
  destruct c as [s w]. unfold fireClearTimer.
  destruct (due (clearTimer (timers w))).
  - split.
    + eapply mayReset_trans;
        [| apply sameForm_mayReset, render_frame].
      unfold mayReset, clearTimerCallback. simpl. auto 10.
    + eapply onlyReads_trans; [| apply render_onlyReads].
      apply onlyReads_timers.
  - split; [apply mayReset_refl | apply onlyReads_refl].
Qed.

Lemma fireDeleteTimer_frame (c : AppState * World) :
  mayReset (fst c) (fst (fireDeleteTimer c))
  /\ onlyReads (snd c) (snd (fireDeleteTimer c)).
Proof.
  destruct c as [s w]. unfold fireDeleteTimer.
  destruct (due (deleteTimer (timers w))).
  - split.
    + eapply mayReset_trans;
        [| apply sameForm_mayReset, render_frame].
      unfold mayReset, deleteTimerCallback.
      destruct (Str.includes _ _); simpl; auto 10.
    + eapply onlyReads_trans; [| apply render_onlyReads].
      apply onlyReads_timers.
  - split; [apply mayReset_refl | apply onlyReads_refl].
Qed.

Lemma fireSuccessTimer_frame (c : AppState * World) :
  mayReset (fst c) (fst (fireSuccessTimer c))
  /\ onlyReads (snd c) (snd (fireSuccessTimer c)).
Proof.
  destruct c as [s w]. unfold fireSuccessTimer.
  destruct (due (successTimer (timers w))).
  - split.
    + eapply mayReset_trans;
        [| apply sameForm_mayReset, render_frame].
      unfold mayReset, successTimerCallback. simpl. auto 10.
    + eapply onlyReads_trans; [| apply render_onlyReads].
      apply onlyReads_timers.
  - split; [apply mayReset_refl | apply onlyReads_refl].
Qed.

Lemma tick_frame (c : AppState * World) :
  mayReset (fst c) (fst (tick c)) /\ onlyReads (snd c) (snd (tick c)).
Proof.
  destruct c as [s w]. unfold tick.
  set (c1 := (s, setNow _ _)).
  destruct (fireClearTimer_frame c1) as [R1 O1].
  destruct (fireDeleteTimer_frame (fireClearTimer c1)) as [R2 O2].
  destruct (fireSuccessTimer_frame (fireDeleteTimer (fireClearTimer c1)))
    as [R3 O3].
  split.
  - eapply mayReset_trans; [exact R1 |].
    eapply mayReset_trans; [exact R2 | exact R3].
  - eapply onlyReads_trans; [| exact O3].
    eapply onlyReads_trans; [| exact O2].
    eapply onlyReads_trans; [| exact O1].
    eapply onlyReads_trans; [apply onlyReads_timers | apply onlyReads_clock].
Qed.

(** While time passes nothing is deleted and no confirmation is set. *)
Lemma elapse_frame (ms : N) (c : AppState * World) :
  mayReset (fst c) (fst (elapse ms c)) /\ onlyReads (snd c) (snd (elapse ms c)).
Proof.
  unfold elapse.
  apply (N.iter_invariant ms _ tick
           (fun x => mayReset (fst c) (fst x) /\ onlyReads (snd c) (snd x))).
  - intros x [R O]. destruct (tick_frame x) as [R' O']. split.
    + eapply mayReset_trans; eassumption.
    + eapply onlyReads_trans; eassumption.
  - split; [apply mayReset_refl | apply onlyReads_refl].
Qed.

(** * Steps *)

Arguments step : simpl never.
Arguments render : simpl never.
Arguments elapse : simpl never.
Arguments handle : simpl never.

Lemma step_handle (e : Event) (faults : list Fault) (s : AppState) (w : World) :
  (forall ms, e <> Elapse ms) ->
  step e faults (s, w)
  = render s (fst (handle e s (setOracle faults w)))
      (snd (handle e s (setOracle faults w))).
Proof.
  intros Hne. unfold step.
  destruct e; try (destruct (handle _ s (setOracle faults w)); reflexivity).
  exfalso. apply (Hne ms). reflexivity.
Qed.

Lemma step_elapse (ms : N) (faults : list Fault) (s : AppState) (w : World) :
  step (Elapse ms) faults (s, w) = elapse ms (s, setOracle faults w).
Proof. reflexivity. Qed.

Lemma onlyReads_oracle (faults : list Fault) (w : World) :
  onlyReads w (setOracle faults w).
Proof. repeat split. exists 0. reflexivity. Qed.

(** What one event can do to the store and which adapter calls it makes. *)
Lemma step_cases (e : Event) (faults : list Fault) (s : AppState) (w : World) :
  exists n,
    (store (snd (step e faults (s, w))) = store w
     /\ calls (snd (step e faults (s, w))) = repeat CallGetAll n ++ calls w)
    \/ (e = Submit /\ readyToSubmit s = true
        /\ calls (snd (step e faults (s, w)))
           = repeat CallGetAll n
             ++ CallAdd (withSignature (canvasImage w) (formData s)) :: calls w
        /\ (store (snd (step e faults (s, w))) = store w
            \/ store (snd (step e faults (s, w)))
               = snd (IDB.add (withSignature (canvasImage w) (formData s))
                        (now w) (store w))))
    \/ (exists key, e = DeleteClick key /\ isDBReady s = true
                    /\ confirmDeleteId s = Some key
                    /\ calls (snd (step e faults (s, w)))
                       = repeat CallGetAll n ++ CallDelete key :: calls w
                    /\ (store (snd (step e faults (s, w))) = store w
                        \/ store (snd (step e faults (s, w)))
                           = IDB.delete key (store w)))
    \/ (e = ClearAllClick /\ isDBReady s = true /\ confirmClear s = true
        /\ calls (snd (step e faults (s, w)))
           = repeat CallGetAll n ++ CallClear :: calls w
        /\ (store (snd (step e faults (s, w))) = store w
            \/ store (snd (step e faults (s, w))) = IDB.clear (store w))).
Proof.
  assert (Hhandled : (forall ms, e <> Elapse ms) -> exists n,
    (store (snd (step e faults (s, w))) = store w
     /\ calls (snd (step e faults (s, w))) = repeat CallGetAll n ++ calls w)
    \/ (e = Submit /\ readyToSubmit s = true
        /\ calls (snd (step e faults (s, w)))
           = repeat CallGetAll n
             ++ CallAdd (withSignature (canvasImage w) (formData s)) :: calls w
        /\ (store (snd (step e faults (s, w))) = store w
            \/ store (snd (step e faults (s, w)))
               = snd (IDB.add (withSignature (canvasImage w) (formData s))
                        (now w) (store w))))
    \/ (exists key, e = DeleteClick key /\ isDBReady s = true
                    /\ confirmDeleteId s = Some key
                    /\ calls (snd (step e faults (s, w)))
                       = repeat CallGetAll n ++ CallDelete key :: calls w
                    /\ (store (snd (step e faults (s, w))) = store w
                        \/ store (snd (step e faults (s, w)))
                           = IDB.delete key (store w)))
    \/ (e = ClearAllClick /\ isDBReady s = true /\ confirmClear s = true
        /\ calls (snd (step e faults (s, w)))
           = repeat CallGetAll n ++ CallClear :: calls w
        /\ (store (snd (step e faults (s, w))) = store w
            \/ store (snd (step e faults (s, w))) = IDB.clear (store w)))).
  { intros Hne. rewrite step_handle by exact Hne.
    set (w0 := setOracle faults w).
    destruct (render_frame s (fst (handle e s w0)) (snd (handle e s w0)))
      as (_ & (Hst & _) & (n & Hcalls) & _).
    exists n. rewrite Hst, Hcalls.
    destruct (handle_cases e s w0)
      as [[Hs Hc] | [(He & Hr & Hc & Hs) | [(k & He & Hr & Hp & Hc & Hs)
                                           | (He & Hr & Hp & Hc & Hs)]]];
      rewrite Hc.
    - left. split; [exact Hs | reflexivity].
    - right. left. split; [exact He |]. split; [exact Hr |].
      split; [reflexivity | exact Hs].
    - right. right. left. exists k.
      split; [exact He |]. split; [exact Hr |]. split; [exact Hp |].
      split; [reflexivity | exact Hs].
    - right. right. right. split; [exact He |]. split; [exact Hr |].
      split; [exact Hp |]. split; [reflexivity | exact Hs]. }
  destruct e as [p | name value | input | name checked | | image | | | | key | | ms];
    try (apply Hhandled; discriminate).
  rewrite step_elapse.
  destruct (elapse_frame ms (s, setOracle faults w)) as (_ & Hst & _ & n & Hc).
  exists n. left. simpl in *. split; assumption.
Qed.

(** * What holds in every reachable state *)

Lemma step_mayReset_or_handled (e : Event) (faults : list Fault)
  (s : AppState) (w : World) :
  mayReset s (fst (step e faults (s, w)))
  \/ sameForm (fst (handle e s (setOracle faults w))) (fst (step e faults (s, w))).
Proof.
  destruct e as [p | name value | input | name checked | | image | | | | key | | ms];
    try (right; rewrite step_handle by discriminate; apply render_frame).
  left. rewrite step_elapse. apply (elapse_frame ms (s, setOracle faults w)).
Qed.

Lemma step_exclusive (e : Event) (faults : list Fault) (c : AppState * World) :
  exclusive (fst c) -> exclusive (fst (step e faults c)).
Proof.
  destruct c as [s w]. simpl. intros Hex.
  destruct (step_mayReset_or_handled e faults s w) as [H | H].
  - eapply mayReset_exclusive; eassumption.
  - eapply mayReset_exclusive; [apply sameForm_mayReset; exact H |].
    apply handle_exclusive. exact Hex.
Qed.

Lemma boot_sameForm (w : World) : sameForm (initialState w) (fst (boot w)).
Proof. apply settle_frame. Qed.

Lemma reachable_exclusive (c : AppState * World) :
  reachable c -> exclusive (fst c).
Proof.
  induction 1 as [db saved clock faults _ | c e faults _ IH].
  - destruct (boot_sameForm (pageLoad db saved clock faults)) as (_ & Hc & _).
    left. rewrite Hc. reflexivity.
  - apply step_exclusive. exact IH.
Qed.

Lemma step_sexGiven (e : Event) (faults : list Fault) (c : AppState * World) :
  sexGiven (fst c) -> sexGiven (fst (step e faults c)).
Proof.
  destruct c as [s w]. unfold sexGiven. simpl. intros Hsex.
  destruct (step_mayReset_or_handled e faults s w) as [(Hf & _) | (Hf & _)];
    rewrite Hf; [exact Hsex |].
  apply handle_sexGiven. exact Hsex.
Qed.

Lemma reachable_sexGiven (c : AppState * World) :
  reachable c -> sexGiven (fst c).
Proof.
  induction 1 as [db saved clock faults _ | c e faults _ IH].
  - destruct (boot_sameForm (pageLoad db saved clock faults)) as (Hf & _).
    left. rewrite Hf. reflexivity.
  - apply step_sexGiven. exact IH.
Qed.

Lemma steps_reachable (events : list Event) (c : AppState * World) :
  reachable c -> reachable (steps events c).
Proof.
  revert c. induction events as [| e events IH]; intros c Hc; simpl.
  - exact Hc.
  - apply IH. apply reach_step. exact Hc.
Qed.

Lemma In_insertByKey (x r : AttendanceRecord) (l : list AttendanceRecord) :
  In r l -> In r (IDB.insertByKey x l).
Proof.
  induction l as [| y l IH]; simpl; intros Hin; [contradiction |].
  destruct (id x <? id y); simpl; tauto.
Qed.

Lemma In_repeat_getAll (call : Call) (n : nat) :
  In call (repeat CallGetAll n) -> isDestructive call = false.
Proof. intros H. apply repeat_spec in H. subst call. reflexivity. Qed.

(** C2. In every reachable state at most one of the two confirmations is
    pending, and so it is after any event; a delete request for a record whose
    confirmation is not pending, or a clear-all request while clear-all is not
    pending, makes its own confirmation the pending one, resets the other and
    deletes nothing; a record leaves the store, and a destructive adapter call
    is made, only on a delete request for the record whose confirmation is
    pending or on a clear-all request while clear-all is pending. *)
Theorem confirmations_exclusive :
  forall c : AppState * World,
    reachable c ->
    exclusive (fst c)
    /\ forall (e : Event) (faults : list Fault),
        exclusive (fst (step e faults c))
        /\ (forall key,
               e = DeleteClick key -> isDBReady (fst c) = true ->
               confirmDeleteId (fst c) <> Some key ->
               confirmDeleteId (fst (step e faults c)) = Some key
               /\ confirmClear (fst (step e faults c)) = false
               /\ collection (snd (step e faults c)) = collection (snd c))
        /\ (e = ClearAllClick -> isDBReady (fst c) = true ->
            confirmClear (fst c) = false ->
            confirmClear (fst (step e faults c)) = true
            /\ confirmDeleteId (fst (step e faults c)) = None
            /\ collection (snd (step e faults c)) = collection (snd c))
        /\ (forall r,
               In r (collection (snd c)) ->
               ~ In r (collection (snd (step e faults c))) ->
               (e = DeleteClick (id r) /\ confirmDeleteId (fst c) = Some (id r))
               \/ (e = ClearAllClick /\ confirmClear (fst c) = true))
        /\ (exists made,
               callsSince (snd c) (snd (step e faults c)) made
               /\ forall call,
                   In call made -> isDestructive call = true ->
                   (exists key, call = CallDelete key /\ e = DeleteClick key
                                /\ confirmDeleteId (fst c) = Some key)
                   \/ (call = CallClear /\ e = ClearAllClick
                       /\ confirmClear (fst c) = true)).
Proof.
  intros [s w] Hreach.
  pose proof (reachable_exclusive _ Hreach) as Hex. simpl in *.
  split; [exact Hex |]. intros e faults.
  split; [apply (step_exclusive e faults (s, w)); exact Hex |].
  split; [| split; [| split]].
  - intros key -> Hready Hne.
    rewrite step_handle by discriminate. unfold handle.
    rewrite (handleDelete_first key s (setOracle faults w) Hready Hne).
    cbn [fst snd].
    match goal with
    | |- context [render s ?s1 ?w1] =>
        destruct (render_frame s s1 w1) as ((_ & Hc & Hd & _) & (Hst & _) & _)
    end.
    unfold collection. rewrite Hc, Hd, Hst. repeat split.
  - intros -> Hready Hne.
    rewrite step_handle by discriminate. unfold handle.
    rewrite (handleClearAll_first s (setOracle faults w) Hready Hne).
    cbn [fst snd].
    match goal with
    | |- context [render s ?s1 ?w1] =>
        destruct (render_frame s s1 w1) as ((_ & Hc & Hd & _) & (Hst & _) & _)
    end.
    unfold collection. rewrite Hc, Hd, Hst. repeat split.
  - intros r Hin Hout. unfold collection in *.
    destruct (step_cases e faults s w)
      as (n & [[Hs _] | [(He & _ & _ & Hs) | [(k & He & _ & Hp & _ & Hs)
                                             | (He & _ & Hp & _ & Hs)]]]).
    + rewrite Hs in Hout. contradiction.
    + exfalso. destruct Hs as [Hs | Hs]; rewrite Hs in Hout.
      * contradiction.
      * apply Hout. simpl. apply In_insertByKey. exact Hin.
    + left. destruct Hs as [Hs | Hs]; rewrite Hs in Hout; [contradiction |].
      simpl in Hout.
      destruct (Nat.eqb_spec (id r) k) as [Heq | Hneq].
      * subst k. split; assumption.
      * exfalso. apply Hout. apply filter_In. split; [exact Hin |].
        apply negb_true_iff, Nat.eqb_neq. exact Hneq.
    + right. split; assumption.
  - unfold callsSince.
    destruct (step_cases e faults s w)
      as (n & [[_ Hc] | [(He & _ & Hc & _) | [(k & He & _ & Hp & Hc & _)
                                             | (He & _ & Hp & Hc & _)]]]).
    + exists (repeat CallGetAll n). split; [exact Hc |].
      intros call Hin Hd. apply In_repeat_getAll in Hin. congruence.
    + eexists (repeat CallGetAll n ++ [_]).
      split; [rewrite Hc, <- app_assoc; reflexivity |].
      intros call Hin Hd. apply in_app_or in Hin.
      destruct Hin as [Hin | [<- | []]].
      * apply In_repeat_getAll in Hin. congruence.
      * discriminate.
    + exists (repeat CallGetAll n ++ [CallDelete k]).
      split; [rewrite Hc, <- app_assoc; reflexivity |].
      intros call Hin Hd. apply in_app_or in Hin.
      destruct Hin as [Hin | [<- | []]].
      * apply In_repeat_getAll in Hin. congruence.
      * left. exists k. repeat split; assumption.
    + exists (repeat CallGetAll n ++ [CallClear]).
      split; [rewrite Hc, <- app_assoc; reflexivity |].
      intros call Hin Hd. apply in_app_or in Hin.
      destruct Hin as [Hin | [<- | []]].
      * apply In_repeat_getAll in Hin. congruence.
      * right. repeat split; assumption.
Qed.

(** * The confirmation after a failed call, and editing *)

Lemma filter_destructive_reads (n : nat) (l : list Call) :
  filter isDestructive (repeat CallGetAll n ++ l) = filter isDestructive l.
Proof. induction n as [| n IH]; simpl; [reflexivity | exact IH]. Qed.

Lemma existsb_insert_reads (n : nat) (l : list Call) :
  existsb isInsert (repeat CallGetAll n ++ l) = existsb isInsert l.
Proof. induction n as [| n IH]; simpl; [reflexivity | exact IH]. Qed.

(** C6, as the code has it. When the confirming request's adapter call
    fails, the message is set to the error's message (or, that being empty, to
    the handler's own text), the confirmation stays pending for the same
    target, the other confirmation is as it was, the collection is unchanged
    and the destructive call was made once. *)
Theorem failed_confirmation_stays_pending :
  forall (s : AppState) (w : World) (f : Fault) (rest : list Fault),
    isDBReady s = true ->
    failing f = true ->
    (forall key,
        confirmDeleteId s = Some key ->
        fst (deleteRecord key (setOracle (f :: rest) w)) = Rejected (rejection f)
        /\ message (fst (handleDelete key s (setOracle (f :: rest) w)))
           = Str.orElse (errMessage (rejection f)) "Error deleting record."
        /\ confirmDeleteId (fst (step (DeleteClick key) (f :: rest) (s, w)))
           = Some key
        /\ confirmClear (fst (step (DeleteClick key) (f :: rest) (s, w)))
           = confirmClear s
        /\ collection (snd (step (DeleteClick key) (f :: rest) (s, w)))
           = collection w
        /\ filter isDestructive
             (calls (snd (step (DeleteClick key) (f :: rest) (s, w))))
           = CallDelete key :: filter isDestructive (calls w))
    /\ (confirmClear s = true ->
        fst (deleteAllRecords (setOracle (f :: rest) w)) = Rejected (rejection f)
        /\ message (fst (handleClearAll s (setOracle (f :: rest) w)))
           = Str.orElse (errMessage (rejection f)) "Error clearing all records."
        /\ confirmClear (fst (step ClearAllClick (f :: rest) (s, w))) = true
        /\ confirmDeleteId (fst (step ClearAllClick (f :: rest) (s, w)))
           = confirmDeleteId s
        /\ collection (snd (step ClearAllClick (f :: rest) (s, w)))
           = collection w
        /\ filter isDestructive
             (calls (snd (step ClearAllClick (f :: rest) (s, w))))
           = CallClear :: filter isDestructive (calls w)).
Proof.
  intros s w f rest Hready Hfail.
  set (w0 := setOracle (f :: rest) w).
  assert (Hf : failing (hd NoFault (oracle w0)) = true) by exact Hfail.
  split.
  - intros key Hp.
    destruct (handleDelete_failed key s w0 Hready Hp Hf)
      as (w' & Hh & Hd & (Hst & _) & Hcalls & _).
    rewrite step_handle by discriminate. unfold handle. fold w0.
    rewrite Hh, Hd. cbn [fst snd].
    match goal with
    | |- context [render s ?s1 ?w1] =>
        destruct (render_frame s s1 w1)
          as ((_ & Hc' & Hd' & _) & (Hst' & _) & (n & Hcalls') & _)
    end.
    unfold collection.
    rewrite Hc', Hd', Hst', Hst, Hcalls', Hcalls, filter_destructive_reads.
    repeat split. exact Hp.
  - intros Hp.
    destruct (handleClearAll_failed s w0 Hready Hp Hf)
      as (w' & Hh & Hd & (Hst & _) & Hcalls & _).
    rewrite step_handle by discriminate. unfold handle. fold w0.
    rewrite Hh, Hd. cbn [fst snd].
    match goal with
    | |- context [render s ?s1 ?w1] =>
        destruct (render_frame s s1 w1)
          as ((_ & Hc' & Hd' & _) & (Hst' & _) & (n & Hcalls') & _)
    end.
    unfold collection.
    rewrite Hc', Hd', Hst', Hst, Hcalls', Hcalls, filter_destructive_reads.
    repeat split. exact Hp.
Qed.

(** C7, as the code has it. Any change of an input of the attendance form,
    text field, radio button or check box, leaves both confirmations idle at
    once; a change of a field of the event configuration leaves both as they
    were. *)
Theorem form_input_resets_confirmations :
  forall (c : AppState * World) (faults : list Fault),
    (forall input, idle (fst (step (InputChange input) faults c)))
    /\ (forall name checked, idle (fst (step (StatusChange name checked) faults c)))
    /\ (forall name value,
           confirmClear (fst (step (ConfigChange name value) faults c))
           = confirmClear (fst c)
           /\ confirmDeleteId (fst (step (ConfigChange name value) faults c))
              = confirmDeleteId (fst c)).
Proof.
  intros [s w] faults. unfold idle.
  split; [| split].
  - intros input. rewrite step_handle by discriminate. unfold handle.
    match goal with
    | |- context [render s ?s1 ?w1] =>
        destruct (render_frame s s1 w1) as ((_ & Hc & Hd & _) & _)
    end.
    rewrite Hc, Hd. split; reflexivity.
  - intros name checked. rewrite step_handle by discriminate. unfold handle.
    match goal with
    | |- context [render s ?s1 ?w1] =>
        destruct (render_frame s s1 w1) as ((_ & Hc & Hd & _) & _)
    end.
    rewrite Hc, Hd. split; reflexivity.
  - intros name value. rewrite step_handle by discriminate. unfold handle.
    match goal with
    | |- context [render s ?s1 ?w1] =>
        destruct (render_frame s s1 w1) as ((_ & Hc & Hd & _) & _)
    end.
    rewrite Hc, Hd. split; reflexivity.
Qed.

(** * Submission *)

Lemma blank_empty : blank "" = true.
Proof. reflexivity. Qed.

Lemma filled_not_empty (field : string) : blank field = false -> field <> "".
Proof. intros H ->. rewrite blank_empty in H. discriminate. Qed.

Lemma readyToSubmit_inv (s : AppState) :
  readyToSubmit s = true ->
  blank (completeName (formData s)) = false
  /\ blank (designation (formData s)) = false
  /\ blank (division (formData s)) = false
  /\ signatureCaptured s = true
  /\ canvasMounted s = true
  /\ isDBReady s = true.
Proof.
  unfold readyToSubmit. intros H.
  repeat (apply andb_prop in H; destruct H as [H ?]).
  repeat match goal with
         | H : negb _ = true |- _ => apply negb_true_iff in H
         end.
  repeat split; assumption.
Qed.

(** The message [handleSubmit] leaves when a required field is blank or the
    signature is missing. *)
Lemma handleSubmit_missing (s : AppState) (w : World) :
  blank (completeName (formData s)) = true
  \/ blank (designation (formData s)) = true
  \/ blank (division (formData s)) = true
  \/ signatureCaptured s = false ->
  message (fst (handleSubmit s w))
  = "Please fill in all required fields (indicated by *)."
  \/ message (fst (handleSubmit s w)) = "Please provide a signature in section 6.".
Proof.
  unfold handleSubmit. intros H.
  destruct (blank (completeName (formData s))); simpl; [left; reflexivity |].
  destruct (blank (designation (formData s))); simpl; [left; reflexivity |].
  destruct (blank (division (formData s))); simpl; [left; reflexivity |].
  destruct (signatureCaptured s); simpl; [| right; reflexivity].
  destruct H as [H | [H | [H | H]]]; discriminate.
Qed.

(** White space of any kind is trimmed away. *)
Lemma strip_white_space (cp : list N) (rest : string) :
  In cp Str.whiteSpace ->
  Str.trimStart (Str.utf8 cp ++ rest)%string = Str.trimStart rest.
Proof.
  unfold Str.whiteSpace. intros Hin.
  repeat (destruct Hin as [<- | Hin]; [reflexivity |]).
  destruct Hin.
Qed.

Lemma blank_white_space (cps : list (list N)) :
  Forall (fun cp => In cp Str.whiteSpace) cps ->
  blank (fold_right (fun cp rest => (Str.utf8 cp ++ rest)%string) "" cps) = true.
Proof.
  intros Hall. unfold blank, Str.trim.
  assert (H : Str.trimStart
                (fold_right (fun cp rest => (Str.utf8 cp ++ rest)%string) "" cps)
              = "").
  { induction Hall as [| cp cps Hcp _ IH]; [reflexivity |].
    simpl fold_right. rewrite strip_white_space by exact Hcp. exact IH. }
  rewrite H. reflexivity.
Qed.

(** A name of white space only, the no-break space U+00A0 for one, is refused
    like an empty one. *)
Lemma white_space_name_is_refused :
  let s := setFormData
             {| completeName := Str.utf8 [194; 160]%N; sex := "F";
                designation := "Engineer"; division := "R&D";
                status := Sample.noStatus; signature := None |}
             (fst Scenario.formFilled) in
  blank (completeName (formData s)) = true
  /\ submitEnabled s = false
  /\ readyToSubmit s = false
  /\ handleSubmit s (snd Scenario.formFilled)
     = (setMessage "Please fill in all required fields (indicated by *)." s,
        snd Scenario.formFilled).
Proof. vm_compute. repeat split. Qed.

(** What [handleSubmit] does check.  It turns to [addRecord] only when the
    required fields are not empty and the flag [signatureCaptured] is set;
    when a required field is empty or the flag is not set it leaves a
    validation message, calls nothing and the collection stays as it is. *)
Theorem submit_validates_before_insert :
  forall (c : AppState * World) (faults : list Fault),
    reachable c ->
    exists made,
      callsSince (snd c) (snd (step Submit faults c)) made
      /\ (existsb isInsert made = true ->
          completeName (formData (fst c)) <> ""
          /\ sex (formData (fst c)) <> ""
          /\ designation (formData (fst c)) <> ""
          /\ division (formData (fst c)) <> ""
          /\ signatureCaptured (fst c) = true)
      /\ (completeName (formData (fst c)) = ""
          \/ sex (formData (fst c)) = ""
          \/ designation (formData (fst c)) = ""
          \/ division (formData (fst c)) = ""
          \/ signatureCaptured (fst c) = false ->
          existsb isInsert made = false
          /\ collection (snd (step Submit faults c)) = collection (snd c)
          /\ snd (handleSubmit (fst c) (setOracle faults (snd c)))
             = setOracle faults (snd c)
          /\ (message (fst (handleSubmit (fst c) (setOracle faults (snd c))))
              = "Please fill in all required fields (indicated by *)."
              \/ message (fst (handleSubmit (fst c) (setOracle faults (snd c))))
                 = "Please provide a signature in section 6.")).
Proof.
  intros [s w] faults Hreach.
  pose proof (reachable_sexGiven _ Hreach) as Hsex.
  unfold sexGiven, callsSince in *. cbn [fst snd] in *.
  assert (Hsex' : sex (formData s) <> "")
    by (destruct Hsex as [-> | ->]; discriminate).
  destruct (readyToSubmit s) eqn:Hready.
  - (* the checks pass *)
    destruct (readyToSubmit_inv s Hready) as (Hn & Hd & Hv & Hsig & _).
    destruct (step_cases Submit faults s w)
      as (n & [[_ Hc] | [(_ & _ & Hc & _) | [(k & He & _) | (He & _)]]]);
      try discriminate He.
    + exists (repeat CallGetAll n). split; [exact Hc |]. split.
      * intros _. repeat split;
          try (apply filled_not_empty; assumption); assumption.
      * intros [H | [H | [H | [H | H]]]]; exfalso;
          try (rewrite H in *; discriminate); contradiction.
    + eexists (repeat CallGetAll n ++ [_]).
      split; [rewrite Hc, <- app_assoc; reflexivity |]. split.
      * intros _. repeat split;
          try (apply filled_not_empty; assumption); assumption.
      * intros [H | [H | [H | [H | H]]]]; exfalso;
          try (rewrite H in *; discriminate); contradiction.
  - (* a check fails *)
    destruct (step_cases Submit faults s w)
      as (n & [[Hs Hc] | [(_ & Hr & _) | [(k & He & _) | (He & _)]]]);
      try discriminate He; try congruence.
    exists (repeat CallGetAll n). split; [exact Hc |]. split.
    + rewrite <- (app_nil_r (repeat CallGetAll n)), existsb_insert_reads.
      discriminate.
    + intros Hmissing.
      split; [rewrite <- (app_nil_r (repeat CallGetAll n));
              apply existsb_insert_reads |].
      split; [unfold collection; rewrite Hs; reflexivity |].
      split; [apply handleSubmit_invalid; exact Hready |].
      apply handleSubmit_missing.
      destruct Hmissing as [H | [H | [H | [H | H]]]].
      * left. rewrite H. reflexivity.
      * contradiction.
      * right. left. rewrite H. reflexivity.
      * right. right. left. rewrite H. reflexivity.
      * right. right. right. exact H.
Qed.

(** * Timers *)

(** The timers after the effects: each one set for the new render when a
    dependency of its effect changed, left alone otherwise. *)
Lemma runEffects_timers (first : bool) (p s : AppState) (w : World) :
  clearTimer (timers (snd (runEffects first p s w)))
  = (if first || negb (Bool.eqb (confirmClear p) (confirmClear s))
     then (if confirmClear s then Some 5000%N else None)
     else clearTimer (timers w))
  /\ deleteTimer (timers (snd (runEffects first p s w)))
     = (if first
           || negb (option_nat_eqb (confirmDeleteId p) (confirmDeleteId s))
           || (first || negb (message p =? message s)%string)
        then deleteTimerFor s
        else deleteTimer (timers w))
  /\ successTimer (timers (snd (runEffects first p s w)))
     = (if first || negb (message p =? message s)%string
        then (if Str.includes "success" (message s) then Some 3000%N else None)
        else successTimer (timers w)).
Proof.
  effects_cases first p s; destruct (canvasMounted s); simpl;
    repeat split; reflexivity.
Qed.

Lemma runEffects_tidy (first : bool) (p s : AppState) (w : World) :
  first = true \/ timersTidy p w ->
  timersTidy (fst (runEffects first p s w)) (snd (runEffects first p s w)).
Proof.
  intros Hpre.
  destruct (runEffects_timers first p s w) as (Hc & Hd & Hs).
  destruct (runEffects_frame first p s w)
    as ((_ & Fc & Fd & _) & _ & Fm & _).
  unfold timersTidy. rewrite Hc, Hd, Hs, Fc, Fd, Fm. clear Hc Hd Hs Fc Fd Fm.
  destruct Hpre as [-> | (Tc & Td & Ts)].
  - simpl. unfold deleteTimerFor. repeat split.
    + intros ->. reflexivity.
    + intros ->. reflexivity.
    + intros ->. reflexivity.
  - repeat split.
    + intros Hoff.
      destruct (first || negb (Bool.eqb (confirmClear p) (confirmClear s))) eqn:E.
      * rewrite Hoff. reflexivity.
      * apply orb_false_elim in E. destruct E as [_ E].
        apply negb_false_iff, Bool.eqb_prop in E. apply Tc. congruence.
    + intros Hoff. unfold deleteTimerFor.
      destruct (first
                || negb (option_nat_eqb (confirmDeleteId p) (confirmDeleteId s))
                || (first || negb (message p =? message s)%string)) eqn:E.
      * rewrite Hoff. reflexivity.
      * apply orb_false_elim in E. destruct E as [E _].
        apply orb_false_elim in E. destruct E as [_ E].
        apply negb_false_iff, option_nat_eqb_eq in E. apply Td. congruence.
    + intros Hoff.
      destruct (first || negb (message p =? message s)%string) eqn:E.
      * rewrite Hoff. reflexivity.
      * apply orb_false_elim in E. destruct E as [_ E].
        apply negb_false_iff, String.eqb_eq in E. apply Ts. congruence.
Qed.

Lemma settle_tidy (fuel : nat) :
  forall (first : bool) (p s : AppState) (w : World),
    first = true \/ timersTidy p w ->
    timersTidy (fst (settle fuel first p s w)) (snd (settle fuel first p s w)).
Proof.
  induction fuel as [| fuel IH]; intros first p s w Hpre.
  - rewrite settle_0. apply runEffects_tidy. exact Hpre.
  - rewrite settle_S.
    pose proof (runEffects_tidy first p s w Hpre) as Htidy.
    destruct (runEffects first p s w) as [s1 w1]. cbn [fst snd] in *.
    destruct (inflight w1) as [| closedMessage rest]; [exact Htidy |].
    cbv zeta.
    pose proof (fetchRecordsSettle_frame closedMessage s1 (setInflight rest w1))
      as (_ & _ & _ & _ & _ & _ & Ht & _).
    apply IH. right. unfold timersTidy in *. rewrite Ht. exact Htidy.
Qed.

(** A timer for the pending deletion that is right for the render stays right
    through the re-renders; it is right from the first one on when the pending
    target or the message changed. *)
Lemma settle_deleteTimer_kept (fuel : nat) :
  forall (first : bool) (p s : AppState) (w : World),
    deleteTimer (timers w) = deleteTimerFor s ->
    deleteTimer (timers (snd (settle fuel first p s w))) = deleteTimerFor s.
Proof.
  induction fuel as [| fuel IH]; intros first p s w Hpre.
  - rewrite settle_0.
    destruct (runEffects_timers first p s w) as (_ & -> & _).
    destruct (_ || _); [reflexivity | exact Hpre].
  - rewrite settle_S.
    destruct (runEffects_timers first p s w) as (_ & Hd & _).
    destruct (runEffects_frame first p s w) as ((_ & _ & Fd & _) & _).
    assert (Hd1 : deleteTimer (timers (snd (runEffects first p s w)))
                  = deleteTimerFor s).
    { rewrite Hd. destruct (_ || _); [reflexivity | exact Hpre]. }
    clear Hd.
    destruct (runEffects first p s w) as [s1 w1]. cbn [fst snd] in *.
    destruct (inflight w1) as [| closedMessage rest]; [exact Hd1 |].
    cbv zeta.
    pose proof (fetchRecordsSettle_frame closedMessage s1 (setInflight rest w1))
      as ((_ & _ & Fd2 & _) & _ & _ & _ & _ & _ & Ht & _).
    assert (Hfor : deleteTimerFor (fst (fetchRecordsSettle closedMessage s1
                                          (setInflight rest w1)))
                   = deleteTimerFor s).
    { unfold deleteTimerFor. rewrite Fd2, Fd. reflexivity. }
    rewrite <- Hfor. apply IH. rewrite Ht, Hfor. exact Hd1.
Qed.

Lemma settle_deleteTimer_set (fuel : nat) (p s : AppState) (w : World) :
  confirmDeleteId p <> confirmDeleteId s ->
  deleteTimer (timers (snd (settle fuel false p s w))) = deleteTimerFor s.
Proof.
  intros Hne. apply option_nat_eqb_neq in Hne.
  assert (Hd : deleteTimer (timers (snd (runEffects false p s w)))
               = deleteTimerFor s).
  { destruct (runEffects_timers false p s w) as (_ & -> & _).
    rewrite Hne. reflexivity. }
  destruct (runEffects_frame false p s w) as ((_ & _ & Fd & _) & _).
  destruct fuel as [| fuel].
  - rewrite settle_0. exact Hd.
  - rewrite settle_S.
    destruct (runEffects false p s w) as [s1 w1]. cbn [fst snd] in *.
    destruct (inflight w1) as [| closedMessage rest]; [exact Hd |].
    cbv zeta.
    pose proof (fetchRecordsSettle_frame closedMessage s1 (setInflight rest w1))
      as ((_ & _ & Fd2 & _) & _ & _ & _ & _ & _ & Ht & _).
    assert (Hfor : deleteTimerFor (fst (fetchRecordsSettle closedMessage s1
                                          (setInflight rest w1)))
                   = deleteTimerFor s).
    { unfold deleteTimerFor. rewrite Fd2, Fd. reflexivity. }
    rewrite <- Hfor. apply settle_deleteTimer_kept. rewrite Ht, Hfor. exact Hd.
Qed.

(** The handlers set no timer and cancel none. *)
Lemma handle_timers (e : Event) (s : AppState) (w : World) :
  timers (snd (handle e s w)) = timers w.
Proof.
  destruct e as [p | name value | input | name checked | | image | | | | key | | ms];
    unfold handle.
  - destruct p; reflexivity.
  - reflexivity.
  - reflexivity.
  - reflexivity.
  - unfold startDrawing. destruct (canvasMounted s), (isDBReady s); reflexivity.
  - unfold draw. destruct (canvasMounted s), (isDrawing w); reflexivity.
  - destruct (canvasMounted s); reflexivity.
  - unfold handleClearSignature. destruct (canvasMounted s); reflexivity.
  - destruct (readyToSubmit s) eqn:Hready.
    + rewrite (handleSubmit_ready s w Hready). unfold addRecord.
      match goal with
      | |- context [withStore ?c ?request w] =>
          destruct (withStore_cases c request w)
            as [[_ H] | [_ (w' & H & (_ & _ & _ & _ & Ht & _))]]
      end; rewrite H; [reflexivity | exact Ht].
    + destruct (handleSubmit_invalid s w Hready) as (-> & _). reflexivity.
  - unfold handleDelete. destruct (isDBReady s); [| reflexivity]. simpl.
    destruct (option_nat_eqb (confirmDeleteId s) (Some key)); [| reflexivity].
    unfold deleteRecord.
    match goal with
    | |- context [withStore ?c ?request w] =>
        destruct (withStore_cases c request w)
          as [[_ H] | [_ (w' & H & (_ & _ & _ & _ & Ht & _))]]
    end; rewrite H; [reflexivity | exact Ht].
  - unfold handleClearAll. destruct (isDBReady s); [| reflexivity]. simpl.
    destruct (confirmClear s); [| reflexivity].
    unfold deleteAllRecords.
    match goal with
    | |- context [withStore ?c ?request w] =>
        destruct (withStore_cases c request w)
          as [[_ H] | [_ (w' & H & (_ & _ & _ & _ & Ht & _))]]
    end; rewrite H; [reflexivity | exact Ht].
  - reflexivity.
Qed.

Lemma fire_tidy (s s' : AppState) (w : World) (t : Timers) :
  timersTidy s (setTimers t w) ->
  timersTidy (fst (render s s' (setTimers t w))) (snd (render s s' (setTimers t w))).
Proof. intros H. apply settle_tidy. right. exact H. Qed.

Lemma tick_tidy (c : AppState * World) :
  timersTidy (fst c) (snd c) -> timersTidy (fst (tick c)) (snd (tick c)).
Proof.
  destruct c as [s w]. cbn [fst snd]. intros (Tc & Td & Ts). unfold tick.
  match goal with
  | |- context [fireClearTimer (s, ?w1)] =>
      assert (H1 : timersTidy s w1)
  end.
  { unfold timersTidy. simpl. repeat split; intros H.
    - rewrite (Tc H). reflexivity.
    - rewrite (Td H). reflexivity.
    - rewrite (Ts H). reflexivity. }
  match goal with
  | |- context [fireClearTimer (s, ?w1)] => generalize dependent w1
  end.
  intros w1 H1.
  assert (H2 : timersTidy (fst (fireClearTimer (s, w1)))
                 (snd (fireClearTimer (s, w1)))).
  { unfold fireClearTimer. destruct (due (clearTimer (timers w1))); [| exact H1].
    apply fire_tidy. destruct H1 as (A & B & C).
    unfold timersTidy. simpl. auto. }
  destruct (fireClearTimer (s, w1)) as [s2 w2]. cbn [fst snd] in H2.
  assert (H3 : timersTidy (fst (fireDeleteTimer (s2, w2)))
                 (snd (fireDeleteTimer (s2, w2)))).
  { unfold fireDeleteTimer. destruct (due (deleteTimer (timers w2))); [| exact H2].
    apply fire_tidy. destruct H2 as (A & B & C).
    unfold timersTidy. simpl. auto. }
  destruct (fireDeleteTimer (s2, w2)) as [s3 w3]. cbn [fst snd] in H3.
  unfold fireSuccessTimer. destruct (due (successTimer (timers w3))); [| exact H3].
  apply fire_tidy. destruct H3 as (A & B & C).
  unfold timersTidy. simpl. auto.
Qed.

Lemma step_tidy (e : Event) (faults : list Fault) (c : AppState * World) :
  timersTidy (fst c) (snd c) ->
  timersTidy (fst (step e faults c)) (snd (step e faults c)).
Proof.
  destruct c as [s w]. cbn [fst snd]. intros Htidy.
  assert (Htidy0 : timersTidy s (setOracle faults w)) by exact Htidy.
  destruct e as [p | name value | input | name checked | | image | | | | key | | ms];
    try (rewrite step_handle by discriminate;
         apply settle_tidy; right;
         unfold timersTidy; rewrite handle_timers; exact Htidy0).
  rewrite step_elapse. unfold elapse.
  apply (N.iter_invariant ms _ tick (fun x => timersTidy (fst x) (snd x))).
  - intros x. apply tick_tidy.
  - exact Htidy0.
Qed.

Lemma reachable_tidy (c : AppState * World) :
  reachable c -> timersTidy (fst c) (snd c).
Proof.
  induction 1 as [db saved clock faults _ | c e faults _ IH].
  - apply settle_tidy. left. reflexivity.
  - apply step_tidy. exact IH.
Qed.

(** * The two-step deletion, where it does what the specification says *)

(** What a round of re-renders can leave as the message. *)
Lemma settle_message (fuel : nat) :
  forall (first : bool) (p s : AppState) (w : World),
    message (fst (settle fuel first p s w)) = message s
    \/ message (fst (settle fuel first p s w)) = ""
    \/ message (fst (settle fuel first p s w)) = IDB_ERROR_MESSAGE.
Proof.
  induction fuel as [| fuel IH]; intros first p s w.
  - rewrite settle_0. left. apply runEffects_frame.
  - rewrite settle_S.
    destruct (runEffects_frame first p s w) as (_ & _ & Hm & _).
    destruct (runEffects first p s w) as [s1 w1]. cbn [fst snd] in *.
    destruct (inflight w1) as [| closedMessage rest]; [left; exact Hm |].
    cbv zeta.
    pose proof (fetchRecordsSettle_message closedMessage s1 (setInflight rest w1))
      as Hm2.
    destruct (IH false s1
                (fst (fetchRecordsSettle closedMessage s1 (setInflight rest w1)))
                (snd (fetchRecordsSettle closedMessage s1 (setInflight rest w1))))
      as [H | [H | H]]; rewrite H; auto.
    destruct Hm2 as [[H2 | H2] | [H2 _]]; rewrite H2; auto.
Qed.

Lemma tick_idle (s : AppState) (w : World) :
  due (countDown (clearTimer (timers w))) = false ->
  due (countDown (deleteTimer (timers w))) = false ->
  due (countDown (successTimer (timers w))) = false ->
  tick (s, w)
  = (s, setNow (now w + 1)%N
          (setTimers {| clearTimer := countDown (clearTimer (timers w));
                        deleteTimer := countDown (deleteTimer (timers w));
                        successTimer := countDown (successTimer (timers w)) |}
             w)).
Proof.
  intros Hc Hd Hs. unfold tick, fireClearTimer, fireDeleteTimer, fireSuccessTimer.
  simpl. rewrite Hc. simpl. rewrite Hd. simpl. rewrite Hs. reflexivity.
Qed.

Lemma tick_fires_delete (s : AppState) (w : World) :
  due (countDown (clearTimer (timers w))) = false ->
  due (countDown (deleteTimer (timers w))) = true ->
  confirmDeleteId (fst (tick (s, w))) = None.
Proof.
  intros Hc Hd. unfold tick.
  match goal with
  | |- context [fireClearTimer (s, ?w1)] => set (w' := w1)
  end.
  assert (H1 : fireClearTimer (s, w') = (s, w')).
  { unfold fireClearTimer. subst w'. simpl. rewrite Hc. reflexivity. }
  rewrite H1.
  assert (H2 : confirmDeleteId (fst (fireDeleteTimer (s, w'))) = None).
  { unfold fireDeleteTimer. subst w'. simpl. rewrite Hd.
    match goal with
    | |- context [render s ?s1 ?w1] =>
        destruct (render_frame s s1 w1) as ((_ & _ & Fd & _) & _)
    end.
    rewrite Fd. unfold deleteTimerCallback.
    destruct (Str.includes _ _); reflexivity. }
  destruct (fireSuccessTimer_frame (fireDeleteTimer (s, w')))
    as ((_ & _ & _ & _ & [H | H]) & _); rewrite H; [exact H2 | reflexivity].
Qed.

(** A pending deletion whose timer alone is running is reset when the timer
    has run out. *)
Lemma delete_timer_runs_out (k : N) :
  forall (s : AppState) (w : World),
    clearTimer (timers w) = None ->
    successTimer (timers w) = None ->
    deleteTimer (timers w) = Some (N.succ k) ->
    confirmDeleteId (fst (elapse (N.succ k) (s, w))) = None.
Proof.
  induction k as [| k IH] using N.peano_ind; intros s w Hc Hs Hd.
  - change (elapse (N.succ 0) (s, w)) with (tick (s, w)).
    apply tick_fires_delete; rewrite ?Hc, ?Hd; reflexivity.
  - unfold elapse. rewrite N.iter_succ_r.
    assert (Hquiet : due (countDown (deleteTimer (timers w))) = false).
    { rewrite Hd. simpl. rewrite N.pred_succ. apply N.eqb_neq.
      apply N.succ_0_discr. }
    rewrite tick_idle; [| rewrite Hc; reflexivity | exact Hquiet
                        | rewrite Hs; reflexivity].
    apply IH; simpl.
    + rewrite Hc. reflexivity.
    + rewrite Hs. reflexivity.
    + rewrite Hd. simpl. rewrite N.pred_succ. reflexivity.
Qed.

Lemma includes_success_after (fuel : nat) (p s : AppState) (w : World) :
  Str.includes "success" (message s) = false ->
  Str.includes "success" (message (fst (settle fuel false p s w))) = false.
Proof.
  intros H. destruct (settle_message fuel false p s w) as [-> | [-> | ->]];
    [exact H | reflexivity | reflexivity].
Qed.

(** The first request for a record only asks: nothing is deleted, the record's
    confirmation is the one pending, with five seconds on its timer. *)
Lemma first_request_only_warns (s : AppState) (w : World) (key : nat)
  (faults : list Fault) :
  isDBReady s = true ->
  confirmDeleteId s <> Some key ->
  message (fst (handleDelete key s (setOracle faults w)))
  = confirmDeleteMessage (recordName key s)
  /\ snd (handleDelete key s (setOracle faults w)) = setOracle faults w
  /\ confirmDeleteId (fst (step (DeleteClick key) faults (s, w))) = Some key
  /\ confirmClear (fst (step (DeleteClick key) faults (s, w))) = false
  /\ collection (snd (step (DeleteClick key) faults (s, w))) = collection w
  /\ deleteTimer (timers (snd (step (DeleteClick key) faults (s, w))))
     = Some 5000%N.
Proof.
  intros Hready Hne.
  rewrite step_handle by discriminate. unfold handle.
  rewrite (handleDelete_first key s (setOracle faults w) Hready Hne).
  cbn [fst snd].
  match goal with
  | |- context [render s ?s1 ?w1] =>
      destruct (render_frame s s1 w1) as ((_ & Hc & Hd & _) & (Hst & _) & _);
      pose proof (settle_deleteTimer_set (settleFuel w1) s s1 w1) as Ht
  end.
  unfold collection. rewrite Hc, Hd, Hst.
  repeat split. apply Ht. simpl. congruence.
Qed.

(** The second request for the same record, while its confirmation is
    pending and the store call meets no fault, deletes that record and no
    other, and the confirmation is over. *)
Lemma confirming_request_deletes (s : AppState) (w : World) (key : nat)
  (faults : list Fault) :
  isDBReady s = true ->
  confirmDeleteId s = Some key ->
  calmFor 1 faults = true ->
  collection (snd (step (DeleteClick key) faults (s, w)))
  = filter (fun r => negb (id r =? key)) (collection w)
  /\ ~ In key (map id (collection (snd (step (DeleteClick key) faults (s, w)))))
  /\ confirmDeleteId (fst (step (DeleteClick key) faults (s, w))) = None.
Proof.
  intros Hready Hp Hcalm.
  assert (Hf : hd NoFault (oracle (setOracle faults w)) = NoFault).
  { simpl. destruct faults as [| f rest]; [reflexivity |].
    destruct f; try discriminate. reflexivity. }
  rewrite step_handle by discriminate. unfold handle.
  rewrite (handleDelete_confirmed key s (setOracle faults w) Hready Hp Hf).
  cbn [fst snd].
  match goal with
  | |- context [render s ?s1 ?w1] =>
      destruct (render_frame s s1 w1) as ((_ & _ & Hd & _) & (Hst & _) & _)
  end.
  unfold collection. rewrite Hd, Hst. simpl.
  repeat split. apply filter_removes.
Qed.

(** When the warning has no "success" in it, five seconds without a request
    reset the confirmation and delete nothing. *)
Lemma delete_confirmation_times_out (c : AppState * World) (key : nat)
  (faults faults' : list Fault) :
  reachable c ->
  isDBReady (fst c) = true ->
  confirmDeleteId (fst c) <> Some key ->
  Str.includes "success" (confirmDeleteMessage (recordName key (fst c))) = false ->
  confirmDeleteId (fst (step (DeleteClick key) faults c)) = Some key
  /\ confirmDeleteId
       (fst (step (Elapse 5000) faults' (step (DeleteClick key) faults c))) = None
  /\ collection (snd (step (Elapse 5000) faults' (step (DeleteClick key) faults c)))
     = collection (snd c).
Proof.
  intros Hreach Hready Hne Hname.
  pose proof (reachable_tidy _ (reach_step c (DeleteClick key) faults Hreach))
    as (Tc & _ & Ts).
  destruct c as [s w]. cbn [fst snd] in *.
  destruct (first_request_only_warns s w key faults Hready Hne)
    as (_ & _ & Hp & Hc & Hrows & Ht).
  assert (Hmsg : Str.includes "success"
                   (message (fst (step (DeleteClick key) faults (s, w)))) = false).
  { rewrite step_handle by discriminate. unfold handle.
    rewrite (handleDelete_first key s (setOracle faults w) Hready Hne).
    apply includes_success_after. exact Hname. }
  specialize (Tc Hc). specialize (Ts Hmsg).
  destruct (step (DeleteClick key) faults (s, w)) as [s1 w1]. cbn [fst snd] in *.
  split; [exact Hp |]. rewrite step_elapse. split.
  - change 5000%N with (N.succ 4999).
    apply delete_timer_runs_out; simpl; assumption.
  - destruct (elapse_frame 5000 (s1, setOracle faults' w1)) as (_ & Hst & _).
    unfold collection in *. rewrite Hst. exact Hrows.
Qed.

(** In a reachable state nothing is under way: every step ran to rest. *)
Lemma tick_at_rest (c : AppState * World) :
  inflight (snd c) = [] -> inflight (snd (tick c)) = [].
Proof.
  destruct c as [s w]. cbn [fst snd]. intros H. unfold tick.
  match goal with
  | |- context [fireClearTimer (s, ?w1)] =>
      assert (H1 : inflight (snd (fireClearTimer (s, w1))) = [])
  end.
  { unfold fireClearTimer. destruct (due _); [apply render_at_rest | exact H]. }
  match goal with
  | |- context [fireDeleteTimer ?c1] =>
      assert (H2 : inflight (snd (fireDeleteTimer c1)) = []);
      [| destruct (fireDeleteTimer c1) as [s3 w3]]
  end.
  { match goal with
    | |- context [fireDeleteTimer ?c1] => destruct c1 as [s2 w2]
    end.
    unfold fireDeleteTimer. destruct (due _); [apply render_at_rest | exact H1]. }
  unfold fireSuccessTimer. destruct (due _); [apply render_at_rest | exact H2].
Qed.

Lemma reachable_at_rest (c : AppState * World) :
  reachable c -> inflight (snd c) = [].
Proof.
  induction 1 as [db saved clock faults _ | c e faults _ IH].
  - apply boot_at_rest.
  - destruct c as [s w].
    destruct e as [p | name value | input | name checked | | image | | | | key | | ms];
      try (rewrite step_handle by discriminate; apply render_at_rest).
    rewrite step_elapse. unfold elapse.
    apply (N.iter_invariant ms _ tick (fun x => inflight (snd x) = [])).
    + intros x. apply tick_at_rest.
    + exact IH.
Qed.

(** * The store and the list shown *)

Lemma boot_store (w : World) : store (snd (boot w)) = store w.
Proof. apply settle_frame. Qed.

(** The store of a reachable state is well formed. *)
Lemma reachable_wf (c : AppState * World) :
  reachable c -> IDB.wf (store (snd c)).
Proof.
  induction 1 as [db saved clock faults Hkept | c e faults _ IH].
  - rewrite boot_store. unfold store. simpl.
    destruct db as [st |]; [exact Hkept | apply IDBFacts.wf_createObjectStore].
  - destruct c as [s w]. cbn [fst snd] in *.
    destruct (step_cases e faults s w)
      as (n & [[Hs _] | [(_ & _ & _ & Hs) | [(k & _ & _ & _ & _ & Hs)
                                           | (_ & _ & _ & _ & Hs)]]]).
    + rewrite Hs. exact IH.
    + destruct Hs as [-> | ->]; [exact IH | apply IDBFacts.wf_add; exact IH].
    + destruct Hs as [-> | ->]; [exact IH | apply IDBFacts.wf_delete; exact IH].
    + destruct Hs as [-> | ->]; [exact IH | apply IDBFacts.wf_clear; exact IH].
Qed.

Lemma fetchRecordsSettle_synced (closedMessage : string) (s : AppState) (w : World) :
  synced (fst (fetchRecordsSettle closedMessage s w))
    (snd (fetchRecordsSettle closedMessage s w)).
Proof.
  unfold synced, fetchRecordsSettle, getAllRecords, withStore, begin, openDB.
  destruct (hd NoFault (oracle w)); simpl;
    try (intros H; discriminate H).
  match goal with
  | |- context [if ?b then _ else _] => destruct b
  end; simpl; intros _; reflexivity.
Qed.

Lemma runEffects_synced (first : bool) (p s : AppState) (w : World) :
  synced s w ->
  synced (fst (runEffects first p s w)) (snd (runEffects first p s w)).
Proof.
  destruct (runEffects_frame first p s w)
    as (_ & (Hst & _) & _ & Hr & Hl & _).
  unfold synced, collection. rewrite Hst, Hr, Hl. auto.
Qed.

(** After the re-renders either a request is still under way or the list is
    the store's content. *)
Lemma settle_synced (fuel : nat) :
  forall (first : bool) (p s : AppState) (w : World),
    inflight w <> [] \/ synced s w ->
    inflight (snd (settle fuel first p s w)) <> []
    \/ synced (fst (settle fuel first p s w)) (snd (settle fuel first p s w)).
Proof.
  induction fuel as [| fuel IH]; intros first p s w Hpre.
  - rewrite settle_0.
    destruct Hpre as [Hq | Hs]; [left | right; apply runEffects_synced; exact Hs].
    rewrite runEffects_inflight. intros H. apply app_eq_nil in H. tauto.
  - rewrite settle_S.
    pose proof (runEffects_inflight first p s w) as Hq1.
    pose proof (runEffects_synced first p s w) as Hs1.
    destruct (runEffects first p s w) as [s1 w1]. cbn [fst snd] in *.
    destruct (inflight w1) as [| closedMessage rest].
    + right. apply Hs1. destruct Hpre as [Hq | Hs]; [| exact Hs].
      symmetry in Hq1. apply app_eq_nil in Hq1. tauto.
    + cbv zeta. apply IH. right. apply fetchRecordsSettle_synced.
Qed.

Lemma render_synced (p s : AppState) (w : World) :
  inflight w <> [] \/ synced s w ->
  synced (fst (render p s w)) (snd (render p s w)).
Proof.
  intros Hpre.
  destruct (settle_synced (settleFuel w) false p s w Hpre) as [H | H];
    [| exact H].
  exfalso. apply H. apply render_at_rest.
Qed.

Lemma handleSubmit_refused (s : AppState) (w : World) :
  readyToSubmit s = false ->
  exists m, handleSubmit s w = (setMessage m s, w).
Proof.
  unfold readyToSubmit, handleSubmit. intros H.
  destruct (blank (completeName (formData s))); simpl in *;
    [eexists; reflexivity |].
  destruct (blank (designation (formData s))); simpl in *;
    [eexists; reflexivity |].
  destruct (blank (division (formData s))); simpl in *;
    [eexists; reflexivity |].
  destruct (signatureCaptured s); simpl in *; [| eexists; reflexivity].
  destruct (canvasMounted s); simpl in *; [| eexists; reflexivity].
  destruct (isDBReady s); simpl in *; [discriminate | eexists; reflexivity].
Qed.

(** A handler leaves the list alone; when it has changed the store it has
    called [fetchRecords]. *)
Lemma handle_synced (e : Event) (s : AppState) (w : World) :
  synced s w ->
  inflight (snd (handle e s w)) <> []
  \/ synced (fst (handle e s w)) (snd (handle e s w)).
Proof.
  intros Hs.
  destruct e as [p | name value | input | name checked | | image | | | | key | | ms];
    unfold handle.
  - right. destruct p; exact Hs.
  - right. exact Hs.
  - right. exact Hs.
  - right. exact Hs.
  - right. unfold startDrawing. destruct (canvasMounted s), (isDBReady s);
      exact Hs.
  - right. unfold draw. destruct (canvasMounted s), (isDrawing w); exact Hs.
  - right. destruct (canvasMounted s); exact Hs.
  - right. unfold handleClearSignature. destruct (canvasMounted s); exact Hs.
  - destruct (readyToSubmit s) eqn:Hready.
    + rewrite (handleSubmit_ready s w Hready). unfold addRecord.
      match goal with
      | |- context [withStore ?c ?request w] =>
          destruct (withStore_cases c request w)
            as [[_ H] | [_ (w' & H & ((Hst & _) & _))]]
      end; rewrite H.
      * left. simpl. intros Hq. apply app_eq_nil in Hq.
        destruct Hq as [_ Hq]. discriminate.
      * right. unfold synced, collection in *. simpl. rewrite Hst. exact Hs.
    + right. destruct (handleSubmit_refused s w Hready) as (m & ->). exact Hs.
  - unfold handleDelete. destruct (isDBReady s); [| right; exact Hs]. simpl.
    destruct (option_nat_eqb (confirmDeleteId s) (Some key)); [| right; exact Hs].
    unfold deleteRecord.
    match goal with
    | |- context [withStore ?c ?request w] =>
        destruct (withStore_cases c request w)
          as [[_ H] | [_ (w' & H & ((Hst & _) & _))]]
    end; rewrite H.
    + left. simpl. intros Hq. apply app_eq_nil in Hq.
      destruct Hq as [_ Hq]. discriminate.
    + right. unfold synced, collection in *. simpl. rewrite Hst. exact Hs.
  - unfold handleClearAll. destruct (isDBReady s); [| right; exact Hs]. simpl.
    destruct (confirmClear s); [| right; exact Hs].
    unfold deleteAllRecords.
    match goal with
    | |- context [withStore ?c ?request w] =>
        destruct (withStore_cases c request w)
          as [[_ H] | [_ (w' & H & ((Hst & _) & _))]]
    end; rewrite H.
    + left. simpl. intros Hq. apply app_eq_nil in Hq.
      destruct Hq as [_ Hq]. discriminate.
    + right. unfold synced, collection in *. simpl. rewrite Hst. exact Hs.
  - right. exact Hs.
Qed.

Lemma tick_synced (c : AppState * World) :
  synced (fst c) (snd c) -> synced (fst (tick c)) (snd (tick c)).
Proof.
  destruct c as [s w]. cbn [fst snd]. intros Hs. unfold tick.
  match goal with
  | |- context [fireClearTimer (s, ?w1)] =>
      assert (H1 : synced (fst (fireClearTimer (s, w1)))
                     (snd (fireClearTimer (s, w1))))
  end.
  { unfold fireClearTimer. destruct (due _); [| exact Hs].
    apply render_synced. right. exact Hs. }
  match goal with
  | |- context [fireDeleteTimer ?c1] =>
      assert (H2 : synced (fst (fireDeleteTimer c1)) (snd (fireDeleteTimer c1)));
      [destruct c1 as [s2 w2] | destruct (fireDeleteTimer c1) as [s3 w3]]
  end.
  { unfold fireDeleteTimer. destruct (due _); [| exact H1].
    apply render_synced. right. unfold deleteTimerCallback.
    destruct (Str.includes _ _); exact H1. }
  unfold fireSuccessTimer. destruct (due _); [| exact H2].
  apply render_synced. right. exact H2.
Qed.

Lemma step_synced (e : Event) (faults : list Fault) (c : AppState * World) :
  synced (fst c) (snd c) ->
  synced (fst (step e faults c)) (snd (step e faults c)).
Proof.
  destruct c as [s w]. cbn [fst snd]. intros Hs.
  assert (Hs0 : synced s (setOracle faults w)) by exact Hs.
  destruct e as [p | name value | input | name checked | | image | | | | key | | ms];
    try (rewrite step_handle by discriminate;
         apply render_synced; apply handle_synced; exact Hs0).
  rewrite step_elapse. unfold elapse.
  apply (N.iter_invariant ms _ tick (fun x => synced (fst x) (snd x))).
  - intros x. apply tick_synced.
  - exact Hs0.
Qed.

Lemma reachable_synced (c : AppState * World) :
  reachable c -> synced (fst c) (snd c).
Proof.
  induction 1 as [db saved clock faults _ | c e faults _ IH].
  - destruct (settle_synced (settleFuel (pageLoad db saved clock faults)) true
                (initialState (pageLoad db saved clock faults))
                (initialState (pageLoad db saved clock faults))
                (pageLoad db saved clock faults)) as [H | H].
    + right. intros Hready. discriminate Hready.
    + exfalso. apply H. apply boot_at_rest.
    + exact H.
  - apply step_synced. exact IH.
Qed.

(** A record whose trash icon is shown is in the store. *)
Lemma shown_is_stored (c : AppState * World) (key : nat) :
  reachable c ->
  deleteButtonShown key (fst c) = true ->
  isDBReady (fst c) = true /\ In key (map id (collection (snd c))).
Proof.
  intros Hreach Hshown. unfold deleteButtonShown in Hshown.
  apply andb_prop in Hshown. destruct Hshown as [Hshown Hin].
  apply andb_prop in Hshown. destruct Hshown as [_ Hready].
  split; [exact Hready |].
  rewrite (reachable_synced c Hreach Hready) in Hin.
  apply existsb_exists in Hin. destruct Hin as (r & Hr & Hid).
  apply Nat.eqb_eq in Hid. subst key.
  apply in_map. apply in_rev. exact Hr.
Qed.

(** The two steps of a deletion, for a record whose trash icon is shown: the
    record is in the store; a request while its confirmation is not pending
    leaves it there and makes the confirmation pending; a request while the
    confirmation is pending, the store call meeting no fault, removes it. *)
Lemma deletion_takes_two_requests (c : AppState * World) (key : nat)
  (faults : list Fault) :
  reachable c ->
  deleteButtonShown key (fst c) = true ->
  In key (map id (collection (snd c)))
  /\ (confirmDeleteId (fst c) <> Some key ->
      In key (map id (collection (snd (step (DeleteClick key) faults c))))
      /\ confirmDeleteId (fst (step (DeleteClick key) faults c)) = Some key)
  /\ (confirmDeleteId (fst c) = Some key ->
      calmFor 1 faults = true ->
      ~ In key (map id (collection (snd (step (DeleteClick key) faults c))))
      /\ confirmDeleteId (fst (step (DeleteClick key) faults c)) = None).
Proof.
  intros Hreach Hshown.
  destruct (shown_is_stored c key Hreach Hshown) as [Hready Hin].
  destruct c as [s w]. cbn [fst snd] in *.
  split; [exact Hin |]. split.
  - intros Hne.
    destruct (first_request_only_warns s w key faults Hready Hne)
      as (_ & _ & Hp & _ & Hrows & _).
    rewrite Hrows. split; assumption.
  - intros Hp Hcalm.
    destruct (confirming_request_deletes s w key faults Hready Hp Hcalm)
      as (_ & Hgone & Hover).
    split; assumption.
Qed.

(** * The scenarios *)

Lemma loaded_reachable : reachable Scenario.loaded.
Proof. apply reach_boot. exact I. Qed.

Lemma formFilled_reachable : reachable Scenario.formFilled.
Proof.
  unfold Scenario.formFilled. apply steps_reachable. exact loaded_reachable.
Qed.

Lemma twoRecords_reachable : reachable Scenario.twoRecords.
Proof.
  unfold Scenario.twoRecords. apply steps_reachable. exact loaded_reachable.
Qed.

Lemma clickedOnce_reachable (key : nat) : reachable (Scenario.clickedOnce key).
Proof.
  unfold Scenario.clickedOnce. apply reach_step. exact twoRecords_reachable.
Qed.

(** C1, where the code departs from it. Bob's record, whose name contains
    "success", is in the store and its trash icon is shown; one request makes
    its confirmation pending and deletes nothing; after five seconds without a
    request the confirmation is still pending, with three seconds to go, and a
    single request then deletes the record. *)
Theorem delete_confirmation_outlives_five_seconds :
  let c0 := Scenario.twoRecords in
  let c1 := step (DeleteClick 2) [] c0 in
  let c2 := step (Elapse 5000) [] c1 in
  let c3 := step (DeleteClick 2) [] c2 in
  reachable c0
  /\ deleteButtonShown 2 (fst c0) = true
  /\ map id (collection (snd c0)) = [1; 2]
  /\ recordName 2 (fst c0) = "Unsuccessful Bob"
  /\ idle (fst c0)
  /\ confirmDeleteId (fst c1) = Some 2
  /\ collection (snd c1) = collection (snd c0)
  /\ timers (snd c1)
     = {| clearTimer := None; deleteTimer := Some 5000%N;
          successTimer := Some 3000%N |}
  /\ confirmDeleteId (fst c2) = Some 2
  /\ timers (snd c2)
     = {| clearTimer := None; deleteTimer := Some 3000%N; successTimer := None |}
  /\ map id (collection (snd c3)) = [1].
Proof.
  split; [exact twoRecords_reachable |].
  vm_compute. repeat split.
Qed.

(** The same for Jane's record, whose name has no "success" in it: after five
    seconds the confirmation is reset and a request only asks again. *)
Lemma delete_confirmation_times_out_for_jane :
  let c0 := Scenario.twoRecords in
  let c1 := step (DeleteClick 1) [] c0 in
  let c2 := step (Elapse 5000) [] c1 in
  let c3 := step (DeleteClick 1) [] c2 in
  confirmDeleteId (fst c1) = Some 1
  /\ confirmDeleteId (fst (step (Elapse 4999) [] c1)) = Some 1
  /\ idle (fst c2)
  /\ confirmDeleteId (fst c3) = Some 1
  /\ map id (collection (snd c3)) = [1; 2].
Proof. vm_compute. repeat split. Qed.

(** An adapter call that fails before its store request is rejected with the
    generic message. *)
Lemma withStore_generic_error {A : Type} (c : Call)
  (request : World -> A * World) (w : World) :
  failing (hd NoFault (oracle w)) = true ->
  (forall e, hd NoFault (oracle w) <> RequestError e) ->
  fst (withStore c request w) = Rejected (mkError IDB_ERROR_MESSAGE).
Proof.
  intros Hfail Hne. unfold withStore, begin, openDB.
  destruct (hd NoFault (oracle w)) as [| | e | e | e]; simpl;
    try reflexivity; try discriminate.
  exfalso. apply (Hne e). reflexivity.
Qed.

(** C8, where the code departs from it. The form is filled in and signed;
    [store.add] fails with a quota error. [addRecord] is rejected with that
    error, not with the generic one, and [handleSubmit] shows its message; the
    same failure under a confirming [handleDelete] shows it too, and an error
    without a message shows the handler's own text. *)
Theorem request_error_reaches_the_user :
  let c := Scenario.formFilled in
  let w := setOracle [RequestError Sample.quota] (snd c) in
  let d := Scenario.clickedOnce 1 in
  let silent := {| errName := "AbortError"; errMessage := "" |} in
  reachable c
  /\ readyToSubmit (fst c) = true
  /\ fst (addRecord (withSignature (canvasImage w) (formData (fst c))) w)
     = Rejected Sample.quota
  /\ message (fst (handleSubmit (fst c) w)) = "The quota has been exceeded."
  /\ message (fst (handleSubmit (fst c) w)) <> IDB_ERROR_MESSAGE
  /\ reachable d
  /\ confirmDeleteId (fst d) = Some 1
  /\ message (fst (handleDelete 1 (fst d)
                     (setOracle [RequestError Sample.quota] (snd d))))
     = "The quota has been exceeded."
  /\ message (fst (handleDelete 1 (fst d)
                     (setOracle [RequestError silent] (snd d))))
     = "Error deleting record."
  /\ message (fst (handleSubmit (fst c)
                     (setOracle [OpenError Sample.quota] (snd c))))
     = IDB_ERROR_MESSAGE.
Proof.
  split; [exact formFilled_reachable |].
  split; [vm_compute; reflexivity |].
  split; [vm_compute; reflexivity |].
  split; [vm_compute; reflexivity |].
  split; [vm_compute; discriminate |].
  split; [exact (clickedOnce_reachable 1) |].
  vm_compute. repeat split.
Qed.

(** C6 as stated fails: Jane's confirmation is pending, the confirming
    request's [deleteRecord] is rejected (the transaction cannot be opened, or
    the store request fails), and the confirmation is pending still, not
    idle. *)
Lemma failed_delete_is_not_idle :
  let c := Scenario.clickedOnce 1 in
  let locked := {| errName := "InvalidStateError"; errMessage := "" |} in
  let c' := step (DeleteClick 1) [TransactionError locked] c in
  let c'' := step (DeleteClick 1) [RequestError Sample.quota] c in
  confirmDeleteId (fst c) = Some 1
  /\ fst (deleteRecord 1 (setOracle [TransactionError locked] (snd c)))
     = Rejected (mkError IDB_ERROR_MESSAGE)
  /\ confirmDeleteId (fst c') = Some 1
  /\ ~ idle (fst c')
  /\ fst (deleteRecord 1 (setOracle [RequestError Sample.quota] (snd c)))
     = Rejected Sample.quota
  /\ confirmDeleteId (fst c'') = Some 1
  /\ ~ idle (fst c'')
  /\ collection (snd c') = collection (snd c).
Proof.
  vm_compute. repeat split; intros [_ H]; discriminate.
Qed.

(** C7 as stated fails: with Jane's confirmation pending the user opens the
    setup page and edits the venue; the confirmation is pending still. *)
Lemma config_change_keeps_confirmation :
  let c := step (Navigate setup) [] (Scenario.clickedOnce 1) in
  let c' := step (ConfigChange nameVenue "Hall A") [] c in
  confirmDeleteId (fst c) = Some 1
  /\ confirmDeleteId (fst c') = Some 1
  /\ ~ idle (fst c').
Proof.
  vm_compute. repeat split. intros [_ H]. discriminate.
Qed.

(** * The theorems at work on the scenarios *)

Lemma getAllRecords_newest_first_witness :
  exists listed w',
    getAllRecords
      (runOps [OpInsert Sample.jane; OpInsert Sample.bob] Sample.freshBrowser)
    = (Fulfilled listed, w')
    /\ map id listed = [2; 1]
    /\ before (stored 2 Sample.bob 0%N) (stored 1 Sample.jane 0%N) listed.
Proof.
  assert (Hwf : IDB.wf (store Sample.freshBrowser)) by (split; constructor).
  assert (Hcalm : calm 1 (runOps [OpInsert Sample.jane; OpInsert Sample.bob]
                            Sample.freshBrowser)) by reflexivity.
  destruct (getAllRecords_newest_first Sample.freshBrowser
              [OpInsert Sample.jane; OpInsert Sample.bob] Hwf Hcalm)
    as (listed & w' & Hget & Hlisted & _ & _ & _ & Horder).
  exists listed, w'. split; [exact Hget |].
  split; [rewrite Hlisted; reflexivity |].
  apply (Horder [] Sample.jane [] Sample.bob [] 1 2);
    try reflexivity; rewrite Hlisted; vm_compute; auto.
Defined.

Lemma addRecord_assigns_id_and_timestamp_witness :
  exists key w',
    addRecord Sample.jane Sample.freshBrowser = (Fulfilled key, w')
    /\ key = 1
    /\ collection w' = [stored 1 Sample.jane 0%N].
Proof.
  assert (Hwf : IDB.wf (store Sample.freshBrowser)) by (split; constructor).
  assert (Hcalm : calm 2 Sample.freshBrowser) by reflexivity.
  destruct (addRecord_assigns_id_and_timestamp Sample.freshBrowser Sample.jane
              Hwf Hcalm)
    as (key & w' & Hadd & Hkey & _ & _ & Hrows & _).
  exists key, w'. split; [exact Hadd |].
  split; [exact Hkey |]. rewrite Hrows, Hkey. reflexivity.
Defined.

Lemma deleteRecord_idempotent_witness :
  exists w1 w2,
    deleteRecord 1
      (runOps [OpInsert Sample.jane; OpInsert Sample.bob] Sample.freshBrowser)
    = (Fulfilled true, w1)
    /\ deleteRecord 1 w1 = (Fulfilled true, w2)
    /\ map id (collection w1) = [2]
    /\ collection w2 = collection w1.
Proof.
  assert (Hcalm : calm 2 (runOps [OpInsert Sample.jane; OpInsert Sample.bob]
                            Sample.freshBrowser)) by reflexivity.
  destruct (deleteRecord_idempotent
              (runOps [OpInsert Sample.jane; OpInsert Sample.bob]
                 Sample.freshBrowser) 1 Hcalm)
    as (w1 & w2 & H1 & H2 & Hrows & _ & Hsame & _).
  exists w1, w2. split; [exact H1 |]. split; [exact H2 |].
  split; [rewrite Hrows; reflexivity | exact Hsame].
Defined.

Lemma confirmations_exclusive_witness :
  exclusive (fst (Scenario.clickedOnce 1))
  /\ confirmClear (fst (step ClearAllClick [] (Scenario.clickedOnce 1))) = true
  /\ confirmDeleteId (fst (step ClearAllClick [] (Scenario.clickedOnce 1))) = None
  /\ collection (snd (step ClearAllClick [] (Scenario.clickedOnce 1)))
     = collection (snd (Scenario.clickedOnce 1)).
Proof.
  assert (Hreach : reachable (Scenario.clickedOnce 1)).
  { unfold Scenario.clickedOnce, Scenario.twoRecords, Scenario.loaded.
    apply reach_step. apply steps_reachable. apply reach_boot. exact I. }
  destruct (confirmations_exclusive (Scenario.clickedOnce 1) Hreach)
    as [Hex Hstep].
  split; [exact Hex |].
  destruct (Hstep ClearAllClick []) as (_ & _ & Hclear & _).
  apply Hclear; [reflexivity | vm_compute; reflexivity | vm_compute; reflexivity].
Defined.

Lemma failed_confirmation_stays_pending_witness :
  confirmDeleteId
    (fst (step (DeleteClick 1) [RequestError Sample.quota]
            (fst (Scenario.clickedOnce 1), snd (Scenario.clickedOnce 1))))
  = Some 1
  /\ collection
       (snd (step (DeleteClick 1) [RequestError Sample.quota]
               (fst (Scenario.clickedOnce 1), snd (Scenario.clickedOnce 1))))
     = collection (snd (Scenario.clickedOnce 1)).
Proof.
  assert (Hready : isDBReady (fst (Scenario.clickedOnce 1)) = true)
    by (vm_compute; reflexivity).
  assert (Hfail : failing (RequestError Sample.quota) = true) by reflexivity.
  assert (Hp : confirmDeleteId (fst (Scenario.clickedOnce 1)) = Some 1)
    by (vm_compute; reflexivity).
  destruct (failed_confirmation_stays_pending
              (fst (Scenario.clickedOnce 1)) (snd (Scenario.clickedOnce 1))
              (RequestError Sample.quota) [] Hready Hfail) as [Hdelete _].
  destruct (Hdelete 1 Hp) as (_ & _ & Hpending & _ & Hrows & _).
  split; assumption.
Defined.

Lemma submit_validates_before_insert_witness :
  exists made,
    callsSince (snd Scenario.loaded) (snd (step Submit [] Scenario.loaded)) made
    /\ existsb isInsert made = false
    /\ collection (snd (step Submit [] Scenario.loaded))
       = collection (snd Scenario.loaded).
Proof.
  assert (Hreach : reachable Scenario.loaded) by (apply reach_boot; exact I).
  destruct (submit_validates_before_insert Scenario.loaded [] Hreach)
    as (made & Hcalls & _ & Hmissing).
  exists made. split; [exact Hcalls |].
  assert (Hempty : completeName (formData (fst Scenario.loaded)) = "")
    by (vm_compute; reflexivity).
  destruct (Hmissing (or_introl Hempty)) as (Hnone & Hrows & _).
  split; assumption.
Defined.

(** * Further properties of the adapter *)

(** X1. [deleteAllRecords] empties the collection whatever it held, the
    [getAllRecords] that follows returns the empty list, and the key generator
    stays where it was; a rejected [deleteAllRecords] leaves the collection as
    it was. *)
Theorem deleteAllRecords_empties :
  forall w : World,
    (calm 2 w ->
     exists w1 w2,
       deleteAllRecords w = (Fulfilled true, w1)
       /\ collection w1 = []
       /\ IDB.keyGenerator (store w1) = IDB.keyGenerator (store w)
       /\ getAllRecords w1 = (Fulfilled [], w2)
       /\ collection w2 = [])
    /\ (forall e w', deleteAllRecords w = (Rejected e, w') ->
                     collection w' = collection w).
Proof.
  intros w. split.
  - intros Hcalm.
    pose proof (calm_S _ _ Hcalm) as [Hf Hcalm'].
    assert (Hc1 : calm 1 w).
    { unfold calm in *. destruct (oracle w) as [| f rest]; [reflexivity |].
      simpl in *. destruct f; try discriminate. reflexivity. }
    unfold deleteAllRecords. rewrite withStore_calm by exact Hc1.
    eexists _, _. split; [reflexivity |]. simpl.
    split; [reflexivity |]. split; [reflexivity |].
    unfold getAllRecords. rewrite withStore_calm by exact Hcalm'.
    split; reflexivity.
  - intros e w' H. unfold collection.
    rewrite (withStore_rejected _ _ _ _ _ H). reflexivity.
Qed.

Lemma deleteAllRecords_empties_witness :
  exists w1 w2,
    deleteAllRecords
      (runOps [OpInsert Sample.jane; OpInsert Sample.bob] Sample.freshBrowser)
    = (Fulfilled true, w1)
    /\ collection w1 = []
    /\ IDB.keyGenerator (store w1) = 3
    /\ getAllRecords w1 = (Fulfilled [], w2).
Proof.
  assert (Hcalm : calm 2 (runOps [OpInsert Sample.jane; OpInsert Sample.bob]
                            Sample.freshBrowser)) by reflexivity.
  destruct (proj1 (deleteAllRecords_empties
                     (runOps [OpInsert Sample.jane; OpInsert Sample.bob]
                        Sample.freshBrowser)) Hcalm)
    as (w1 & w2 & H1 & H2 & H3 & H4 & _).
  exists w1, w2. split; [exact H1 |]. split; [exact H2 |].
  split; [rewrite H3; reflexivity | exact H4].
Defined.

(** X2. Keys are never used twice: of two [addRecord] calls that are
    fulfilled, the later one returns the greater key, whatever was deleted or
    cleared in between. *)
Theorem keys_never_reused :
  forall (w0 : World) (earlier between : list Op) (a b : FormData)
         (ka kb : nat),
    IDB.wf (store w0) ->
    fst (addRecord a (runOps earlier w0)) = Fulfilled ka ->
    fst (addRecord b (runOps (earlier ++ OpInsert a :: between) w0))
    = Fulfilled kb ->
    ka < kb.
Proof.
  intros w0 earlier between a b ka kb Hwf0 Ha Hb.
  destruct (runOps_wf earlier w0 Hwf0) as [HwfA _].
  set (wA := runOps earlier w0) in *.
  destruct (addRecord a wA) as [resA wA'] eqn:HaddA. simpl in Ha. subst resA.
  destruct (addRecord_fulfilled _ _ _ _ HaddA) as (HkA & HstA & _).
  rewrite runOps_app in Hb. fold wA in Hb.
  change (runOps (OpInsert a :: between) wA)
    with (runOps between (snd (addRecord a wA))) in Hb.
  rewrite HaddA in Hb. simpl snd in Hb.
  assert (HwfA' : IDB.wf (store wA')).
  { rewrite HstA. apply IDBFacts.wf_add. exact HwfA. }
  destruct (runOps_wf between wA' HwfA') as [_ Hle].
  destruct (addRecord b (runOps between wA')) as [resB wB'] eqn:HaddB.
  simpl in Hb. subst resB.
  destruct (addRecord_fulfilled _ _ _ _ HaddB) as (HkB & _).
  rewrite HstA in Hle. simpl in Hle. lia.
Qed.

Lemma keys_never_reused_witness :
  fst (addRecord Sample.bob
         (runOps ([] ++ OpInsert Sample.jane :: [OpDeleteAll]) Sample.freshBrowser))
  = Fulfilled 2
  /\ 1 < 2.
Proof.
  assert (Hwf : IDB.wf (store Sample.freshBrowser)) by (split; constructor).
  split; [reflexivity |].
  apply (keys_never_reused Sample.freshBrowser [] [OpDeleteAll]
           Sample.jane Sample.bob 1 2 Hwf); reflexivity.
Defined.

(** X3. When the database cannot be opened, because IndexedDB is missing or
    the open request fails, each of the four adapter functions is rejected with
    the generic error and the database is left as it was, not even created;
    when the transaction cannot be opened the error is the generic one too and
    the collection is unchanged. *)
Theorem open_failure_is_generic :
  forall (w : World) (recordData : FormData) (key : nat),
    failing (hd NoFault (oracle w)) = true ->
    (forall e, hd NoFault (oracle w) <> RequestError e) ->
    (fst (addRecord recordData w) = Rejected (mkError IDB_ERROR_MESSAGE)
     /\ fst (getAllRecords w) = Rejected (mkError IDB_ERROR_MESSAGE)
     /\ fst (deleteRecord key w) = Rejected (mkError IDB_ERROR_MESSAGE)
     /\ fst (deleteAllRecords w) = Rejected (mkError IDB_ERROR_MESSAGE))
    /\ (collection (snd (addRecord recordData w)) = collection w
        /\ collection (snd (getAllRecords w)) = collection w
        /\ collection (snd (deleteRecord key w)) = collection w
        /\ collection (snd (deleteAllRecords w)) = collection w)
    /\ ((forall e, hd NoFault (oracle w) <> TransactionError e) ->
        database (snd (addRecord recordData w)) = database w
        /\ database (snd (getAllRecords w)) = database w
        /\ database (snd (deleteRecord key w)) = database w
        /\ database (snd (deleteAllRecords w)) = database w).
Proof.
  intros w recordData key Hfail Hreq.
  unfold addRecord, getAllRecords, deleteRecord, deleteAllRecords,
    withStore, begin, openDB, collection.
  destruct (hd NoFault (oracle w)) as [| | e | e | e]; simpl in *;
    try discriminate.
  - repeat split.
  - repeat split.
  - split; [repeat split |]. split; [repeat split |].
    intros H. exfalso. apply (H e). reflexivity.
  - exfalso. apply (Hreq e). reflexivity.
Qed.

Lemma open_failure_is_generic_witness :
  fst (addRecord Sample.jane (setOracle [NoIndexedDB] Sample.freshBrowser))
  = Rejected (mkError IDB_ERROR_MESSAGE)
  /\ database (snd (addRecord Sample.jane
                      (setOracle [NoIndexedDB] Sample.freshBrowser))) = None.
Proof.
  assert (Hfail : failing (hd NoFault
                             (oracle (setOracle [NoIndexedDB] Sample.freshBrowser)))
                  = true) by reflexivity.
  assert (Hreq : forall e, hd NoFault
                             (oracle (setOracle [NoIndexedDB] Sample.freshBrowser))
                           <> RequestError e) by (intros e; discriminate).
  destruct (open_failure_is_generic (setOracle [NoIndexedDB] Sample.freshBrowser)
              Sample.jane 0 Hfail Hreq) as ((H1 & _) & _ & Hdb).
  split; [exact H1 |].
  apply Hdb. intros e. discriminate.
Defined.

(** * Further properties of the handlers *)

Lemma In_insertByKey_inv (x r : AttendanceRecord) (l : list AttendanceRecord) :
  In r (IDB.insertByKey x l) -> r = x \/ In r l.
Proof.
  induction l as [| y l IH]; simpl.
  - intros [H | []]. left. symmetry. exact H.
  - destruct (id x <? id y); simpl.
    + intros [H | H]; [left; symmetry; exact H | right; exact H].
    + intros [H | H]; [right; left; exact H |].
      destruct (IH H) as [H' | H']; [left; exact H' | right; right; exact H'].
Qed.

(** X4. Stored records are never rewritten: whatever the event, the faults
    and the state, a record found in the store afterwards was there before,
    unchanged, or it is the one record a submission that passed the checks has
    just inserted under the generator's key, with the form's fields, the
    canvas image as signature and the clock's time. *)
Theorem stored_records_are_never_rewritten :
  forall (s : AppState) (w : World) (e : Event) (faults : list Fault)
         (r : AttendanceRecord),
    In r (collection (snd (step e faults (s, w)))) ->
    In r (collection w)
    \/ (e = Submit /\ readyToSubmit s = true
        /\ r = stored (IDB.keyGenerator (store w))
                 (withSignature (canvasImage w) (formData s)) (now w)).
Proof.
  intros s w e faults r Hin. unfold collection in *.
  destruct (step_cases e faults s w)
    as (n & [[Hs _] | [(He & Hr & _ & Hs) | [(k & _ & _ & _ & _ & Hs)
                                           | (_ & _ & _ & _ & Hs)]]]).
  - rewrite Hs in Hin. left. exact Hin.
  - destruct Hs as [Hs | Hs]; rewrite Hs in Hin; [left; exact Hin |].
    simpl in Hin. apply In_insertByKey_inv in Hin.
    destruct Hin as [-> | Hin]; [right | left; exact Hin].
    repeat split; assumption.
  - destruct Hs as [Hs | Hs]; rewrite Hs in Hin; [left; exact Hin |].
    simpl in Hin. apply filter_In in Hin. left. apply Hin.
  - destruct Hs as [Hs | Hs]; rewrite Hs in Hin; [left; exact Hin |].
    destruct Hin.
Qed.

Lemma stored_records_are_never_rewritten_witness :
  In (stored 1 Sample.jane 0%N)
    (collection (snd (step Submit []
                        (fst Scenario.formFilled, snd Scenario.formFilled))))
  /\ (In (stored 1 Sample.jane 0%N) (collection (snd Scenario.formFilled))
      \/ (Submit = Submit /\ readyToSubmit (fst Scenario.formFilled) = true
          /\ stored 1 Sample.jane 0%N
             = stored (IDB.keyGenerator (store (snd Scenario.formFilled)))
                 (withSignature (canvasImage (snd Scenario.formFilled))
                    (formData (fst Scenario.formFilled)))
                 (now (snd Scenario.formFilled)))).
Proof.
  assert (Hin : In (stored 1 Sample.jane 0%N)
                  (collection (snd (step Submit []
                                      (fst Scenario.formFilled,
                                       snd Scenario.formFilled)))))
    by (vm_compute; left; reflexivity).
  split; [exact Hin |].
  exact (stored_records_are_never_rewritten _ _ Submit [] _ Hin).
Defined.

(** X5. While the database does not count as ready no event changes the
    store: the collection and the key generator stay as they are and the only
    adapter calls made are [getAllRecords]. *)
Theorem nothing_is_written_before_ready :
  forall (s : AppState) (w : World) (e : Event) (faults : list Fault),
    isDBReady s = false ->
    store (snd (step e faults (s, w))) = store w
    /\ exists n, calls (snd (step e faults (s, w)))
                 = repeat CallGetAll n ++ calls w.
Proof.
  intros s w e faults Hnot.
  assert (Hsub : readyToSubmit s = false).
  { unfold readyToSubmit. rewrite Hnot. apply andb_false_r. }
  destruct (step_cases e faults s w)
    as (n & [[Hs Hc] | [(_ & Hr & _) | [(k & _ & Hr & _) | (_ & Hr & _)]]]);
    try congruence.
  split; [exact Hs | exists n; exact Hc].
Qed.

Lemma nothing_is_written_before_ready_witness :
  isDBReady (fst (boot (pageLoad None None 0 [NoIndexedDB; NoIndexedDB]))) = false
  /\ store (snd (step ClearAllClick []
                   (boot (pageLoad None None 0 [NoIndexedDB; NoIndexedDB]))))
     = store (snd (boot (pageLoad None None 0 [NoIndexedDB; NoIndexedDB]))).
Proof.
  assert (Hnot : isDBReady
                   (fst (boot (pageLoad None None 0 [NoIndexedDB; NoIndexedDB])))
                 = false) by (vm_compute; reflexivity).
  split; [exact Hnot |].
  rewrite (surjective_pairing
             (boot (pageLoad None None 0 [NoIndexedDB; NoIndexedDB]))) at 1.
  exact (proj1 (nothing_is_written_before_ready
                  (fst (boot (pageLoad None None 0 [NoIndexedDB; NoIndexedDB])))
                  (snd (boot (pageLoad None None 0 [NoIndexedDB; NoIndexedDB])))
                  ClearAllClick [] Hnot)).
Defined.

(** X6. A submission whose [addRecord] is rejected keeps what the user
    entered: the form fields, the captured-signature flag and both
    confirmations are as before, nothing is stored, and the message is the
    error's message or, that being empty, the generic one. *)
Theorem failed_submission_keeps_the_form :
  forall (s : AppState) (w : World) (f : Fault) (rest : list Fault),
    readyToSubmit s = true ->
    failing f = true ->
    formData (fst (step Submit (f :: rest) (s, w))) = formData s
    /\ signatureCaptured (fst (step Submit (f :: rest) (s, w))) = true
    /\ confirmClear (fst (step Submit (f :: rest) (s, w))) = confirmClear s
    /\ confirmDeleteId (fst (step Submit (f :: rest) (s, w))) = confirmDeleteId s
    /\ collection (snd (step Submit (f :: rest) (s, w))) = collection w
    /\ message (fst (handleSubmit s (setOracle (f :: rest) w)))
       = Str.orElse (errMessage (rejection f)) IDB_ERROR_MESSAGE
    /\ canvasImage (snd (handleSubmit s (setOracle (f :: rest) w)))
       = canvasImage w.
Proof.
  intros s w f rest Hready Hfail.
  set (w0 := setOracle (f :: rest) w).
  destruct (readyToSubmit_inv s Hready) as (_ & _ & _ & Hsig & _).
  rewrite step_handle by discriminate. unfold handle. fold w0.
  rewrite (handleSubmit_ready s w0 Hready). unfold addRecord.
  match goal with
  | |- context [withStore ?c ?request w0] =>
      destruct (withStore_cases c request w0)
        as [[Hcalm _] | [_ (w' & Hws & ((Hst & _) & _ & _ & Hcv & _))]]
  end.
  - simpl in Hcalm. rewrite Hcalm in Hfail. discriminate.
  - rewrite Hws. cbn [fst snd].
    match goal with
    | |- context [render s ?s1 ?w1] =>
        destruct (render_frame s s1 w1)
          as ((Hf & Hc & Hd & _ & Hg) & (Hst' & _) & _)
    end.
    unfold collection. rewrite Hf, Hc, Hd, Hg, Hst', Hst.
    repeat split; assumption.
Qed.

Lemma failed_submission_keeps_the_form_witness :
  formData (fst (step Submit [RequestError Sample.quota]
                   (fst Scenario.formFilled, snd Scenario.formFilled)))
  = formData (fst Scenario.formFilled)
  /\ collection (snd (step Submit [RequestError Sample.quota]
                        (fst Scenario.formFilled, snd Scenario.formFilled)))
     = collection (snd Scenario.formFilled).
Proof.
  assert (Hready : readyToSubmit (fst Scenario.formFilled) = true)
    by (vm_compute; reflexivity).
  assert (Hfail : failing (RequestError Sample.quota) = true) by reflexivity.
  destruct (failed_submission_keeps_the_form (fst Scenario.formFilled)
              (snd Scenario.formFilled) (RequestError Sample.quota) []
              Hready Hfail) as (H1 & _ & _ & _ & H2 & _).
  split; assumption.
Defined.

(** X7. With the submit button enabled the only check of [handleSubmit] that
    can refuse is the one for the signature: without a captured signature the
    handler sets the signature message and touches nothing else; with one it
    calls [addRecord] with the form's fields and the canvas image. *)
Theorem enabled_submit_needs_only_the_signature :
  forall (s : AppState) (w : World),
    submitEnabled s = true ->
    (signatureCaptured s = false ->
     handleSubmit s w
     = (setMessage "Please provide a signature in section 6." s, w))
    /\ (signatureCaptured s = true ->
        readyToSubmit s = true
        /\ calls (snd (handleSubmit s w))
           = CallAdd (withSignature (canvasImage w) (formData s)) :: calls w).
Proof.
  intros s w Hen. unfold submitEnabled in Hen.
  repeat (apply andb_prop in Hen; destruct Hen as [Hen ?]).
  repeat match goal with
         | H : negb _ = true |- _ => apply negb_true_iff in H
         end.
  split.
  - intros Hsig. unfold handleSubmit.
    repeat match goal with
           | H : blank _ = false |- _ => rewrite H
           end.
    rewrite Hsig. reflexivity.
  - intros Hsig.
    assert (Hready : readyToSubmit s = true).
    { unfold readyToSubmit, canvasMounted.
      repeat match goal with
             | H : _ = _ |- _ => rewrite H
             end.
      reflexivity. }
    split; [exact Hready |].
    rewrite (handleSubmit_ready s w Hready). unfold addRecord.
    match goal with
    | |- context [withStore ?c ?request w] =>
        destruct (withStore_cases c request w)
          as [[_ Hws] | [_ (w' & Hws & (_ & Hcalls & _))]]
    end; rewrite Hws; [reflexivity | exact Hcalls].
Qed.

Lemma enabled_submit_needs_only_the_signature_witness :
  handleSubmit (setSignatureCaptured false (fst Scenario.formFilled))
    (snd Scenario.formFilled)
  = (setMessage "Please provide a signature in section 6."
       (setSignatureCaptured false (fst Scenario.formFilled)),
     snd Scenario.formFilled).
Proof.
  assert (Hen : submitEnabled (setSignatureCaptured false (fst Scenario.formFilled))
                = true) by (vm_compute; reflexivity).
  exact (proj1 (enabled_submit_needs_only_the_signature
                  (setSignatureCaptured false (fst Scenario.formFilled))
                  (snd Scenario.formFilled) Hen) eq_refl).
Defined.

(** X8. After the clear-signature button was used on the form page no
    signature counts as captured and the canvas is blank, so a submission that
    follows is refused with a validation message and stores nothing. *)
Theorem cleared_signature_blocks_submission :
  forall (s : AppState) (w : World) (faults faults' : list Fault),
    currentPage s = form ->
    signatureCaptured (fst (step ClearSignatureClick faults (s, w))) = false
    /\ canvasImage (snd (step ClearSignatureClick faults (s, w))) = blankCanvas
    /\ formData (fst (step ClearSignatureClick faults (s, w))) = formData s
    /\ collection (snd (step Submit faults'
                          (step ClearSignatureClick faults (s, w))))
       = collection w
    /\ (exists n,
           calls (snd (step Submit faults'
                         (step ClearSignatureClick faults (s, w))))
           = repeat CallGetAll n ++ calls w)
    /\ (forall s1 w1,
           step ClearSignatureClick faults (s, w) = (s1, w1) ->
           message (fst (handleSubmit s1 (setOracle faults' w1)))
           = "Please fill in all required fields (indicated by *)."
           \/ message (fst (handleSubmit s1 (setOracle faults' w1)))
              = "Please provide a signature in section 6.").
Proof.
  intros s w faults faults' Hpage.
  assert (Hm : canvasMounted s = true) by (unfold canvasMounted; rewrite Hpage; reflexivity).
  assert (Hstep : step ClearSignatureClick faults (s, w)
                  = render s (setSignatureCaptured false s)
                      (setCanvasImage blankCanvas (setOracle faults w))).
  { rewrite step_handle by discriminate. unfold handle, handleClearSignature.
    rewrite Hm. reflexivity. }
  rewrite Hstep.
  match goal with
  | |- context [render s ?s1 ?w1] =>
      destruct (render_frame s s1 w1)
        as ((Hf & _ & _ & _ & Hg) & (Hst & _) & (n1 & Hc1) & _ & Hcv)
  end.
  simpl in Hg, Hf, Hst, Hc1, Hcv.
  destruct (render s (setSignatureCaptured false s)
              (setCanvasImage blankCanvas (setOracle faults w))) as [s1 w1].
  cbn [fst snd] in *.
  assert (Hnot : readyToSubmit s1 = false).
  { unfold readyToSubmit. rewrite Hg. rewrite andb_false_r. reflexivity. }
  split; [exact Hg |].
  split; [destruct Hcv as [-> | ->]; reflexivity |].
  split; [exact Hf |].
  destruct (step_cases Submit faults' s1 w1)
    as (n & [[Hs Hc] | [(_ & Hr & _) | [(k & He & _) | (He & _)]]]);
    try discriminate He; try congruence.
  split; [unfold collection; rewrite Hs, Hst; reflexivity |].
  split.
  - exists (n + n1). rewrite Hc, Hc1, app_assoc, <- repeat_app. reflexivity.
  - intros s1' w1' Heq. inversion Heq; subst s1' w1'.
    apply handleSubmit_missing. right. right. right. exact Hg.
Qed.

Lemma cleared_signature_blocks_submission_witness :
  signatureCaptured
    (fst (step ClearSignatureClick []
            (fst Scenario.formFilled, snd Scenario.formFilled))) = false
  /\ collection
       (snd (step Submit []
               (step ClearSignatureClick []
                  (fst Scenario.formFilled, snd Scenario.formFilled))))
     = collection (snd Scenario.formFilled).
Proof.
  assert (Hpage : currentPage (fst Scenario.formFilled) = form)
    by (vm_compute; reflexivity).
  destruct (cleared_signature_blocks_submission (fst Scenario.formFilled)
              (snd Scenario.formFilled) [] [] Hpage)
    as (H1 & _ & _ & H2 & _).
  split; assumption.
Defined.

(** * When the storage works *)

Lemma faultless_hd (faults : list Fault) :
  faultless faults -> hd NoFault faults = NoFault.
Proof. intros H. destruct H as [| f rest Hf _]; [reflexivity | exact Hf]. Qed.

Lemma faultless_tl (faults : list Fault) :
  faultless faults -> faultless (tl faults).
Proof. intros H. destruct H as [| f rest _ Hrest]; [constructor | exact Hrest]. Qed.

(** A [fetchRecords] whose [getAllRecords] is fulfilled. *)
Lemma fetchRecordsSettle_calm (closedMessage : string) (s : AppState) (w : World) :
  hd NoFault (oracle w) = NoFault ->
  isDBReady (fst (fetchRecordsSettle closedMessage s w)) = true
  /\ storedRecords (fst (fetchRecordsSettle closedMessage s w)) = rev (collection w)
  /\ message (fst (fetchRecordsSettle closedMessage s w))
     = (if plain closedMessage then "" else message s).
Proof.
  intros H.
  unfold fetchRecordsSettle, getAllRecords, withStore, begin, openDB, plain.
  rewrite H. simpl.
  match goal with
  | |- context [if ?b then _ else _] => destruct b
  end; simpl; repeat split.
Qed.

(** With no fault to come, the re-renders end with the database ready as soon
    as one [fetchRecords] is under way. *)
Lemma settle_calm (fuel : nat) :
  forall (first : bool) (p s : AppState) (w : World),
    faultless (oracle w) ->
    faultless (oracle (snd (settle fuel first p s w)))
    /\ (inflight (snd (runEffects first p s w)) <> [] \/ isDBReady s = true ->
        inflight (snd (settle fuel first p s w)) <> []
        \/ isDBReady (fst (settle fuel first p s w)) = true).
Proof.
  induction fuel as [| fuel IH]; intros first p s w Hcalm.
  - rewrite settle_0.
    destruct (runEffects_frame first p s w) as (_ & _ & _ & Hr & _ & Ho & _).
    rewrite Ho, Hr. split; [exact Hcalm |]. intros H. exact H.
  - rewrite settle_S.
    destruct (runEffects_frame first p s w) as (_ & _ & _ & Hr & _ & Ho & _).
    destruct (runEffects first p s w) as [s1 w1]. cbn [fst snd] in *.
    destruct (inflight w1) as [| closedMessage rest].
    + cbv beta iota. cbn [fst snd]. rewrite Ho. split; [exact Hcalm |].
      intros [Hq | Hready]; [contradiction | right; rewrite Hr; exact Hready].
    + cbv zeta.
      pose proof (fetchRecordsSettle_frame closedMessage s1 (setInflight rest w1))
        as (_ & _ & _ & Ho2 & _).
      assert (Hcalm1 : faultless (oracle (setInflight rest w1))).
      { simpl. rewrite Ho. exact Hcalm. }
      destruct (fetchRecordsSettle_calm closedMessage s1 (setInflight rest w1)
                  (faultless_hd _ Hcalm1)) as (Hready2 & _).
      destruct (IH false s1
                  (fst (fetchRecordsSettle closedMessage s1 (setInflight rest w1)))
                  (snd (fetchRecordsSettle closedMessage s1 (setInflight rest w1))))
        as [Hc Hr2].
      { rewrite Ho2. apply faultless_tl. exact Hcalm1. }
      split; [exact Hc |]. intros _. apply Hr2. right. exact Hready2.
Qed.

Lemma render_calm_ready (p s : AppState) (w : World) :
  faultless (oracle w) ->
  inflight w <> [] \/ isDBReady s = true ->
  isDBReady (fst (render p s w)) = true.
Proof.
  intros Hcalm Hpre.
  destruct (settle_calm (settleFuel w) false p s w Hcalm) as [_ H].
  destruct H as [Hq | Hready]; [| | exact Hready].
  - destruct Hpre as [Hq | Hready]; [left | right; exact Hready].
    rewrite runEffects_inflight. intros H. apply app_eq_nil in H. tauto.
  - exfalso. apply Hq. apply render_at_rest.
Qed.

(** With no fault to come, the message the re-renders end with: wiped as soon
    as one of the [fetchRecords] calls under way was made with a message that
    [fetchRecords] does not spare. *)
Lemma settle_calm_message (fuel : nat) :
  forall (first : bool) (p s : AppState) (w : World),
    faultless (oracle w) ->
    inflight (snd (settle fuel first p s w)) = [] ->
    message (fst (settle fuel first p s w))
    = (if existsb plain (inflight (snd (runEffects first p s w)))
       then "" else message s).
Proof.
  induction fuel as [| fuel IH]; intros first p s w Hcalm Hrest.
  - rewrite settle_0 in *. rewrite Hrest. simpl. apply runEffects_frame.
  - rewrite settle_S in *.
    destruct (runEffects_frame first p s w) as (_ & _ & Hm & _ & _ & Ho & _).
    destruct (runEffects first p s w) as [s1 w1]. cbn [fst snd] in *.
    destruct (inflight w1) as [| closedMessage rest]; [exact Hm |].
    cbv zeta in *.
    pose proof (fetchRecordsSettle_frame closedMessage s1 (setInflight rest w1))
      as (_ & _ & _ & Ho2 & _ & _ & _ & Hq2).
    assert (Hcalm1 : faultless (oracle (setInflight rest w1))).
    { simpl. rewrite Ho. exact Hcalm. }
    destruct (fetchRecordsSettle_calm closedMessage s1 (setInflight rest w1)
                (faultless_hd _ Hcalm1)) as (_ & _ & Hm2).
    rewrite (IH false s1 _ _); [| rewrite Ho2; apply faultless_tl; exact Hcalm1
                                | exact Hrest].
    rewrite runEffects_inflight, Hq2, Hm2, Hm. simpl.
    rewrite existsb_app.
    destruct (plain closedMessage); simpl.
    + destruct (existsb plain rest), (negb (message s =? "")%string); reflexivity.
    + rewrite String.eqb_refl. simpl. rewrite orb_false_r. reflexivity.
Qed.

Lemma render_calm_message (p s : AppState) (w : World) :
  faultless (oracle w) ->
  message (fst (render p s w))
  = (if existsb plain
          (inflight w
           ++ (if negb (message p =? message s)%string then [message s] else []))
     then "" else message s).
Proof.
  intros Hcalm. unfold render.
  rewrite settle_calm_message; [| exact Hcalm | apply render_at_rest].
  rewrite runEffects_inflight. reflexivity.
Qed.

(** X9. A confirming click on the clear-all button, the storage working:
    the store is empty afterwards while its key generator keeps its value, the
    list shown is empty, nothing is pending and the clear-all button is
    disabled; the success message is shown unless the message before the click
    was one [fetchRecords] wipes. *)
Theorem confirmed_clear_all_empties_the_list :
  forall (s : AppState) (w : World) (faults : list Fault),
    isDBReady s = true ->
    confirmClear s = true ->
    faultless faults ->
    inflight w = [] ->
    collection (snd (step ClearAllClick faults (s, w))) = []
    /\ IDB.keyGenerator (store (snd (step ClearAllClick faults (s, w))))
       = IDB.keyGenerator (store w)
    /\ storedRecords (fst (step ClearAllClick faults (s, w))) = []
    /\ isDBReady (fst (step ClearAllClick faults (s, w))) = true
    /\ idle (fst (step ClearAllClick faults (s, w)))
    /\ clearAllEnabled (fst (step ClearAllClick faults (s, w))) = false
    /\ message (fst (step ClearAllClick faults (s, w)))
       = (if plain (message s) then "" else IDB_CLEAR_ALL_MESSAGE).
Proof.
  intros s w faults Hready Hpending Hcalm Hrest.
  rewrite step_handle by discriminate. unfold handle.
  rewrite (handleClearAll_confirmed s (setOracle faults w) Hready Hpending
             (faultless_hd _ Hcalm)).
  cbn [fst snd].
  match goal with
  | |- context [render s ?s1 ?w1] =>
      set (s' := s1); set (w' := w1);
      destruct (render_frame s s' w') as ((_ & Hc & Hd & _) & (Hst & _) & _);
      assert (Hcalm' : faultless (oracle w'))
        by (apply faultless_tl; exact Hcalm);
      assert (Hq : inflight w' <> [])
        by (subst w'; simpl; rewrite Hrest; discriminate);
      pose proof (render_calm_ready s s' w' Hcalm' (or_introl Hq)) as Hr;
      pose proof (render_synced s s' w' (or_introl Hq) Hr) as Hl;
      pose proof (render_calm_message s s' w' Hcalm') as Hm
  end.
  assert (Hrows : collection (snd (render s s' w')) = []).
  { unfold collection. rewrite Hst. reflexivity. }
  rewrite Hrows in *. simpl in Hl.
  split; [reflexivity |].
  split; [rewrite Hst; reflexivity |].
  split; [exact Hl |].
  split; [exact Hr |].
  split; [split; [rewrite Hc | rewrite Hd]; reflexivity |].
  split.
  - unfold clearAllEnabled. rewrite Hl. simpl. apply andb_false_r.
  - rewrite Hm. subst s' w'. simpl. rewrite Hrest. simpl.
    destruct (plain (message s)); [reflexivity |]. simpl.
    destruct (negb (message s =? IDB_CLEAR_ALL_MESSAGE)%string); reflexivity.
Qed.

Lemma confirmed_clear_all_empties_the_list_witness :
  collection (snd (step ClearAllClick [] Scenario.clearClickedOnce)) = []
  /\ message (fst (step ClearAllClick [] Scenario.clearClickedOnce))
     = IDB_CLEAR_ALL_MESSAGE.
Proof.
  assert (Hready : isDBReady (fst Scenario.clearClickedOnce) = true)
    by (vm_compute; reflexivity).
  assert (Hpending : confirmClear (fst Scenario.clearClickedOnce) = true)
    by (vm_compute; reflexivity).
  assert (Hrest : inflight (snd Scenario.clearClickedOnce) = [])
    by (vm_compute; reflexivity).
  destruct (confirmed_clear_all_empties_the_list
              (fst Scenario.clearClickedOnce) (snd Scenario.clearClickedOnce) []
              Hready Hpending (Forall_nil _) Hrest)
    as (H1 & _ & _ & _ & _ & _ & H2).
  rewrite <- surjective_pairing in H1, H2.
  split; [exact H1 |]. rewrite H2. vm_compute. reflexivity.
Defined.

(** X10. A confirming click on a record's trash icon, the storage working:
    the list shown afterwards is the store without that record, newest first,
    the database counts as ready and the record's trash icon is gone. *)
Theorem confirmed_delete_updates_the_list :
  forall (s : AppState) (w : World) (key : nat) (faults : list Fault),
    isDBReady s = true ->
    confirmDeleteId s = Some key ->
    faultless faults ->
    storedRecords (fst (step (DeleteClick key) faults (s, w)))
    = rev (filter (fun r => negb (id r =? key)) (collection w))
    /\ collection (snd (step (DeleteClick key) faults (s, w)))
       = filter (fun r => negb (id r =? key)) (collection w)
    /\ isDBReady (fst (step (DeleteClick key) faults (s, w))) = true
    /\ confirmDeleteId (fst (step (DeleteClick key) faults (s, w))) = None
    /\ deleteButtonShown key (fst (step (DeleteClick key) faults (s, w))) = false.
Proof.
  intros s w key faults Hready Hpending Hcalm.
  rewrite step_handle by discriminate. unfold handle.
  rewrite (handleDelete_confirmed key s (setOracle faults w) Hready Hpending
             (faultless_hd _ Hcalm)).
  cbn [fst snd].
  match goal with
  | |- context [render s ?s1 ?w1] =>
      set (s' := s1); set (w' := w1);
      destruct (render_frame s s' w') as ((_ & _ & Hd & _) & (Hst & _) & _);
      assert (Hcalm' : faultless (oracle w'))
        by (apply faultless_tl; exact Hcalm);
      assert (Hq : inflight w' <> [])
        by (subst w'; simpl; intros H; apply app_eq_nil in H;
            destruct H as [_ H]; discriminate H);
      pose proof (render_calm_ready s s' w' Hcalm' (or_introl Hq)) as Hr;
      pose proof (render_synced s s' w' (or_introl Hq) Hr) as Hl
  end.
  assert (Hrows : collection (snd (render s s' w'))
                  = filter (fun r => negb (id r =? key)) (collection w)).
  { unfold collection. rewrite Hst. reflexivity. }
  rewrite Hrows in Hl.
  split; [exact Hl |].
  split; [exact Hrows |].
  split; [exact Hr |].
  split; [rewrite Hd; reflexivity |].
  unfold deleteButtonShown. rewrite Hl.
  match goal with
  | |- _ && existsb ?f ?l = false =>
      assert (Hnone : existsb f l = false)
  end.
  { apply not_true_is_false. intros H. apply existsb_exists in H.
    destruct H as (r & Hin & Hid).
    apply (proj2 (in_rev _ r)) in Hin. apply filter_In in Hin.
    destruct Hin as [_ Hin]. rewrite Hid in Hin. discriminate. }
  rewrite Hnone. apply andb_false_r.
Qed.

Lemma confirmed_delete_updates_the_list_witness :
  map (fun r => completeName (data r))
    (storedRecords (fst (step (DeleteClick 1) [] (Scenario.clickedOnce 1))))
  = ["Unsuccessful Bob"].
Proof.
  assert (Hready : isDBReady (fst (Scenario.clickedOnce 1)) = true)
    by (vm_compute; reflexivity).
  assert (Hpending : confirmDeleteId (fst (Scenario.clickedOnce 1)) = Some 1)
    by (vm_compute; reflexivity).
  destruct (confirmed_delete_updates_the_list
              (fst (Scenario.clickedOnce 1)) (snd (Scenario.clickedOnce 1)) 1 []
              Hready Hpending (Forall_nil _)) as (H1 & _).
  rewrite <- surjective_pairing in H1. rewrite H1. vm_compute. reflexivity.
Defined.

(** X11. A submission that passes the checks, the storage working: the
    record is stored last, under the generator's key, and heads the list shown;
    the database counts as ready.  The success message is shown only when
    the message before the submission was one [fetchRecords] spares: the
    handler calls the [fetchRecords] of the render it belongs to, which tests
    the old message. *)
Theorem submission_is_stored_and_listed :
  forall (s : AppState) (w : World) (faults : list Fault),
    readyToSubmit s = true ->
    faultless faults ->
    IDB.wf (store w) ->
    inflight w = [] ->
    collection (snd (step Submit faults (s, w)))
    = collection w
      ++ [stored (IDB.keyGenerator (store w))
            (withSignature (canvasImage w) (formData s)) (now w)]
    /\ storedRecords (fst (step Submit faults (s, w)))
       = stored (IDB.keyGenerator (store w))
           (withSignature (canvasImage w) (formData s)) (now w)
         :: rev (collection w)
    /\ isDBReady (fst (step Submit faults (s, w))) = true
    /\ message (fst (step Submit faults (s, w)))
       = (if plain (message s) then "" else IDB_SUCCESS_MESSAGE).
Proof.
  intros s w faults Hready Hcalm Hwf Hrest.
  set (w0 := setOracle faults w).
  rewrite step_handle by discriminate. unfold handle. fold w0.
  rewrite (handleSubmit_ready s w0 Hready). unfold addRecord.
  match goal with
  | |- context [withStore ?c ?request w0] =>
      destruct (withStore_cases c request w0)
        as [[_ Hws] | [Hfail _]]
  end.
  2: { simpl in Hfail. rewrite (faultless_hd _ Hcalm) in Hfail. discriminate. }
  rewrite Hws. cbn [fst snd].
  match goal with
  | |- context [render s ?s1 ?w1] =>
      set (s' := s1); set (w' := w1);
      destruct (render_frame s s' w') as (_ & (Hst & _) & _);
      assert (Hcalm' : faultless (oracle w'))
        by (apply faultless_tl; exact Hcalm);
      assert (Hq : inflight w' <> [])
        by (subst w'; simpl; rewrite Hrest; discriminate);
      pose proof (render_calm_ready s s' w' Hcalm' (or_introl Hq)) as Hr;
      pose proof (render_synced s s' w' (or_introl Hq) Hr) as Hl;
      pose proof (render_calm_message s s' w' Hcalm') as Hm
  end.
  assert (Hrows : collection (snd (render s s' w'))
                  = collection w
                    ++ [stored (IDB.keyGenerator (store w))
                          (withSignature (canvasImage w) (formData s)) (now w)]).
  { unfold collection. rewrite Hst.
    apply (IDBFacts.rows_add (withSignature (canvasImage w) (formData s))
             (now w) (store w) Hwf). }
  rewrite Hrows in Hl. rewrite rev_app_distr in Hl. simpl in Hl.
  split; [exact Hrows |].
  split; [exact Hl |].
  split; [exact Hr |].
  rewrite Hm. subst s' w'. simpl. rewrite Hrest. simpl.
  destruct (plain (message s)); [reflexivity |]. simpl.
  destruct (negb (message s =? IDB_SUCCESS_MESSAGE)%string); reflexivity.
Qed.

Lemma submission_is_stored_and_listed_witness :
  map (fun r => (id r, completeName (data r)))
    (storedRecords (fst (step Submit [] Scenario.formFilled)))
  = [(1, "Jane Doe")]
  /\ message (fst (step Submit [] Scenario.formFilled)) = "".
Proof.
  assert (Hready : readyToSubmit (fst Scenario.formFilled) = true)
    by (vm_compute; reflexivity).
  assert (Hwf : IDB.wf (store (snd Scenario.formFilled)))
    by (vm_compute; split; constructor).
  assert (Hrest : inflight (snd Scenario.formFilled) = [])
    by (vm_compute; reflexivity).
  destruct (submission_is_stored_and_listed
              (fst Scenario.formFilled) (snd Scenario.formFilled) []
              Hready (Forall_nil _) Hwf Hrest) as (_ & H1 & _ & H2).
  rewrite <- surjective_pairing in H1, H2.
  split; [rewrite H1 | rewrite H2]; vm_compute; reflexivity.
Defined.

(** * The timers *)

Lemma outlasts_countDown (k : N) (t : option N) :
  outlasts (N.succ k) t ->
  due (countDown t) = false /\ outlasts k (countDown t)
  /\ ranFor k (countDown t) = ranFor (N.succ k) t.
Proof.
  destruct t as [n |]; simpl; [| auto]. intros H. split; [| split].
  - apply N.eqb_neq. lia.
  - lia.
  - f_equal. lia.
Qed.

(** While no timer runs out nothing happens but the timers running. *)
Lemma elapse_idle (k : N) :
  forall (s : AppState) (w : World),
    outlasts k (clearTimer (timers w)) ->
    outlasts k (deleteTimer (timers w)) ->
    outlasts k (successTimer (timers w)) ->
    fst (elapse k (s, w)) = s
    /\ clearTimer (timers (snd (elapse k (s, w)))) = ranFor k (clearTimer (timers w))
    /\ deleteTimer (timers (snd (elapse k (s, w))))
       = ranFor k (deleteTimer (timers w))
    /\ successTimer (timers (snd (elapse k (s, w))))
       = ranFor k (successTimer (timers w))
    /\ oracle (snd (elapse k (s, w))) = oracle w
    /\ inflight (snd (elapse k (s, w))) = inflight w.
Proof.
  induction k as [| k IH] using N.peano_ind; intros s w Hc Hd Hs.
  - unfold elapse. simpl.
    destruct (clearTimer (timers w)), (deleteTimer (timers w)),
      (successTimer (timers w)); simpl; rewrite ?N.sub_0_r; auto 10.
  - destruct (outlasts_countDown k _ Hc) as (Hc1 & Hc2 & Hc3).
    destruct (outlasts_countDown k _ Hd) as (Hd1 & Hd2 & Hd3).
    destruct (outlasts_countDown k _ Hs) as (Hs1 & Hs2 & Hs3).
    unfold elapse. rewrite N.iter_succ_r.
    rewrite (tick_idle s w Hc1 Hd1 Hs1).
    match goal with
    | |- context [N.iter k tick (s, ?w1)] =>
        destruct (IH s w1 Hc2 Hd2 Hs2) as (H1 & H2 & H3 & H4 & H5 & H6)
    end.
    unfold elapse in *. rewrite H1, H2, H3, H4, H5, H6. simpl.
    rewrite Hc3, Hd3, Hs3. auto 10.
Qed.

Lemma tick_fires_clear (s : AppState) (w : World) :
  due (countDown (clearTimer (timers w))) = true ->
  confirmClear (fst (tick (s, w))) = false.
Proof.
  intros Hc. unfold tick.
  match goal with
  | |- context [fireClearTimer (s, ?w1)] => set (w' := w1)
  end.
  assert (H1 : confirmClear (fst (fireClearTimer (s, w'))) = false).
  { unfold fireClearTimer. subst w'. simpl. rewrite Hc.
    match goal with
    | |- context [render s ?s1 ?w1] =>
        destruct (render_frame s s1 w1) as ((_ & Fc & _) & _)
    end.
    rewrite Fc. reflexivity. }
  destruct (fireDeleteTimer_frame (fireClearTimer (s, w')))
    as ((_ & _ & _ & H2 & _) & _).
  destruct (fireSuccessTimer_frame (fireDeleteTimer (fireClearTimer (s, w'))))
    as ((_ & _ & _ & H3 & _) & _).
  destruct H3 as [H3 | H3]; [rewrite H3 | exact H3].
  destruct H2 as [H2 | H2]; [rewrite H2; exact H1 | exact H2].
Qed.

(** The timer of the clear-all confirmation through the re-renders: set anew
    only when [confirmClear] has changed. *)
Lemma settle_clearTimer (fuel : nat) :
  forall (first : bool) (p s : AppState) (w : World),
    clearTimer (timers (snd (settle fuel first p s w)))
    = (if first || negb (Bool.eqb (confirmClear p) (confirmClear s))
       then (if confirmClear s then Some 5000%N else None)
       else clearTimer (timers w)).
Proof.
  induction fuel as [| fuel IH]; intros first p s w.
  - rewrite settle_0. apply runEffects_timers.
  - rewrite settle_S.
    destruct (runEffects_timers first p s w) as (Hc & _).
    destruct (runEffects first p s w) as [s1 w1]. cbn [fst snd] in *.
    destruct (inflight w1) as [| closedMessage rest]; [exact Hc |].
    cbv zeta.
    pose proof (fetchRecordsSettle_frame closedMessage s1 (setInflight rest w1))
      as ((_ & Fc & _) & _ & _ & _ & _ & _ & Ht & _).
    rewrite IH, Fc, Bool.eqb_reflx, Ht. simpl. exact Hc.
Qed.

(** X12. The clear-all confirmation lasts five seconds, whatever the message
    and the faults: after the first click it is pending, stays so through
    every shorter wait, and is reset when 5000 ms have passed without a
    click, nothing having been deleted. *)
Theorem clear_all_confirmation_times_out :
  forall (c : AppState * World) (faults faults' : list Fault),
    reachable c ->
    isDBReady (fst c) = true ->
    confirmClear (fst c) = false ->
    (forall k, (k < 5000)%N ->
               confirmClear
                 (fst (step (Elapse k) faults' (step ClearAllClick faults c)))
               = true)
    /\ confirmClear
         (fst (step (Elapse 5000) faults' (step ClearAllClick faults c))) = false
    /\ collection
         (snd (step (Elapse 5000) faults' (step ClearAllClick faults c)))
       = collection (snd c).
Proof.
  intros c faults faults' Hreach Hready Hoff.
  pose proof (reachable_tidy _ (reach_step c ClearAllClick faults Hreach))
    as (_ & Td & Ts).
  destruct c as [s w]. cbn [fst snd] in *.
  assert (Hstep : step ClearAllClick faults (s, w)
                  = render s
                      (setConfirmDeleteId None
                         (setConfirmClear true (setMessage confirmClearMessage s)))
                      (setOracle faults w)).
  { rewrite step_handle by discriminate. unfold handle.
    rewrite (handleClearAll_first s (setOracle faults w) Hready Hoff).
    reflexivity. }
  rewrite Hstep in *. clear Hstep.
  set (s' := setConfirmDeleteId None
               (setConfirmClear true (setMessage confirmClearMessage s))) in *.
  set (w' := setOracle faults w) in *.
  destruct (render_frame s s' w') as ((_ & Hc & Hd & _) & (Hst & _) & _).
  pose proof (settle_clearTimer (settleFuel w') false s s' w') as Ht.
  fold (render s s' w') in Ht.
  simpl in Ht, Hc, Hd, Hst. rewrite Hoff in Ht. simpl in Ht.
  specialize (Td Hd).
  assert (Hs : successTimer (timers (snd (render s s' w'))) = None).
  { apply Ts.
    destruct (settle_message (settleFuel w') false s s' w') as [Hm | [Hm | Hm]];
      fold (render s s' w') in Hm; rewrite Hm; vm_compute; reflexivity. }
  clear Ts.
  destruct (render s s' w') as [s1 w1]. cbn [fst snd] in *.
  split; [| split].
  - intros k Hk. rewrite step_elapse.
    destruct (elapse_idle k s1 (setOracle faults' w1)) as (H1 & _);
      [simpl; rewrite Ht; exact Hk | simpl; rewrite Td; exact I
       | simpl; rewrite Hs; exact I |].
    rewrite H1. exact Hc.
  - rewrite step_elapse. change 5000%N with (N.succ 4999).
    unfold elapse. rewrite N.iter_succ.
    fold (elapse 4999 (s1, setOracle faults' w1)).
    destruct (elapse_idle 4999 s1 (setOracle faults' w1)) as (_ & H2 & _);
      [simpl; rewrite Ht; reflexivity | simpl; rewrite Td; exact I
       | simpl; rewrite Hs; exact I |].
    destruct (elapse 4999 (s1, setOracle faults' w1)) as [s2 w2].
    cbn [fst snd] in *. apply tick_fires_clear. rewrite H2. simpl. rewrite Ht.
    reflexivity.
  - rewrite step_elapse.
    destruct (elapse_frame 5000 (s1, setOracle faults' w1)) as (_ & Hst' & _).
    unfold collection. rewrite Hst'. cbn [snd].
    change (store (setOracle faults' w1)) with (store w1). rewrite Hst.
    reflexivity.
Qed.

Lemma clear_all_confirmation_times_out_witness :
  confirmClear (fst (step (Elapse 4999) [] (step ClearAllClick [] Scenario.twoRecords)))
  = true
  /\ confirmClear
       (fst (step (Elapse 5000) [] (step ClearAllClick [] Scenario.twoRecords)))
     = false.
Proof.
  assert (Hready : isDBReady (fst Scenario.twoRecords) = true)
    by (vm_compute; reflexivity).
  assert (Hoff : confirmClear (fst Scenario.twoRecords) = false)
    by (vm_compute; reflexivity).
  destruct (clear_all_confirmation_times_out Scenario.twoRecords [] []
              twoRecords_reachable Hready Hoff) as (H1 & H2 & _).
  split; [apply H1; reflexivity | exact H2].
Defined.

(** X13. The confirmation of a record's deletion, when the warning has no
    "success" in it: pending after the first click, still pending after
    every wait shorter than five seconds, reset after 5000 ms, and the store
    is as it was all along. *)
Theorem delete_confirmation_lasts_five_seconds :
  forall (c : AppState * World) (key : nat) (faults faults' : list Fault),
    reachable c ->
    isDBReady (fst c) = true ->
    confirmDeleteId (fst c) <> Some key ->
    Str.includes "success" (confirmDeleteMessage (recordName key (fst c))) = false ->
    (forall k, (k < 5000)%N ->
       confirmDeleteId
         (fst (step (Elapse k) faults' (step (DeleteClick key) faults c)))
       = Some key
       /\ collection
            (snd (step (Elapse k) faults' (step (DeleteClick key) faults c)))
          = collection (snd c))
    /\ confirmDeleteId
         (fst (step (Elapse 5000) faults' (step (DeleteClick key) faults c)))
       = None
    /\ collection
         (snd (step (Elapse 5000) faults' (step (DeleteClick key) faults c)))
       = collection (snd c).
Proof.
  intros c key faults faults' Hreach Hready Hne Hname.
  destruct (delete_confirmation_times_out c key faults faults'
              Hreach Hready Hne Hname) as (_ & Hout & Hrows).
  split; [| split; assumption].
  intros k Hk.
  pose proof (reachable_tidy _ (reach_step c (DeleteClick key) faults Hreach))
    as (Tc & _ & Ts).
  destruct c as [s w]. cbn [fst snd] in *.
  destruct (first_request_only_warns s w key faults Hready Hne)
    as (_ & _ & Hp & Hc & Hkept & Ht).
  assert (Hmsg : Str.includes "success"
                   (message (fst (step (DeleteClick key) faults (s, w)))) = false).
  { rewrite step_handle by discriminate. unfold handle.
    rewrite (handleDelete_first key s (setOracle faults w) Hready Hne).
    apply includes_success_after. exact Hname. }
  specialize (Tc Hc). specialize (Ts Hmsg).
  destruct (step (DeleteClick key) faults (s, w)) as [s1 w1]. cbn [fst snd] in *.
  rewrite step_elapse.
  destruct (elapse_idle k s1 (setOracle faults' w1)) as (H1 & _);
    [simpl; rewrite Tc; exact I | simpl; rewrite Ht; exact Hk
     | simpl; rewrite Ts; exact I |].
  split; [rewrite H1; exact Hp |].
  destruct (elapse_frame k (s1, setOracle faults' w1)) as (_ & Hst' & _).
  unfold collection in *. rewrite Hst'. exact Hkept.
Qed.

Lemma delete_confirmation_lasts_five_seconds_witness :
  confirmDeleteId
    (fst (step (Elapse 4999) [] (step (DeleteClick 1) [] Scenario.twoRecords)))
  = Some 1
  /\ confirmDeleteId
       (fst (step (Elapse 5000) [] (step (DeleteClick 1) [] Scenario.twoRecords)))
     = None.
Proof.
  assert (Hready : isDBReady (fst Scenario.twoRecords) = true)
    by (vm_compute; reflexivity).
  assert (Hne : confirmDeleteId (fst Scenario.twoRecords) <> Some 1)
    by (vm_compute; discriminate).
  assert (Hname : Str.includes "success"
                    (confirmDeleteMessage (recordName 1 (fst Scenario.twoRecords)))
                  = false) by (vm_compute; reflexivity).
  destruct (delete_confirmation_lasts_five_seconds Scenario.twoRecords 1 [] []
              twoRecords_reachable Hready Hne Hname) as (H1 & H2 & _).
  split; [apply (H1 4999%N); reflexivity | exact H2].
Defined.

(** * The messages that stay *)

Lemma fetchRecordsSettle_outcome (closedMessage : string) (s : AppState) (w : World) :
  message (fst (fetchRecordsSettle closedMessage s w)) = IDB_ERROR_MESSAGE
  \/ message (fst (fetchRecordsSettle closedMessage s w))
     = (if plain closedMessage then "" else message s).
Proof.
  unfold fetchRecordsSettle, getAllRecords, withStore, begin, openDB, plain.
  destruct (hd NoFault (oracle w)); simpl; auto.
  right.
  match goal with
  | |- context [if ?b then _ else _] => destruct b
  end; reflexivity.
Qed.

(** A message that is not of the lasting kind is gone once the
    [fetchRecords] made for it has settled. *)
Lemma settle_lasting (fuel : nat) :
  forall (first : bool) (p s : AppState) (w : World),
    inflight (snd (settle fuel first p s w)) = [] ->
    lasting (message s)
    \/ In (message s) (inflight (snd (runEffects first p s w))) ->
    lasting (message (fst (settle fuel first p s w))).
Proof.
  induction fuel as [| fuel IH]; intros first p s w Hrest Hpre.
  - rewrite settle_0 in *. rewrite Hrest in Hpre.
    destruct (runEffects_frame first p s w) as (_ & _ & Hm & _).
    rewrite Hm. destruct Hpre as [H | []]. exact H.
  - rewrite settle_S in *.
    destruct (runEffects_frame first p s w) as (_ & _ & Hm & _).
    destruct (runEffects first p s w) as [s1 w1]. cbn [fst snd] in *.
    destruct (inflight w1) as [| closedMessage rest].
    + cbv beta iota. cbn [fst]. rewrite Hm. destruct Hpre as [H | []]. exact H.
    + cbv zeta in *.
      pose proof (fetchRecordsSettle_frame closedMessage s1 (setInflight rest w1))
        as (_ & _ & _ & _ & _ & _ & _ & Hq2).
      pose proof (fetchRecordsSettle_outcome closedMessage s1 (setInflight rest w1))
        as Hm2.
      apply IH; [exact Hrest |].
      destruct Hm2 as [Hm2 | Hm2]; rewrite Hm2.
      * left. right. right. reflexivity.
      * destruct (plain closedMessage) eqn:Hplain; [left; left; reflexivity |].
        rewrite Hm.
        destruct Hpre as [H | [H | H]].
        -- left. exact H.
        -- left. right. left. rewrite <- H. exact Hplain.
        -- right. rewrite runEffects_inflight, Hq2. apply in_or_app. left.
           exact H.
Qed.

Lemma render_lasting (p s : AppState) (w : World) :
  lasting (message p) -> lasting (message (fst (render p s w))).
Proof.
  intros Hp. unfold render. apply settle_lasting; [apply render_at_rest |].
  rewrite runEffects_inflight.
  destruct (message p =? message s)%string eqn:E.
  - left. apply String.eqb_eq in E. rewrite <- E. exact Hp.
  - right. apply in_or_app. right. simpl. left. reflexivity.
Qed.

Lemma tick_lasting (c : AppState * World) :
  lasting (message (fst c)) -> lasting (message (fst (tick c))).
Proof.
  destruct c as [s w]. cbn [fst]. intros H. unfold tick.
  match goal with
  | |- context [fireClearTimer (s, ?w1)] => generalize w1
  end.
  intros w1.
  assert (H1 : lasting (message (fst (fireClearTimer (s, w1))))).
  { unfold fireClearTimer. destruct (due _); [| exact H].
    apply render_lasting. exact H. }
  destruct (fireClearTimer (s, w1)) as [s2 w2]. cbn [fst] in H1.
  assert (H2 : lasting (message (fst (fireDeleteTimer (s2, w2))))).
  { unfold fireDeleteTimer. destruct (due _); [| exact H1].
    apply render_lasting. exact H1. }
  destruct (fireDeleteTimer (s2, w2)) as [s3 w3]. cbn [fst] in H2.
  unfold fireSuccessTimer. destruct (due _); [| exact H2].
  apply render_lasting. exact H2.
Qed.

Lemma reachable_lasting (c : AppState * World) :
  reachable c -> lasting (message (fst c)).
Proof.
  induction 1 as [db saved clock faults _ | c e faults _ IH].
  - unfold boot. apply settle_lasting; [apply boot_at_rest |].
    right. rewrite runEffects_inflight. apply in_or_app. right. left.
    reflexivity.
  - destruct c as [s w]. cbn [fst] in IH.
    destruct e as [p | name value | input | name checked | | image | | | | key | | ms];
      try (rewrite step_handle by discriminate; apply render_lasting; exact IH).
    rewrite step_elapse. unfold elapse.
    apply (N.iter_invariant ms _ tick (fun x => lasting (message (fst x)))).
    + intros x. apply tick_lasting.
    + exact IH.
Qed.

(** X14. Whatever the events and the faults, once the reads an event
    leads to have settled, the message shown is empty, or has "success",
    "confirm" or "SURE" in it, or is the generic database error: every
    other message a handler sets is wiped by the [fetchRecords] that the
    change of [message] itself sets off, or replaced by the generic error
    when that read fails. *)
Theorem only_lasting_messages_stay :
  forall (c : AppState * World) (e : Event) (faults : list Fault),
    reachable c ->
    lasting (message (fst c))
    /\ (message (fst (step e faults c)) = ""
        \/ Str.includes "success" (message (fst (step e faults c))) = true
        \/ Str.includes "confirm" (message (fst (step e faults c))) = true
        \/ Str.includes "SURE" (message (fst (step e faults c))) = true
        \/ message (fst (step e faults c)) = IDB_ERROR_MESSAGE).
Proof.
  intros c e faults Hreach. split; [apply reachable_lasting; exact Hreach |].
  destruct (reachable_lasting _ (reach_step c e faults Hreach)) as [H | [H | H]];
    auto.
  unfold plain in H.
  destruct (Str.includes "success" _); [auto |].
  destruct (Str.includes "confirm" _); [auto |].
  destruct (Str.includes "SURE" _); [auto 6 | discriminate].
Qed.

Lemma only_lasting_messages_stay_witness :
  (message (fst (handleSubmit (fst Scenario.loaded)
                   (setOracle [] (snd Scenario.loaded))))
   = "Please fill in all required fields (indicated by *)."
   /\ message (fst (step Submit [] Scenario.loaded)) = "")
  /\ (message (fst Scenario.clearClickedOnce) = confirmClearMessage
      /\ lasting (message (fst Scenario.clearClickedOnce))).
Proof.
  split.
  - split; [vm_compute; reflexivity |].
    destruct (proj2 (only_lasting_messages_stay Scenario.loaded Submit []
                       loaded_reachable))
      as [H | [H | [H | [H | H]]]];
      [exact H | exfalso | exfalso | exfalso | exfalso];
      vm_compute in H; discriminate H.
  - split; [vm_compute; reflexivity |].
    exact (proj1 (only_lasting_messages_stay Scenario.clearClickedOnce Submit []
                    (reach_step _ _ _ twoRecords_reachable))).
Defined.

Lemma render_message (p s : AppState) (w : World) :
  message (fst (render p s w)) = message s
  \/ message (fst (render p s w)) = ""
  \/ message (fst (render p s w)) = IDB_ERROR_MESSAGE.
Proof. apply settle_message. Qed.

Lemma handleSubmit_refusals (s : AppState) (w : World) :
  readyToSubmit s = false ->
  In (message (fst (handleSubmit s w)))
    ["Please fill in all required fields (indicated by *).";
     "Please provide a signature in section 6.";
     "Error: Signature canvas not found.";
     "Database not ready. Cannot save."].
Proof.
  unfold readyToSubmit, handleSubmit. intros H.
  destruct (blank (completeName (formData s))); simpl in *; [auto |].
  destruct (blank (designation (formData s))); simpl in *; [auto |].
  destruct (blank (division (formData s))); simpl in *; [auto |].
  destruct (signatureCaptured s); simpl in *; [| auto].
  destruct (canvasMounted s); simpl in *; [| auto].
  destruct (isDBReady s); simpl in *; [discriminate | auto].
Qed.

(** X15. The message of a refused submission does not stay: when the
    reads that follow have settled, the page shows no message, or the
    generic database error if a read failed; the store is as it was. *)
Theorem validation_message_does_not_stay :
  forall (c : AppState * World) (faults : list Fault),
    reachable c ->
    readyToSubmit (fst c) = false ->
    (message (fst (step Submit faults c)) = ""
     \/ message (fst (step Submit faults c)) = IDB_ERROR_MESSAGE)
    /\ (faultless faults -> message (fst (step Submit faults c)) = "")
    /\ collection (snd (step Submit faults c)) = collection (snd c).
Proof.
  intros c faults Hreach Hnot.
  pose proof (reachable_lasting _ (reach_step c Submit faults Hreach)) as Hlast.
  pose proof (reachable_lasting _ Hreach) as Hlast0.
  pose proof (reachable_at_rest _ Hreach) as Hrest.
  destruct c as [s w]. cbn [fst snd] in *.
  rewrite step_handle in * by discriminate. unfold handle in *.
  pose proof (handleSubmit_refusals s (setOracle faults w) Hnot) as Hin.
  destruct (handleSubmit_invalid s (setOracle faults w) Hnot) as (Hw & _).
  destruct (handleSubmit s (setOracle faults w)) as [s1 w1]. cbn [fst snd] in *.
  subst w1.
  assert (Hplain : plain (message s1) = true /\ message s1 <> ""
                   /\ message s1 <> IDB_ERROR_MESSAGE).
  { destruct Hin as [H | [H | [H | [H | []]]]]; rewrite <- H;
      (split; [vm_compute; reflexivity | split; discriminate]). }
  destruct Hplain as (Hplain & Hne & Hne').
  split; [| split].
  - destruct (render_message s s1 (setOracle faults w)) as [H | [H | H]]; auto.
    rewrite H in Hlast. destruct Hlast as [H' | [H' | H']];
      [contradiction | congruence | contradiction].
  - intros Hcalm.
    rewrite (render_calm_message s s1 (setOracle faults w) Hcalm).
    simpl. rewrite Hrest. simpl.
    destruct (message s =? message s1)%string eqn:E; simpl.
    + apply String.eqb_eq in E. rewrite E in Hlast0.
      destruct Hlast0 as [H' | [H' | H']];
        [contradiction | congruence | contradiction].
    + rewrite Hplain. reflexivity.
  - destruct (render_frame s s1 (setOracle faults w)) as (_ & (Hst & _) & _).
    unfold collection. rewrite Hst. reflexivity.
Qed.

Lemma validation_message_does_not_stay_witness :
  message (fst (handleSubmit (fst Scenario.loaded) (snd Scenario.loaded)))
  = "Please fill in all required fields (indicated by *)."
  /\ message (fst (step Submit [] Scenario.loaded)) = "".
Proof.
  split; [vm_compute; reflexivity |].
  assert (Hnot : readyToSubmit (fst Scenario.loaded) = false)
    by (vm_compute; reflexivity).
  exact (proj1 (proj2 (validation_message_does_not_stay Scenario.loaded []
                         loaded_reachable Hnot)) (Forall_nil _)).
Defined.

(** X16. The warning of a first delete click does not stay either, unless
    the record's name happens to have "success", "confirm" or "SURE" in
    it: the confirmation is pending, with its five seconds, while the page
    shows no message (or the generic database error if a read failed). *)
Theorem delete_warning_does_not_stay :
  forall (c : AppState * World) (key : nat) (faults : list Fault),
    reachable c ->
    isDBReady (fst c) = true ->
    confirmDeleteId (fst c) <> Some key ->
    plain (confirmDeleteMessage (recordName key (fst c))) = true ->
    confirmDeleteId (fst (step (DeleteClick key) faults c)) = Some key
    /\ deleteTimer (timers (snd (step (DeleteClick key) faults c))) = Some 5000%N
    /\ (message (fst (step (DeleteClick key) faults c)) = ""
        \/ message (fst (step (DeleteClick key) faults c)) = IDB_ERROR_MESSAGE)
    /\ (faultless faults -> message (fst (step (DeleteClick key) faults c)) = "").
Proof.
  intros c key faults Hreach Hready Hne Hplain.
  pose proof (reachable_lasting _ (reach_step c (DeleteClick key) faults Hreach))
    as Hlast.
  pose proof (reachable_lasting _ Hreach) as Hlast0.
  pose proof (reachable_at_rest _ Hreach) as Hrest.
  destruct c as [s w]. cbn [fst snd] in *.
  destruct (first_request_only_warns s w key faults Hready Hne)
    as (_ & _ & Hp & _ & _ & Ht).
  split; [exact Hp |]. split; [exact Ht |].
  rewrite step_handle in * by discriminate. unfold handle in *.
  rewrite (handleDelete_first key s (setOracle faults w) Hready Hne) in *.
  cbn [fst snd] in *.
  set (m := confirmDeleteMessage (recordName key s)) in *.
  set (s1 := setConfirmClear false
               (setConfirmDeleteId (Some key) (setMessage m s))) in *.
  assert (Hne1 : m <> "" /\ m <> IDB_ERROR_MESSAGE).
  { subst m. unfold confirmDeleteMessage. split; discriminate. }
  destruct Hne1 as [Hne1 Hne2].
  split.
  - destruct (render_message s s1 (setOracle faults w)) as [H | [H | H]]; auto.
    rewrite H in Hlast. change (message s1) with m in Hlast.
    destruct Hlast as [H' | [H' | H']];
      [contradiction | congruence | contradiction].
  - intros Hcalm.
    rewrite (render_calm_message s s1 (setOracle faults w) Hcalm).
    simpl. rewrite Hrest. simpl. change (message s1) with m.
    destruct (message s =? m)%string eqn:E; simpl.
    + apply String.eqb_eq in E. rewrite E in Hlast0.
      destruct Hlast0 as [H' | [H' | H']];
        [contradiction | congruence | contradiction].
    + rewrite Hplain. reflexivity.
Qed.

Lemma delete_warning_does_not_stay_witness :
  confirmDeleteId (fst (step (DeleteClick 1) [] Scenario.twoRecords)) = Some 1
  /\ message (fst (step (DeleteClick 1) [] Scenario.twoRecords)) = "".
Proof.
  assert (Hready : isDBReady (fst Scenario.twoRecords) = true)
    by (vm_compute; reflexivity).
  assert (Hne : confirmDeleteId (fst Scenario.twoRecords) <> Some 1)
    by (vm_compute; discriminate).
  assert (Hplain : plain (confirmDeleteMessage
                            (recordName 1 (fst Scenario.twoRecords))) = true)
    by (vm_compute; reflexivity).
  destruct (delete_warning_does_not_stay Scenario.twoRecords 1 []
              twoRecords_reachable Hready Hne Hplain) as (H1 & _ & _ & H2).
  split; [exact H1 | exact (H2 (Forall_nil _))].
Defined.

(** * The event configuration *)

(** Only [handleConfigChange] touches the configuration and its saved copy;
    no handler touches the clock. *)
Lemma handle_config (e : Event) (s : AppState) (w : World) :
  (forall name value, e <> ConfigChange name value) ->
  eventConfig (fst (handle e s w)) = eventConfig s
  /\ localStorage (snd (handle e s w)) = localStorage w.
Proof.
  intros Hne.
  destruct e as [p | name value | input | name checked | | image | | | | key | | ms];
    unfold handle.
  - destruct p; split; reflexivity.
  - exfalso. apply (Hne name value). reflexivity.
  - split; reflexivity.
  - split; reflexivity.
  - unfold startDrawing. destruct (canvasMounted s), (isDBReady s);
      split; reflexivity.
  - unfold draw. destruct (canvasMounted s), (isDrawing w); split; reflexivity.
  - destruct (canvasMounted s); split; reflexivity.
  - unfold handleClearSignature. destruct (canvasMounted s); split; reflexivity.
  - destruct (readyToSubmit s) eqn:Hready.
    + rewrite (handleSubmit_ready s w Hready). unfold addRecord.
      match goal with
      | |- context [withStore ?c ?request w] =>
          destruct (withStore_cases c request w)
            as [[_ Hws] | [_ (w' & Hws & ((_ & Hls & _) & _))]]
      end; rewrite Hws; split; try reflexivity. exact Hls.
    + destruct (handleSubmit_invalid s w Hready) as (-> & _ & Hcfg).
      split; [exact Hcfg | reflexivity].
  - unfold handleDelete. destruct (isDBReady s); [| split; reflexivity]. simpl.
    destruct (option_nat_eqb (confirmDeleteId s) (Some key));
      [| split; reflexivity].
    unfold deleteRecord.
    match goal with
    | |- context [withStore ?c ?request w] =>
        destruct (withStore_cases c request w)
          as [[_ Hws] | [_ (w' & Hws & ((_ & Hls & _) & _))]]
    end; rewrite Hws; split; try reflexivity. exact Hls.
  - unfold handleClearAll. destruct (isDBReady s); [| split; reflexivity]. simpl.
    destruct (confirmClear s); [| split; reflexivity].
    unfold deleteAllRecords.
    match goal with
    | |- context [withStore ?c ?request w] =>
        destruct (withStore_cases c request w)
          as [[_ Hws] | [_ (w' & Hws & ((_ & Hls & _) & _))]]
    end; rewrite Hws; split; try reflexivity. exact Hls.
  - split; reflexivity.
Qed.

(** The first render reads the configuration back from local storage. *)
Lemma settle_first_config (fuel : nat) (p s : AppState) (w : World) :
  eventConfig (fst (settle fuel true p s w)) = loadedConfig (eventConfig s) w.
Proof.
  assert (H1 : eventConfig (fst (runEffects true p s w))
               = loadedConfig (eventConfig s) w) by reflexivity.
  destruct fuel as [| fuel].
  - rewrite settle_0. exact H1.
  - rewrite settle_S.
    destruct (runEffects_frame true p s w) as (_ & Hdisk & _).
    destruct (runEffects true p s w) as [s1 w1]. cbn [fst snd] in *.
    destruct (inflight w1) as [| closedMessage rest]; [exact H1 |].
    cbv zeta.
    pose proof (fetchRecordsSettle_frame closedMessage s1 (setInflight rest w1))
      as (_ & Hdisk2 & Hcfg & _).
    match goal with
    | |- context [settle fuel false s1 ?s2 ?w2] =>
        destruct (settle_frame fuel false s1 s2 w2) as (_ & _ & _ & [H | H] & _)
    end; rewrite H, Hcfg, H1; [reflexivity |].
    apply loadedConfig_twice.
    eapply sameDisk_trans; [exact Hdisk |]. exact Hdisk2.
Qed.

Lemma render_configKept (p s : AppState) (w : World) :
  configKept s w -> configKept (fst (render p s w)) (snd (render p s w)).
Proof.
  intros [Hsome Hnone].
  destruct (render_frame p s w) as (_ & (_ & Hls & _) & _ & Hcfg & _).
  unfold configKept. rewrite Hls. split.
  - intros saved Hsaved.
    destruct Hcfg as [-> | ->]; [apply Hsome; exact Hsaved |].
    unfold loadedConfig. rewrite Hsaved. reflexivity.
  - intros Hno. destruct Hcfg as [-> | ->]; [apply Hnone; exact Hno |].
    unfold loadedConfig. rewrite Hno. simpl. apply Hnone. exact Hno.
Qed.

Lemma tick_configKept (c : AppState * World) :
  configKept (fst c) (snd c) -> configKept (fst (tick c)) (snd (tick c)).
Proof.
  destruct c as [s w]. cbn [fst snd]. intros H. unfold tick.
  match goal with
  | |- context [fireClearTimer (s, ?w0)] => set (w1 := w0)
  end.
  assert (H0 : configKept s w1) by exact H.
  clearbody w1.
  assert (H1 : configKept (fst (fireClearTimer (s, w1)))
                 (snd (fireClearTimer (s, w1)))).
  { unfold fireClearTimer. destruct (due _); [| exact H0].
    apply render_configKept. exact H0. }
  destruct (fireClearTimer (s, w1)) as [s2 w2]. cbn [fst snd] in H1.
  assert (H2 : configKept (fst (fireDeleteTimer (s2, w2)))
                 (snd (fireDeleteTimer (s2, w2)))).
  { unfold fireDeleteTimer. destruct (due _); [| exact H1].
    apply render_configKept. unfold deleteTimerCallback.
    destruct (Str.includes _ _); exact H1. }
  destruct (fireDeleteTimer (s2, w2)) as [s3 w3]. cbn [fst snd] in H2.
  unfold fireSuccessTimer. destruct (due _); [| exact H2].
  apply render_configKept. exact H2.
Qed.

Lemma step_configKept (e : Event) (faults : list Fault) (c : AppState * World) :
  configKept (fst c) (snd c) ->
  configKept (fst (step e faults c)) (snd (step e faults c)).
Proof.
  destruct c as [s w]. cbn [fst snd]. intros H.
  destruct e as [p | name value | input | name checked | | image | | | | key | | ms].
  2: { rewrite step_handle by discriminate. apply render_configKept.
       unfold handle, handleConfigChange, configKept. simpl. split.
       - intros saved Hsaved. inversion Hsaved. reflexivity.
       - discriminate. }
  all: try (rewrite step_handle by discriminate; apply render_configKept;
            match goal with
            | |- configKept (fst (handle ?e ?s0 ?w0)) _ =>
                destruct (handle_config e s0 w0) as [Hcfg Hls];
                [discriminate |];
                unfold configKept; rewrite Hcfg, Hls; exact H
            end).
  rewrite step_elapse. unfold elapse.
  apply (N.iter_invariant ms _ tick (fun x => configKept (fst x) (snd x))).
  - intros x. apply tick_configKept.
  - exact H.
Qed.

Lemma boot_config (w : World) :
  eventConfig (fst (boot w)) = loadedConfig (initialEventConfig w) w.
Proof. unfold boot. rewrite settle_first_config. reflexivity. Qed.

Lemma reachable_configKept (c : AppState * World) :
  reachable c -> configKept (fst c) (snd c).
Proof.
  induction 1 as [db saved clock faults _ | c e faults _ IH].
  - destruct (settle_frame (settleFuel (pageLoad db saved clock faults)) true
                (initialState (pageLoad db saved clock faults))
                (initialState (pageLoad db saved clock faults))
                (pageLoad db saved clock faults))
      as (_ & (_ & Hls & _) & _).
    fold (boot (pageLoad db saved clock faults)) in Hls.
    unfold configKept. rewrite Hls, boot_config. unfold loadedConfig. simpl.
    split.
    + intros saved' ->. reflexivity.
    + intros ->. simpl. split; reflexivity.
  - apply step_configKept. exact IH.
Qed.

(** X17. A change in the configuration form is saved at once and survives a
    reload: after the change the configuration shown and the saved copy are
    the edited one, and a page loaded later from the same browser storage,
    at any time and whatever the faults, shows that configuration. *)
Theorem configuration_survives_reload :
  forall (s : AppState) (w : World) (name : ConfigName) (value : string)
         (faults faults' : list Fault) (clock : N),
    eventConfig (fst (step (ConfigChange name value) faults (s, w)))
    = assignConfig name value (eventConfig s)
    /\ localStorage (snd (step (ConfigChange name value) faults (s, w)))
       = Some (assignConfig name value (eventConfig s))
    /\ eventConfig
         (fst (reload (snd (step (ConfigChange name value) faults (s, w)))
                 clock faults'))
       = assignConfig name value (eventConfig s)
    /\ collection (snd (step (ConfigChange name value) faults (s, w)))
       = collection w.
Proof.
  intros s w name value faults faults' clock.
  rewrite step_handle by discriminate. unfold handle, handleConfigChange.
  cbn [fst snd].
  match goal with
  | |- context [render s ?s1 ?w1] =>
      destruct (render_frame s s1 w1) as (_ & (Hst & Hls & _) & _ & Hcfg & _)
  end.
  simpl in Hls, Hcfg, Hst.
  assert (Hshown : eventConfig
                     (fst (render s
                             (setEventConfig (assignConfig name value (eventConfig s)) s)
                             (setLocalStorage
                                (Some (assignConfig name value (eventConfig s)))
                                (setOracle faults w))))
                   = assignConfig name value (eventConfig s)).
  { destruct Hcfg as [H | H]; rewrite H; reflexivity. }
  split; [exact Hshown |]. split; [exact Hls |]. split.
  - unfold reload. rewrite boot_config. unfold loadedConfig. simpl.
    rewrite Hls. reflexivity.
  - unfold collection. rewrite Hst. reflexivity.
Qed.

(** X18. In every reachable state the configuration shown is the one in
    local storage, so that a reload would show the same; while nothing was
    ever saved, activity name and venue are empty and the form is headed
    by the default title. *)
Theorem configuration_shown_is_the_saved_one :
  forall (c : AppState * World) (clock : N) (faults : list Fault),
    reachable c ->
    configKept (fst c) (snd c)
    /\ (forall saved,
           localStorage (snd c) = Some saved ->
           eventConfig (fst (reload (snd c) clock faults)) = eventConfig (fst c))
    /\ (localStorage (snd c) = None ->
        headerText (eventConfig (fst c)) = "Activity Attendance"
        /\ eventConfig (fst (reload (snd c) clock faults))
           = {| activityName := ""; venue := "";
                eventDate := UtcDay (clock / 86400000)%N |}).
Proof.
  intros c clock faults Hreach.
  pose proof (reachable_configKept c Hreach) as Hkept.
  split; [exact Hkept |].
  unfold reload. rewrite boot_config. unfold loadedConfig. simpl.
  split.
  - intros saved Hsaved. rewrite Hsaved. symmetry. apply Hkept. exact Hsaved.
  - intros Hnone. split.
    + destruct Hkept as [_ Hkept]. destruct (Hkept Hnone) as [Hname _].
      unfold headerText. rewrite Hname. reflexivity.
    + rewrite Hnone. reflexivity.
Qed.

Lemma configuration_shown_is_the_saved_one_witness :
  configKept
    (fst (step (ConfigChange nameVenue "Hall B") [] Scenario.formFilled))
    (snd (step (ConfigChange nameVenue "Hall B") [] Scenario.formFilled))
  /\ headerText (eventConfig (fst Scenario.formFilled)) = "Activity Attendance".
Proof.
  split.
  - exact (proj1 (configuration_shown_is_the_saved_one
                    (step (ConfigChange nameVenue "Hall B") [] Scenario.formFilled)
                    0%N []
                    (reach_step _ _ _ formFilled_reachable))).
  - assert (Hnone : localStorage (snd Scenario.formFilled) = None)
      by (vm_compute; reflexivity).
    exact (proj1 (proj2 (proj2 (configuration_shown_is_the_saved_one
                                  Scenario.formFilled 0%N []
                                  formFilled_reachable)) Hnone)).
Defined.

(** * The canvas *)

Lemma runEffects_canvas (first : bool) (p s : AppState) (w : World) :
  canvasImage (snd (runEffects first p s w))
  = (if (first || negb (Bool.eqb (isDBReady p) (isDBReady s))
         || negb (Page_eqb (currentPage p) (currentPage s)))
        && canvasMounted s
     then blankCanvas else canvasImage w).
Proof.
  effects_cases first p s; destruct (canvasMounted s); reflexivity.
Qed.

(** Showing the form page again sizes a new canvas. *)
Lemma render_canvas_wiped (p s : AppState) (w : World) :
  currentPage p <> form ->
  currentPage s = form ->
  canvasImage (snd (render p s w)) = blankCanvas.
Proof.
  intros Hp Hs. unfold render.
  assert (H1 : canvasImage (snd (runEffects false p s w)) = blankCanvas).
  { rewrite runEffects_canvas. unfold canvasMounted. rewrite Hs.
    destruct (currentPage p); [| contradiction |]; simpl;
      rewrite orb_true_r; reflexivity. }
  destruct (settleFuel w) as [| fuel].
  - rewrite settle_0. exact H1.
  - rewrite settle_S.
    destruct (runEffects false p s w) as [s1 w1]. cbn [fst snd] in *.
    destruct (inflight w1) as [| closedMessage rest]; [exact H1 |].
    cbv zeta.
    pose proof (fetchRecordsSettle_frame closedMessage s1 (setInflight rest w1))
      as (_ & _ & _ & _ & _ & Hcv & _).
    match goal with
    | |- context [settle fuel false s1 ?s2 ?w2] =>
        destruct (settle_frame fuel false s1 s2 w2) as (_ & _ & _ & _ & [H | H])
    end; rewrite H; [| reflexivity].
    rewrite Hcv. exact H1.
Qed.

(** A render in which no dependency of an effect has changed, with nothing
    under way, does nothing. *)
Lemma settle_unchanged (fuel : nat) (p s : AppState) (w : World) :
  message p = message s ->
  confirmClear p = confirmClear s ->
  confirmDeleteId p = confirmDeleteId s ->
  isDBReady p = isDBReady s ->
  currentPage p = currentPage s ->
  inflight w = [] ->
  settle fuel false p s w = (s, w).
Proof.
  intros Hm Hc Hd Hr Hp Hq.
  assert (H1 : runEffects false p s w = (s, w)).
  { unfold runEffects. rewrite Hm, Hc, Hd, Hr, Hp.
    rewrite String.eqb_refl, !Bool.eqb_reflx.
    replace (option_nat_eqb (confirmDeleteId s) (confirmDeleteId s)) with true
      by (symmetry; apply option_nat_eqb_eq; reflexivity).
    replace (Page_eqb (currentPage s) (currentPage s)) with true
      by (destruct (currentPage s); reflexivity).
    reflexivity. }
  destruct fuel as [| fuel].
  - rewrite settle_0. exact H1.
  - rewrite settle_S, H1. cbn [fst snd]. rewrite Hq. reflexivity.
Qed.

Lemma render_unchanged (p s : AppState) (w : World) :
  message p = message s ->
  confirmClear p = confirmClear s ->
  confirmDeleteId p = confirmDeleteId s ->
  isDBReady p = isDBReady s ->
  currentPage p = currentPage s ->
  inflight w = [] ->
  render p s w = (s, w).
Proof. apply settle_unchanged. Qed.

Lemma step_submit_stores (s : AppState) (w : World) (faults : list Fault) :
  readyToSubmit s = true ->
  faultless faults ->
  IDB.wf (store w) ->
  collection (snd (step Submit faults (s, w)))
  = collection w
    ++ [stored (IDB.keyGenerator (store w))
          (withSignature (canvasImage w) (formData s)) (now w)].
Proof.
  intros Hready Hcalm Hwf.
  set (w0 := setOracle faults w).
  rewrite step_handle by discriminate. unfold handle. fold w0.
  rewrite (handleSubmit_ready s w0 Hready). unfold addRecord.
  match goal with
  | |- context [withStore ?c ?request w0] =>
      destruct (withStore_cases c request w0) as [[_ Hws] | [Hfail _]]
  end.
  2: { simpl in Hfail. rewrite (faultless_hd _ Hcalm) in Hfail. discriminate. }
  rewrite Hws. cbn [fst snd].
  match goal with
  | |- context [render s ?s1 ?w1] =>
      destruct (render_frame s s1 w1) as (_ & (Hst & _) & _)
  end.
  unfold collection. rewrite Hst.
  apply (IDBFacts.rows_add (withSignature (canvasImage w) (formData s))
           (now w) (store w) Hwf).
Qed.

(** X19. Leaving the form page and coming back loses the drawing but not the
    flag that a signature was captured: the canvas is blank, the fields and
    [signatureCaptured] are as they were, and a submission that follows is
    not refused for want of a signature; with the storage working it stores
    the record with the image of the blank canvas as its signature. *)
Theorem signature_flag_outlives_the_drawing :
  forall (s : AppState) (w : World) (faults faults' : list Fault),
    currentPage s <> form ->
    canvasImage (snd (step (Navigate form) faults (s, w))) = blankCanvas
    /\ signatureCaptured (fst (step (Navigate form) faults (s, w)))
       = signatureCaptured s
    /\ formData (fst (step (Navigate form) faults (s, w))) = formData s
    /\ (readyToSubmit (fst (step (Navigate form) faults (s, w))) = true ->
        faultless faults' ->
        IDB.wf (store w) ->
        collection
          (snd (step Submit faults' (step (Navigate form) faults (s, w))))
        = collection w
          ++ [stored (IDB.keyGenerator (store w))
                (withSignature blankCanvas (formData s)) (now w)]).
Proof.
  intros s w faults faults' Hpage.
  rewrite step_handle by discriminate. unfold handle, handleNavigate.
  cbn [fst snd].
  pose proof (render_canvas_wiped s (setCurrentPage form s) (setOracle faults w)
                Hpage eq_refl) as Hcv.
  destruct (render_frame s (setCurrentPage form s) (setOracle faults w))
    as ((Hf & _ & _ & _ & Hsig) & (Hst & _ & Hnow & _) & _).
  simpl in Hf, Hsig, Hst, Hnow.
  split; [exact Hcv |]. split; [exact Hsig |]. split; [exact Hf |].
  intros Hready Hcalm Hwf.
  destruct (render s (setCurrentPage form s) (setOracle faults w)) as [s1 w1].
  cbn [fst snd] in *.
  rewrite (step_submit_stores s1 w1 faults' Hready Hcalm);
    [| rewrite Hst; exact Hwf].
  unfold collection. rewrite Hst, Hcv, Hf, Hnow. reflexivity.
Qed.

Lemma signature_flag_outlives_the_drawing_witness :
  map (fun r => signature (data r))
    (collection
       (snd (step Submit []
               (step (Navigate form) []
                  (step (Navigate setup) [] Scenario.formFilled)))))
  = [Some blankCanvas].
Proof.
  assert (Hpage : currentPage (fst (step (Navigate setup) [] Scenario.formFilled))
                  <> form) by (vm_compute; discriminate).
  assert (Hready : readyToSubmit
                     (fst (step (Navigate form) []
                             (fst (step (Navigate setup) [] Scenario.formFilled),
                              snd (step (Navigate setup) [] Scenario.formFilled))))
                   = true) by (vm_compute; reflexivity).
  assert (Hwf : IDB.wf (store (snd (step (Navigate setup) [] Scenario.formFilled))))
    by (vm_compute; split; constructor).
  destruct (signature_flag_outlives_the_drawing
              (fst (step (Navigate setup) [] Scenario.formFilled))
              (snd (step (Navigate setup) [] Scenario.formFilled)) [] [] Hpage)
    as (_ & _ & _ & H).
  specialize (H Hready (Forall_nil _) Hwf).
  rewrite <- surjective_pairing in H. rewrite H. vm_compute. reflexivity.
Defined.

(** A stroke: press, move, release. *)
Lemma stroke (s : AppState) (w : World) (image : string)
  (faults1 faults2 faults3 : list Fault) :
  currentPage s = form ->
  isDBReady s = true ->
  inflight w = [] ->
  step PointerUp faults3
    (step (PointerMove image) faults2 (step PointerDown faults1 (s, w)))
  = (setSignatureCaptured true s,
     setIsDrawing false
       (setOracle faults3
          (setCanvasImage image
             (setOracle faults2 (setIsDrawing true (setOracle faults1 w)))))).
Proof.
  intros Hpage Hready Hrest.
  assert (Hm : canvasMounted s = true)
    by (unfold canvasMounted; rewrite Hpage; reflexivity).
  assert (H1 : step PointerDown faults1 (s, w)
               = (setSignatureCaptured true s,
                  setIsDrawing true (setOracle faults1 w))).
  { rewrite step_handle by discriminate. unfold handle, startDrawing.
    rewrite Hm, Hready. simpl. apply render_unchanged; auto. }
  rewrite H1.
  assert (H2 : step (PointerMove image) faults2
                 (setSignatureCaptured true s,
                  setIsDrawing true (setOracle faults1 w))
               = (setSignatureCaptured true s,
                  setCanvasImage image
                    (setOracle faults2 (setIsDrawing true (setOracle faults1 w))))).
  { rewrite step_handle by discriminate. unfold handle, draw.
    change (canvasMounted (setSignatureCaptured true s)) with (canvasMounted s).
    rewrite Hm. simpl. apply render_unchanged; auto. }
  rewrite H2.
  rewrite step_handle by discriminate. unfold handle, stopDrawing.
  change (canvasMounted (setSignatureCaptured true s)) with (canvasMounted s).
  rewrite Hm. cbn [fst snd]. apply render_unchanged; auto.
Qed.

(** X20. A stroke on the canvas of the form page: with the database ready
    and nothing under way, pressing, moving and releasing leaves the canvas
    showing the stroke and the signature counting as captured, the fields
    untouched; a move without a press before it draws nothing; and while
    the database is not ready a press captures nothing. *)
Theorem stroke_captures_the_signature :
  forall (s : AppState) (w : World) (image : string)
         (faults1 faults2 faults3 : list Fault),
    currentPage s = form ->
    inflight w = [] ->
    (isDBReady s = true ->
     fst (step PointerUp faults3
            (step (PointerMove image) faults2 (step PointerDown faults1 (s, w))))
     = setSignatureCaptured true s
     /\ canvasImage
          (snd (step PointerUp faults3
                  (step (PointerMove image) faults2
                     (step PointerDown faults1 (s, w)))))
        = image
     /\ isDrawing
          (snd (step PointerUp faults3
                  (step (PointerMove image) faults2
                     (step PointerDown faults1 (s, w)))))
        = false)
    /\ (isDrawing w = false ->
        fst (step (PointerMove image) faults2 (s, w)) = s
        /\ canvasImage (snd (step (PointerMove image) faults2 (s, w)))
           = canvasImage w)
    /\ (isDBReady s = false ->
        fst (step PointerDown faults1 (s, w)) = s
        /\ isDrawing (snd (step PointerDown faults1 (s, w))) = isDrawing w).
Proof.
  intros s w image faults1 faults2 faults3 Hpage Hrest.
  assert (Hm : canvasMounted s = true)
    by (unfold canvasMounted; rewrite Hpage; reflexivity).
  split; [| split].
  - intros Hready.
    rewrite (stroke s w image faults1 faults2 faults3 Hpage Hready Hrest).
    repeat split.
  - intros Hup. rewrite step_handle by discriminate. unfold handle, draw.
    rewrite Hm. simpl. rewrite Hup. simpl. rewrite render_unchanged; auto.
  - intros Hnot. rewrite step_handle by discriminate.
    unfold handle, startDrawing. rewrite Hm, Hnot. simpl.
    rewrite render_unchanged; auto.
Qed.

Lemma stroke_captures_the_signature_witness :
  canvasImage
    (snd (step PointerUp []
            (step (PointerMove "data:image/png;base64,CCC") []
               (step PointerDown []
                  (step (Navigate form) [] Scenario.loaded)))))
  = "data:image/png;base64,CCC".
Proof.
  assert (Hpage : currentPage (fst (step (Navigate form) [] Scenario.loaded)) = form)
    by (vm_compute; reflexivity).
  assert (Hrest : inflight (snd (step (Navigate form) [] Scenario.loaded)) = [])
    by (vm_compute; reflexivity).
  assert (Hready : isDBReady (fst (step (Navigate form) [] Scenario.loaded)) = true)
    by (vm_compute; reflexivity).
  destruct (stroke_captures_the_signature
              (fst (step (Navigate form) [] Scenario.loaded))
              (snd (step (Navigate form) [] Scenario.loaded))
              "data:image/png;base64,CCC" [] [] [] Hpage Hrest) as (H & _).
  destruct (H Hready) as (_ & H2 & _).
  rewrite <- surjective_pairing in H2. exact H2.
Defined.

(** * The status badges *)

(** X21. [getStatusBadges] shows the word None exactly when no flag is set
    or the record has no status; otherwise it shows one badge for each flag
    that is set and none for a flag that is not: PWD, Senior, OSY. *)
Theorem getStatusBadges_shows_the_flags :
  forall status : option Status,
    (getStatusBadges status = BadgeNone
     <-> (status = None
          \/ exists st, status = Some st
                        /\ pwd st = false /\ senior st = false /\ osy st = false))
    /\ (forall labels st,
           getStatusBadges status = BadgeRow labels ->
           status = Some st ->
           (In "PWD" labels <-> pwd st = true)
           /\ (In "Senior" labels <-> senior st = true)
           /\ (In "OSY" labels <-> osy st = true)
           /\ List.length labels
              = Nat.b2n (pwd st) + Nat.b2n (senior st) + Nat.b2n (osy st)).
Proof.
  intros [[p n o] |]; unfold getStatusBadges; simpl.
  - split.
    + split.
      * destruct p, n, o; simpl; try discriminate. intros _. right.
        eexists. repeat split.
      * intros [H | (st & H & Hp & Hn & Ho)]; [discriminate |].
        inversion H; subst st. simpl in *. subst. reflexivity.
    + intros labels st Hrow Hst. inversion Hst; subst st. simpl.
      destruct p, n, o; simpl in Hrow; inversion Hrow; subst labels;
        simpl; repeat split; intros; try reflexivity; try discriminate;
        intuition discriminate.
  - split.
    + split; [intros _; left; reflexivity | reflexivity].
    + intros labels st _ H. discriminate H.
Qed.

Lemma getStatusBadges_shows_the_flags_witness :
  getStatusBadges (Some {| pwd := true; senior := false; osy := true |})
  = BadgeRow ["PWD"; "OSY"]
  /\ (In "Senior" ["PWD"; "OSY"] <-> false = true).
Proof.
  split; [reflexivity |].
  destruct (getStatusBadges_shows_the_flags
              (Some {| pwd := true; senior := false; osy := true |})) as [_ H].
  destruct (H ["PWD"; "OSY"] {| pwd := true; senior := false; osy := true |}
              eq_refl eq_refl) as (_ & H2 & _).
  exact H2.
Defined.

(** * Loading the page *)

Lemma fetchRecordsSettle_failed (closedMessage : string) (s : AppState) (w : World) :
  failing (hd NoFault (oracle w)) = true ->
  fst (fetchRecordsSettle closedMessage s w)
  = setIsDBReady false (setMessage IDB_ERROR_MESSAGE s).
Proof.
  unfold fetchRecordsSettle, getAllRecords, withStore, begin, openDB.
  destruct (hd NoFault (oracle w)); simpl; intros H;
    [discriminate | reflexivity | reflexivity | reflexivity | reflexivity].
Qed.

(** A round of [settle] whose [fetchRecords] fails. *)
Lemma settle_failure (fuel : nat) (first : bool) (p s : AppState) (w : World)
  (closedMessage : string) (rest : list string) :
  failing (hd NoFault (oracle w)) = true ->
  inflight (snd (runEffects first p s w)) = closedMessage :: rest ->
  exists w2,
    settle (S fuel) first p s w
    = settle fuel false (fst (runEffects first p s w))
        (setIsDBReady false
           (setMessage IDB_ERROR_MESSAGE (fst (runEffects first p s w))))
        w2
    /\ oracle w2 = tl (oracle w)
    /\ inflight w2 = rest
    /\ store w2 = store w
    /\ calls w2 = CallGetAll :: calls w.
Proof.
  intros Hfail Hq. rewrite settle_S.
  destruct (runEffects_frame first p s w)
    as (_ & (Hst & _) & _ & _ & _ & Ho & Hcalls & _).
  destruct (runEffects first p s w) as [s1 w1]. cbn [fst snd] in *.
  rewrite Hq. cbv zeta.
  pose proof (fetchRecordsSettle_frame closedMessage s1 (setInflight rest w1))
    as (_ & (Hst2 & _) & _ & Ho2 & Hcalls2 & _ & _ & Hq2).
  rewrite (fetchRecordsSettle_failed closedMessage s1 (setInflight rest w1))
    by (simpl; rewrite Ho; exact Hfail).
  eexists. split; [reflexivity |].
  split; [rewrite Ho2; simpl; rewrite Ho; reflexivity |].
  split; [rewrite Hq2; reflexivity |].
  split; [rewrite Hst2; exact Hst |].
  rewrite Hcalls2. simpl. rewrite Hcalls. reflexivity.
Qed.

(** X22. What the user finds on loading the page.  With the storage
    working: the database ready, the list the store's content, newest first,
    and no message.  With a single failure followed by working storage: the
    same, for the change of message sets [fetchRecords] off again.  With two
    failures in a row: the database not ready, the generic error as message,
    an empty list, and no further attempt. *)
Theorem page_load_outcomes :
  forall (db : option IDB.ObjectStore) (saved : option EventConfig) (clock : N),
    (forall faults,
        faultless faults ->
        isDBReady (fst (boot (pageLoad db saved clock faults))) = true
        /\ storedRecords (fst (boot (pageLoad db saved clock faults)))
           = rev (collection (pageLoad db saved clock faults))
        /\ message (fst (boot (pageLoad db saved clock faults))) = "")
    /\ (forall f rest,
           failing f = true ->
           faultless rest ->
           isDBReady (fst (boot (pageLoad db saved clock (f :: rest)))) = true
           /\ storedRecords (fst (boot (pageLoad db saved clock (f :: rest))))
              = rev (collection (pageLoad db saved clock (f :: rest)))
           /\ message (fst (boot (pageLoad db saved clock (f :: rest)))) = "")
    /\ (forall f1 f2 rest,
           failing f1 = true ->
           failing f2 = true ->
           isDBReady (fst (boot (pageLoad db saved clock (f1 :: f2 :: rest))))
           = false
           /\ storedRecords
                (fst (boot (pageLoad db saved clock (f1 :: f2 :: rest)))) = []
           /\ message (fst (boot (pageLoad db saved clock (f1 :: f2 :: rest))))
              = IDB_ERROR_MESSAGE
           /\ calls (snd (boot (pageLoad db saved clock (f1 :: f2 :: rest))))
              = [CallGetAll; CallGetAll]
           /\ oracle (snd (boot (pageLoad db saved clock (f1 :: f2 :: rest))))
              = rest).
Proof.
  intros db saved clock. split; [| split].
  - intros faults Hcalm.
    set (w := pageLoad db saved clock faults).
    pose proof (boot_at_rest w) as Hrest.
    pose proof (boot_store w) as Hst.
    unfold boot in *.
    destruct (settle_calm (settleFuel w) true (initialState w) (initialState w) w
                Hcalm) as [_ Hready].
    destruct Hready as [Hq | Hready]; [| contradiction |].
    { left. rewrite runEffects_inflight. simpl. discriminate. }
    split; [exact Hready |]. split.
    + destruct (settle_synced (settleFuel w) true (initialState w)
                  (initialState w) w) as [Hq | Hs]; [| contradiction |].
      { right. intros H. discriminate H. }
      rewrite (Hs Hready). unfold collection. rewrite Hst. reflexivity.
    + rewrite (settle_calm_message (settleFuel w) true (initialState w)
                 (initialState w) w Hcalm Hrest).
      destruct (existsb _ _); reflexivity.
  - intros f rest Hfail Hcalm.
    set (w := pageLoad db saved clock (f :: rest)).
    pose proof (boot_at_rest w) as Hrest.
    pose proof (boot_store w) as Hst.
    unfold boot in *.
    assert (Hfuel : settleFuel w = S (2 * List.length rest + 3))
      by (unfold settleFuel; simpl; lia).
    rewrite Hfuel in *.
    destruct (settle_failure (2 * List.length rest + 3) true
                (initialState w) (initialState w) w "" [] Hfail)
      as (w2 & Heq & Ho & Hq & Hst2 & _).
    { rewrite runEffects_inflight. reflexivity. }
    rewrite Heq in *. clear Heq.
    destruct (runEffects_frame true (initialState w) (initialState w) w)
      as (_ & _ & Hm1 & _).
    set (s1 := fst (runEffects true (initialState w) (initialState w) w)) in *.
    set (s2 := setIsDBReady false (setMessage IDB_ERROR_MESSAGE s1)) in *.
    assert (Hcalm2 : faultless (oracle w2)) by (rewrite Ho; exact Hcalm).
    assert (Hqueue : inflight (snd (runEffects false s1 s2 w2))
                     = [IDB_ERROR_MESSAGE]).
    { rewrite runEffects_inflight, Hq. subst s2. reflexivity. }
    destruct (settle_calm (2 * List.length rest + 3) false s1 s2 w2 Hcalm2)
      as [_ Hready].
    destruct Hready as [H | Hready]; [| contradiction |].
    { left. rewrite Hqueue. discriminate. }
    split; [exact Hready |]. split.
    + destruct (settle_synced (2 * List.length rest + 3) false s1 s2 w2)
        as [H | Hs]; [| contradiction |].
      { right. intros H. discriminate H. }
      rewrite (Hs Hready). unfold collection. rewrite Hst. reflexivity.
    + rewrite (settle_calm_message (2 * List.length rest + 3) false s1 s2 w2
                 Hcalm2 Hrest).
      rewrite Hqueue. reflexivity.
  - intros f1 f2 rest Hfail1 Hfail2.
    set (w := pageLoad db saved clock (f1 :: f2 :: rest)).
    unfold boot.
    assert (Hfuel : settleFuel w = S (S (2 * List.length rest + 4)))
      by (unfold settleFuel; simpl; lia).
    rewrite Hfuel.
    destruct (settle_failure (S (2 * List.length rest + 4)) true
                (initialState w) (initialState w) w "" [] Hfail1)
      as (w2 & Heq & Ho & Hq & _ & Hcalls).
    { rewrite runEffects_inflight. reflexivity. }
    rewrite Heq. clear Heq.
    destruct (runEffects_frame true (initialState w) (initialState w) w)
      as ((_ & Hc1 & Hd1 & Hp1 & _) & _ & Hm1 & Hr1 & Hl1 & _).
    set (s1 := fst (runEffects true (initialState w) (initialState w) w)) in *.
    set (s2 := setIsDBReady false (setMessage IDB_ERROR_MESSAGE s1)) in *.
    assert (Hqueue : inflight (snd (runEffects false s1 s2 w2))
                     = [IDB_ERROR_MESSAGE]).
    { rewrite runEffects_inflight, Hq. subst s2. reflexivity. }
    destruct (settle_failure (2 * List.length rest + 4) false s1 s2 w2
                IDB_ERROR_MESSAGE [] ) as (w4 & Heq & Ho4 & Hq4 & _ & Hcalls4);
      [rewrite Ho; exact Hfail2 | exact Hqueue |].
    rewrite Heq. clear Heq.
    destruct (runEffects_frame false s1 s2 w2)
      as ((_ & Hc3 & Hd3 & Hp3 & _) & _ & Hm3 & Hr3 & Hl3 & _).
    set (s3 := fst (runEffects false s1 s2 w2)) in *.
    rewrite settle_unchanged.
    + cbn [fst snd]. split; [reflexivity |].
      split; [change (storedRecords s3 = []); rewrite Hl3;
              change (storedRecords s1 = []); rewrite Hl1; reflexivity |].
      split; [reflexivity |].
      split; [rewrite Hcalls4, Hcalls; reflexivity |].
      rewrite Ho4, Ho. reflexivity.
    + change (message s3 = IDB_ERROR_MESSAGE). rewrite Hm3. reflexivity.
    + reflexivity.
    + reflexivity.
    + change (isDBReady s3 = false). rewrite Hr3. reflexivity.
    + reflexivity.
    + exact Hq4.
Qed.

Lemma page_load_outcomes_witness :
  isDBReady (fst (boot (pageLoad None None 0 [NoIndexedDB]))) = true
  /\ isDBReady (fst (boot (pageLoad None None 0 [NoIndexedDB; NoIndexedDB])))
     = false.
Proof.
  destruct (page_load_outcomes None None 0%N) as (_ & H1 & H2).
  split.
  - exact (proj1 (H1 NoIndexedDB [] eq_refl (Forall_nil _))).
  - exact (proj1 (H2 NoIndexedDB NoIndexedDB [] eq_refl eq_refl)).
Defined.

(** * The list shown *)

Lemma filter_key_absent (key : nat) (l : list AttendanceRecord) :
  ~ In key (map id l) -> filter (fun r => id r =? key) l = [].
Proof.
  induction l as [| r l IH]; simpl; intros Hnot; [reflexivity |].
  destruct (id r =? key) eqn:E.
  - apply Nat.eqb_eq in E. exfalso. apply Hnot. left. exact E.
  - apply IH. intros H. apply Hnot. right. exact H.
Qed.

Lemma filter_key_NoDup (key : nat) (l : list AttendanceRecord) :
  NoDup (map id l) ->
  List.length (filter (fun r => id r =? key) l) <= 1.
Proof.
  induction l as [| r l IH]; simpl; intros Hnd; [lia |].
  inversion Hnd as [| x xs Hnot Hnd' Heq]; subst.
  destruct (id r =? key) eqn:E; [| apply IH; exact Hnd'].
  apply Nat.eqb_eq in E. simpl.
  rewrite (filter_key_absent key l) by (rewrite <- E; exact Hnot).
  simpl. lia.
Qed.

Lemma sorted_rev (l : list AttendanceRecord) :
  StronglySorted (fun x y => id x < id y) l ->
  StronglySorted (fun a b => id b < id a) (rev l).
Proof.
  induction 1 as [| r l _ IH Hall]; simpl; [constructor |].
  assert (Hall' : Forall (fun x => id r < id x) (rev l)).
  { rewrite Forall_forall in *. intros x Hx. apply Hall.
    apply (proj2 (in_rev l x)). exact Hx. }
  clear Hall. induction IH as [| x xs _ IHxs Hx]; simpl.
  - repeat constructor.
  - inversion Hall' as [| y ys Hy Hys]; subst. constructor.
    + apply IHxs. exact Hys.
    + apply Forall_app. split; [exact Hx |]. repeat constructor. exact Hy.
Qed.

Lemma reachable_list (c : AppState * World) :
  reachable c ->
  isDBReady (fst c) = true ->
  storedRecords (fst c) = rev (collection (snd c))
  /\ StronglySorted (fun a b => id b < id a) (storedRecords (fst c))
  /\ NoDup (map id (storedRecords (fst c))).
Proof.
  intros Hreach Hready.
  pose proof (reachable_synced c Hreach Hready) as Hl.
  destruct (reachable_wf c Hreach) as [Hsorted _].
  fold (collection (snd c)) in Hsorted.
  split; [exact Hl |]. rewrite Hl. split; [apply sorted_rev; exact Hsorted |].
  rewrite map_rev. apply NoDup_rev. apply IDBFacts.sorted_keys_NoDup.
  exact Hsorted.
Qed.

(** X23. Whenever the list of records is shown (the database counting as
    ready) it is the store's content, newest first: the keys run strictly
    down the list, none occurs twice, and on the records page the trash
    icons shown are those of the records in the store and the clear-all
    button is enabled exactly when the store is not empty. *)
Theorem list_shown_is_the_store :
  forall c : AppState * World,
    reachable c ->
    isDBReady (fst c) = true ->
    storedRecords (fst c) = rev (collection (snd c))
    /\ StronglySorted (fun a b => id b < id a) (storedRecords (fst c))
    /\ NoDup (map id (storedRecords (fst c)))
    /\ (currentPage (fst c) = records ->
        (forall key, deleteButtonShown key (fst c) = true
                     <-> In key (map id (collection (snd c))))
        /\ (clearAllEnabled (fst c) = true <-> collection (snd c) <> [])).
Proof.
  intros c Hreach Hready.
  destruct (reachable_list c Hreach Hready) as (Hl & Hdown & Hnd).
  split; [exact Hl |]. split; [exact Hdown |]. split; [exact Hnd |].
  intros Hpage. split.
  - intros key. unfold deleteButtonShown.
    rewrite Hpage, Hready, Hl. simpl. split.
    + intros H. apply existsb_exists in H. destruct H as (r & Hin & Hid).
      apply Nat.eqb_eq in Hid. subst key. apply in_map.
      apply (proj2 (in_rev _ r)). exact Hin.
    + intros H. apply in_map_iff in H. destruct H as (r & Hid & Hin).
      apply existsb_exists. exists r. split.
      * apply (proj1 (in_rev _ r)). exact Hin.
      * apply Nat.eqb_eq. exact Hid.
  - unfold clearAllEnabled. rewrite Hpage, Hready, Hl, length_rev. simpl.
    destruct (collection (snd c)); simpl; split; intros H;
      try discriminate; try reflexivity.
    exfalso. apply H. reflexivity.
Qed.

Lemma list_shown_is_the_store_witness :
  map id (storedRecords (fst Scenario.twoRecords)) = [2; 1]
  /\ StronglySorted (fun a b => id b < id a)
       (storedRecords (fst Scenario.twoRecords)).
Proof.
  split; [vm_compute; reflexivity |].
  assert (Hready : isDBReady (fst Scenario.twoRecords) = true)
    by (vm_compute; reflexivity).
  exact (proj1 (proj2 (list_shown_is_the_store Scenario.twoRecords
                         twoRecords_reachable Hready))).
Defined.

Lemma filter_none {A : Type} (l : list A) : filter (fun _ => false) l = [].
Proof. induction l as [| x l IH]; [reflexivity | exact IH]. Qed.

Lemma isPendingDelete_key (s : AppState) (key : nat) (item : AttendanceRecord) :
  confirmDeleteId s = Some key ->
  isPendingDelete item s = (id item =? key).
Proof. intros H. unfold isPendingDelete. rewrite H. reflexivity. Qed.

(** X24. Of the rows of the list shown at most one is marked as awaiting
    the confirming click, the one of the pending record if it is listed;
    none is while the clear-all confirmation is pending. *)
Theorem at_most_one_row_is_marked :
  forall c : AppState * World,
    reachable c ->
    isDBReady (fst c) = true ->
    List.length (pendingItems (fst c)) <= 1
    /\ (forall item, In item (pendingItems (fst c)) ->
                     confirmDeleteId (fst c) = Some (id item)
                     /\ In item (collection (snd c)))
    /\ (confirmClear (fst c) = true -> pendingItems (fst c) = []).
Proof.
  intros c Hreach Hready.
  destruct (reachable_list c Hreach Hready) as (Hl & _ & Hnd).
  pose proof (reachable_exclusive c Hreach) as Hex.
  unfold pendingItems. split; [| split].
  - destruct (confirmDeleteId (fst c)) as [key |] eqn:Hp.
    + rewrite (filter_ext _ (fun r => id r =? key)
                 (fun item => isPendingDelete_key (fst c) key item Hp)).
      apply filter_key_NoDup. exact Hnd.
    + unfold isPendingDelete. rewrite Hp. simpl.
      rewrite filter_none. simpl. lia.
  - intros item Hin. apply filter_In in Hin. destruct Hin as [Hin Hmark].
    unfold isPendingDelete in Hmark. split.
    + destruct (confirmDeleteId (fst c)) as [key |]; [| discriminate].
      simpl in Hmark. apply Nat.eqb_eq in Hmark. rewrite Hmark. reflexivity.
    + rewrite Hl in Hin. apply (proj2 (in_rev _ item)). exact Hin.
  - intros Hc. destruct Hex as [Hex | Hex]; [congruence |].
    unfold isPendingDelete. rewrite Hex. simpl.
    apply filter_none.
Qed.

Lemma at_most_one_row_is_marked_witness :
  map id (pendingItems (fst (Scenario.clickedOnce 2))) = [2]
  /\ List.length (pendingItems (fst (Scenario.clickedOnce 2))) <= 1.
Proof.
  split; [vm_compute; reflexivity |].
  assert (Hready : isDBReady (fst (Scenario.clickedOnce 2)) = true)
    by (vm_compute; reflexivity).
  exact (proj1 (at_most_one_row_is_marked (Scenario.clickedOnce 2)
                  (clickedOnce_reachable 2) Hready)).
Defined.

(** * The success message *)

(** Through the re-renders the timer of the success message is the one set
    for the message shown. *)
Lemma settle_successTimer (fuel : nat) :
  forall (first : bool) (p s : AppState) (w : World),
    first || negb (message p =? message s)%string = true
    \/ successTimer (timers w) = successTimerFor (message s) ->
    successTimer (timers (snd (settle fuel first p s w)))
    = successTimerFor (message (fst (settle fuel first p s w))).
Proof.
  induction fuel as [| fuel IH]; intros first p s w Hpre.
  - rewrite settle_0.
    destruct (runEffects_timers first p s w) as (_ & _ & Hs).
    destruct (runEffects_frame first p s w) as (_ & _ & Hm & _).
    rewrite Hs, Hm. unfold successTimerFor.
    destruct Hpre as [-> | Hpre]; [reflexivity |].
    destruct (first || _); [reflexivity | exact Hpre].
  - rewrite settle_S.
    destruct (runEffects_timers first p s w) as (_ & _ & Hs).
    destruct (runEffects_frame first p s w) as (_ & _ & Hm & _).
    assert (H1 : successTimer (timers (snd (runEffects first p s w)))
                 = successTimerFor (message (fst (runEffects first p s w)))).
    { rewrite Hs, Hm. unfold successTimerFor.
      destruct Hpre as [-> | Hpre]; [reflexivity |].
      destruct (first || _); [reflexivity | exact Hpre]. }
    clear Hs Hm Hpre.
    destruct (runEffects first p s w) as [s1 w1]. cbn [fst snd] in *.
    destruct (inflight w1) as [| closedMessage rest]; [exact H1 |].
    cbv zeta.
    pose proof (fetchRecordsSettle_frame closedMessage s1 (setInflight rest w1))
      as (_ & _ & _ & _ & _ & _ & Ht & _).
    apply IH. simpl.
    destruct (message s1 =? message _)%string eqn:E; [right | left; reflexivity].
    apply String.eqb_eq in E. rewrite Ht, <- E. exact H1.
Qed.

Lemma tick_fires_success (s : AppState) (w : World) :
  due (countDown (clearTimer (timers w))) = false ->
  due (countDown (deleteTimer (timers w))) = false ->
  due (countDown (successTimer (timers w))) = true ->
  (message (fst (tick (s, w))) = ""
   \/ message (fst (tick (s, w))) = IDB_ERROR_MESSAGE)
  /\ (faultless (oracle w) -> message (fst (tick (s, w))) = "").
Proof.
  intros Hc Hd Hs. unfold tick, fireClearTimer. cbn [timers setNow setTimers].
  simpl clearTimer. rewrite Hc. unfold fireDeleteTimer.
  cbn [timers setNow setTimers]. simpl deleteTimer. rewrite Hd.
  unfold fireSuccessTimer. cbn [timers setNow setTimers]. simpl successTimer.
  rewrite Hs. split.
  - match goal with
    | |- context [render s ?s1 ?w1] =>
        destruct (render_message s s1 w1) as [H | [H | H]]; auto
    end.
  - intros Hcalm.
    match goal with
    | |- context [render s ?s1 ?w1] =>
        rewrite (render_calm_message s s1 w1) by exact Hcalm
    end.
    destruct (existsb _ _); reflexivity.
Qed.

(** X25. A message with "success" in it that an event has brought up,
    nothing being pending, is shown for three seconds: it is there after
    every shorter wait and gone after 3000 ms. *)
Theorem success_message_lasts_three_seconds :
  forall (c : AppState * World) (e : Event) (faults faults' : list Fault),
    reachable c ->
    (forall ms, e <> Elapse ms) ->
    Str.includes "success" (message (fst c)) = false ->
    Str.includes "success" (message (fst (step e faults c))) = true ->
    idle (fst (step e faults c)) ->
    (forall k, (k < 3000)%N ->
               message (fst (step (Elapse k) faults' (step e faults c)))
               = message (fst (step e faults c)))
    /\ (message (fst (step (Elapse 3000) faults' (step e faults c))) = ""
        \/ message (fst (step (Elapse 3000) faults' (step e faults c)))
           = IDB_ERROR_MESSAGE)
    /\ (faultless faults' ->
        message (fst (step (Elapse 3000) faults' (step e faults c))) = "").
Proof.
  intros c e faults faults' Hreach Hne Hbefore Hafter [Hc Hd].
  pose proof (reachable_tidy _ (reach_step c e faults Hreach)) as (Tc & Td & _).
  pose proof (reachable_tidy _ Hreach) as (_ & _ & Ts).
  specialize (Tc Hc). specialize (Td Hd). specialize (Ts Hbefore).
  assert (Ht : successTimer (timers (snd (step e faults c))) = Some 3000%N).
  { destruct c as [s w]. cbn [fst snd] in *.
    rewrite step_handle in * by exact Hne.
    unfold render in *. rewrite settle_successTimer.
    - unfold successTimerFor. rewrite Hafter. reflexivity.
    - simpl. rewrite handle_timers. simpl.
      destruct (message s =? message _)%string eqn:E; [right | left; reflexivity].
      apply String.eqb_eq in E. rewrite <- E. unfold successTimerFor.
      rewrite Hbefore. exact Ts. }
  clear Ts Hbefore Hreach.
  destruct (step e faults c) as [s1 w1]. cbn [fst snd] in *.
  split; [| split].
  - intros k Hk. rewrite step_elapse.
    destruct (elapse_idle k s1 (setOracle faults' w1)) as (H1 & _);
      [simpl; rewrite Tc; exact I | simpl; rewrite Td; exact I
       | simpl; rewrite Ht; exact Hk |].
    rewrite H1. reflexivity.
  - rewrite step_elapse. change 3000%N with (N.succ 2999).
    unfold elapse. rewrite N.iter_succ.
    fold (elapse 2999 (s1, setOracle faults' w1)).
    destruct (elapse_idle 2999 s1 (setOracle faults' w1))
      as (_ & H2 & H3 & H4 & _);
      [simpl; rewrite Tc; exact I | simpl; rewrite Td; exact I
       | simpl; rewrite Ht; reflexivity |].
    destruct (elapse 2999 (s1, setOracle faults' w1)) as [s2 w2].
    cbn [fst snd] in *.
    apply tick_fires_success;
      [rewrite H2; simpl; rewrite Tc | rewrite H3; simpl; rewrite Td
       | rewrite H4; simpl; rewrite Ht]; reflexivity.
  - intros Hcalm. rewrite step_elapse. change 3000%N with (N.succ 2999).
    unfold elapse. rewrite N.iter_succ.
    fold (elapse 2999 (s1, setOracle faults' w1)).
    destruct (elapse_idle 2999 s1 (setOracle faults' w1))
      as (_ & H2 & H3 & H4 & H5 & _);
      [simpl; rewrite Tc; exact I | simpl; rewrite Td; exact I
       | simpl; rewrite Ht; reflexivity |].
    destruct (elapse 2999 (s1, setOracle faults' w1)) as [s2 w2].
    cbn [fst snd] in *.
    apply tick_fires_success;
      [rewrite H2; simpl; rewrite Tc; reflexivity
      | rewrite H3; simpl; rewrite Td; reflexivity
      | rewrite H4; simpl; rewrite Ht; reflexivity
      | rewrite H5; exact Hcalm].
Qed.

Lemma success_message_lasts_three_seconds_witness :
  message (fst (step (Elapse 2999) []
                  (step ClearAllClick [] Scenario.clearClickedOnce)))
  = IDB_CLEAR_ALL_MESSAGE
  /\ message (fst (step (Elapse 3000) []
                     (step ClearAllClick [] Scenario.clearClickedOnce)))
     = "".
Proof.
  assert (Hreach : reachable Scenario.clearClickedOnce)
    by (apply reach_step; exact twoRecords_reachable).
  assert (Hne : forall ms, ClearAllClick <> Elapse ms) by discriminate.
  assert (Hbefore : Str.includes "success" (message (fst Scenario.clearClickedOnce))
                    = false) by (vm_compute; reflexivity).
  assert (Hafter : Str.includes "success"
                     (message (fst (step ClearAllClick []
                                      Scenario.clearClickedOnce))) = true)
    by (vm_compute; reflexivity).
  assert (Hidle : idle (fst (step ClearAllClick [] Scenario.clearClickedOnce)))
    by (vm_compute; split; reflexivity).
  destruct (success_message_lasts_three_seconds Scenario.clearClickedOnce
              ClearAllClick [] [] Hreach Hne Hbefore Hafter Hidle)
    as (H1 & _ & H2).
  split.
  - rewrite (H1 2999%N) by reflexivity. vm_compute. reflexivity.
  - exact (H2 (Forall_nil _)).
Defined.

(** * The tabs *)

(** X26. The tab buttons change the page and nothing of the form or the
    store; the one of the records page resets both confirmations, the other
    two leave a pending confirmation pending. *)
Theorem tabs_and_confirmations :
  forall (s : AppState) (w : World) (p : Page) (faults : list Fault),
    currentPage (fst (step (Navigate p) faults (s, w))) = p
    /\ formData (fst (step (Navigate p) faults (s, w))) = formData s
    /\ signatureCaptured (fst (step (Navigate p) faults (s, w)))
       = signatureCaptured s
    /\ store (snd (step (Navigate p) faults (s, w))) = store w
    /\ (p = records -> idle (fst (step (Navigate p) faults (s, w))))
    /\ (p <> records ->
        confirmClear (fst (step (Navigate p) faults (s, w))) = confirmClear s
        /\ confirmDeleteId (fst (step (Navigate p) faults (s, w)))
           = confirmDeleteId s).
Proof.
  intros s w p faults.
  rewrite step_handle by discriminate. unfold handle.
  destruct (render_frame s (fst (handleNavigate p s (setOracle faults w)))
              (snd (handleNavigate p s (setOracle faults w))))
    as ((Hf & Hc & Hd & Hp & Hsig) & (Hst & _) & _).
  rewrite Hf, Hc, Hd, Hp, Hsig, Hst. unfold idle. rewrite Hc, Hd.
  destruct p; simpl; repeat split; try reflexivity; try discriminate;
    exfalso; auto.
Qed.

Lemma tabs_and_confirmations_witness :
  confirmDeleteId (fst (step (Navigate setup) [] (Scenario.clickedOnce 2)))
  = confirmDeleteId (fst (Scenario.clickedOnce 2))
  /\ idle (fst (step (Navigate records) [] (Scenario.clickedOnce 2))).
Proof.
  destruct (tabs_and_confirmations (fst (Scenario.clickedOnce 2))
              (snd (Scenario.clickedOnce 2)) setup [])
    as (_ & _ & _ & _ & _ & H1).
  destruct (tabs_and_confirmations (fst (Scenario.clickedOnce 2))
              (snd (Scenario.clickedOnce 2)) records [])
    as (_ & _ & _ & _ & H2 & _).
  rewrite <- surjective_pairing in H1, H2.
  split; [apply H1; discriminate | apply H2; reflexivity].
Defined.

(** * Signing in *)

Lemma handle_quiet (e : Event) (s : AppState) (w : World) :
  quiet e = true ->
  message (fst (handle e s w)) = message s
  /\ isDBReady (fst (handle e s w)) = isDBReady s
  /\ inflight (snd (handle e s w)) = inflight w
  /\ store (snd (handle e s w)) = store w
  /\ now (snd (handle e s w)) = now w.
Proof.
  destruct e as [p | name value | input | name checked | | image | | | | key | | ms];
    try discriminate; intros _; unfold handle.
  - destruct p; repeat split; reflexivity.
  - unfold handleConfigChange. repeat split; reflexivity.
  - unfold handleInputChange. repeat split; reflexivity.
  - unfold handleStatusChange. repeat split; reflexivity.
  - unfold startDrawing. destruct (canvasMounted s), (negb (isDBReady s));
      repeat split; reflexivity.
  - unfold draw. destruct (canvasMounted s), (negb (isDrawing w));
      repeat split; reflexivity.
  - destruct (canvasMounted s); repeat split; reflexivity.
  - unfold handleClearSignature. destruct (canvasMounted s); repeat split; reflexivity.
Qed.

Lemma render_quiet (p s : AppState) (w : World) :
  message p = message s ->
  inflight w = [] ->
  render p s w = runEffects false p s w /\ fst (runEffects false p s w) = s.
Proof.
  intros Hm Hq. split.
  - pose proof (runEffects_inflight false p s w) as Hq1.
    rewrite Hq, Hm, String.eqb_refl in Hq1.
    change (inflight (snd (runEffects false p s w)) = []) in Hq1.
    unfold render. destruct (settleFuel w) as [| fuel].
    + apply settle_0.
    + rewrite settle_S, Hq1. reflexivity.
  - unfold runEffects. rewrite Hm, String.eqb_refl. reflexivity.
Qed.

(** An event that sets no message and calls no adapter function, with nothing
    under way: the component is as the handler leaves it; of the browser only
    the timers and the canvas can have changed, the canvas being wiped when
    the form page has just been brought up. *)
Lemma step_quiet (e : Event) (faults : list Fault) (s : AppState) (w : World) :
  quiet e = true ->
  inflight w = [] ->
  fst (step e faults (s, w)) = fst (handle e s (setOracle faults w))
  /\ store (snd (step e faults (s, w))) = store w
  /\ now (snd (step e faults (s, w))) = now w
  /\ inflight (snd (step e faults (s, w))) = []
  /\ isDrawing (snd (step e faults (s, w)))
     = isDrawing (snd (handle e s (setOracle faults w)))
  /\ canvasImage (snd (step e faults (s, w)))
     = (if negb (Page_eqb (currentPage s)
                   (currentPage (fst (handle e s (setOracle faults w)))))
           && canvasMounted (fst (handle e s (setOracle faults w)))
        then blankCanvas
        else canvasImage (snd (handle e s (setOracle faults w)))).
Proof.
  intros Hquiet Hrest.
  destruct (handle_quiet e s (setOracle faults w) Hquiet)
    as (Hm & Hr & Hq & Hst & Hnow).
  rewrite step_handle by (intros ms ->; discriminate Hquiet).
  destruct (render_quiet s (fst (handle e s (setOracle faults w)))
              (snd (handle e s (setOracle faults w))))
    as [Heq Hfst]; [symmetry; exact Hm | rewrite Hq; exact Hrest |].
  rewrite Heq.
  destruct (runEffects_frame false s (fst (handle e s (setOracle faults w)))
              (snd (handle e s (setOracle faults w))))
    as (_ & (Hst' & _ & Hnow' & Hdraw') & _).
  split; [exact Hfst |].
  split; [rewrite Hst'; exact Hst |].
  split; [rewrite Hnow'; exact Hnow |].
  split.
  { rewrite runEffects_inflight, Hq, <- Hm, String.eqb_refl.
    change (inflight w ++ [] = []). rewrite Hrest. reflexivity. }
  split; [exact Hdraw' |].
  rewrite runEffects_canvas, Hr, Bool.eqb_reflx. reflexivity.
Qed.

(** The events of [enter], one kind at a time. *)
Lemma step_open_form (s : AppState) (w : World) :
  inflight w = [] ->
  currentPage (fst (step (Navigate form) [] (s, w))) = form
  /\ formData (fst (step (Navigate form) [] (s, w))) = formData s
  /\ isDBReady (fst (step (Navigate form) [] (s, w))) = isDBReady s
  /\ store (snd (step (Navigate form) [] (s, w))) = store w
  /\ now (snd (step (Navigate form) [] (s, w))) = now w
  /\ inflight (snd (step (Navigate form) [] (s, w))) = [].
Proof.
  intros Hrest.
  destruct (step_quiet (Navigate form) [] s w eq_refl Hrest)
    as (Hs & Hst & Hnow & Hq & _).
  rewrite Hs. repeat split; assumption.
Qed.

Lemma step_input (input : FormInput) (s : AppState) (w : World) :
  inflight w = [] ->
  formData (fst (step (InputChange input) [] (s, w)))
  = assignField (targetName input) (targetValue input) (formData s)
  /\ currentPage (fst (step (InputChange input) [] (s, w))) = currentPage s
  /\ isDBReady (fst (step (InputChange input) [] (s, w))) = isDBReady s
  /\ store (snd (step (InputChange input) [] (s, w))) = store w
  /\ now (snd (step (InputChange input) [] (s, w))) = now w
  /\ inflight (snd (step (InputChange input) [] (s, w))) = [].
Proof.
  intros Hrest.
  destruct (step_quiet (InputChange input) [] s w eq_refl Hrest)
    as (Hs & Hst & Hnow & Hq & _).
  rewrite Hs. repeat split; assumption.
Qed.

Lemma step_status (name : StatusName) (checked : bool) (s : AppState) (w : World) :
  inflight w = [] ->
  completeName (formData (fst (step (StatusChange name checked) [] (s, w))))
  = completeName (formData s)
  /\ sex (formData (fst (step (StatusChange name checked) [] (s, w))))
     = sex (formData s)
  /\ designation (formData (fst (step (StatusChange name checked) [] (s, w))))
     = designation (formData s)
  /\ division (formData (fst (step (StatusChange name checked) [] (s, w))))
     = division (formData s)
  /\ status (formData (fst (step (StatusChange name checked) [] (s, w))))
     = assignStatus name checked (status (formData s))
  /\ currentPage (fst (step (StatusChange name checked) [] (s, w)))
     = currentPage s
  /\ isDBReady (fst (step (StatusChange name checked) [] (s, w))) = isDBReady s
  /\ store (snd (step (StatusChange name checked) [] (s, w))) = store w
  /\ now (snd (step (StatusChange name checked) [] (s, w))) = now w
  /\ inflight (snd (step (StatusChange name checked) [] (s, w))) = [].
Proof.
  intros Hrest.
  destruct (step_quiet (StatusChange name checked) [] s w eq_refl Hrest)
    as (Hs & Hst & Hnow & Hq & _).
  rewrite Hs. repeat split; assumption.
Qed.

(** X27. What is entered is what is stored.  From any reachable state with
    the database ready, a user who opens the form page, fills in the four
    fields, sets the three check boxes, draws a signature and submits, the
    storage working, adds to the store exactly one record: the fields and
    flags as entered, the drawing as signature, the next key, the time of
    the clock. *)
Theorem entry_is_stored_as_typed :
  forall (c : AppState * World) (f : FormData) (image : string),
    reachable c ->
    isDBReady (fst c) = true ->
    sex f = "M" \/ sex f = "F" ->
    blank (completeName f) = false ->
    blank (designation f) = false ->
    blank (division f) = false ->
    collection (snd (steps (enter f image) c))
    = collection (snd c)
      ++ [stored (IDB.keyGenerator (store (snd c))) (withSignature image f)
            (now (snd c))].
Proof.
  intros c f image Hreach Hready Hsex Hname Hdes Hdiv.
  pose proof (reachable_wf c Hreach) as Hwf.
  pose proof (reachable_at_rest c Hreach) as Hrest.
  destruct c as [s0 w0]. cbn [fst snd] in *.
  unfold enter. cbn [steps].
  (* the form page *)
  destruct (step_open_form s0 w0 Hrest) as (Hp1 & Hf1 & Hr1 & Hst1 & Hn1 & Hq1).
  destruct (step (Navigate form) [] (s0, w0)) as [s1 w1]. cbn [fst snd] in *.
  (* the four fields *)
  destruct (step_input (CompleteNameInput (completeName f)) s1 w1 Hq1)
    as (Hf2 & Hp2 & Hr2 & Hst2 & Hn2 & Hq2).
  destruct (step (InputChange (CompleteNameInput (completeName f))) [] (s1, w1))
    as [s2 w2]. cbn [fst snd] in *.
  destruct (step_input (if (sex f =? "F")%string then SexRadioF else SexRadioM)
              s2 w2 Hq2) as (Hf3 & Hp3 & Hr3 & Hst3 & Hn3 & Hq3).
  destruct (step (InputChange (if (sex f =? "F")%string
                               then SexRadioF else SexRadioM)) [] (s2, w2))
    as [s3 w3]. cbn [fst snd] in *.
  destruct (step_input (DesignationInput (designation f)) s3 w3 Hq3)
    as (Hf4 & Hp4 & Hr4 & Hst4 & Hn4 & Hq4).
  destruct (step (InputChange (DesignationInput (designation f))) [] (s3, w3))
    as [s4 w4]. cbn [fst snd] in *.
  destruct (step_input (DivisionInput (division f)) s4 w4 Hq4)
    as (Hf5 & Hp5 & Hr5 & Hst5 & Hn5 & Hq5).
  destruct (step (InputChange (DivisionInput (division f))) [] (s4, w4))
    as [s5 w5]. cbn [fst snd] in *.
  assert (Hfields : completeName (formData s5) = completeName f
                    /\ sex (formData s5) = sex f
                    /\ designation (formData s5) = designation f
                    /\ division (formData s5) = division f
                    /\ status (formData s5) = status (formData s0)).
  { rewrite Hf5, Hf4, Hf3, Hf2, Hf1.
    destruct Hsex as [Hsex | Hsex]; rewrite Hsex; simpl; repeat split;
      symmetry; exact Hsex. }
  clear Hf2 Hf3 Hf4 Hf5.
  destruct Hfields as (Fn & Fs & Fd & Fv & Ft).
  (* the three check boxes *)
  destruct (step_status namePwd (pwd (status f)) s5 w5 Hq5)
    as (Gn6 & Gs6 & Gd6 & Gv6 & Gt6 & Hp6 & Hr6 & Hst6 & Hn6 & Hq6).
  destruct (step (StatusChange namePwd (pwd (status f))) [] (s5, w5))
    as [s6 w6]. cbn [fst snd] in *.
  destruct (step_status nameSenior (senior (status f)) s6 w6 Hq6)
    as (Gn7 & Gs7 & Gd7 & Gv7 & Gt7 & Hp7 & Hr7 & Hst7 & Hn7 & Hq7).
  destruct (step (StatusChange nameSenior (senior (status f))) [] (s6, w6))
    as [s7 w7]. cbn [fst snd] in *.
  destruct (step_status nameOsy (osy (status f)) s7 w7 Hq7)
    as (Gn8 & Gs8 & Gd8 & Gv8 & Gt8 & Hp8 & Hr8 & Hst8 & Hn8 & Hq8).
  destruct (step (StatusChange nameOsy (osy (status f))) [] (s7, w7))
    as [s8 w8]. cbn [fst snd] in *.
  assert (Hpage : currentPage s8 = form) by congruence.
  assert (Hready8 : isDBReady s8 = true) by congruence.
  assert (Hstore : store w8 = store w0) by congruence.
  assert (Hnow : now w8 = now w0) by congruence.
  assert (Hform : withSignature image (formData s8) = withSignature image f).
  { unfold withSignature. rewrite Gn8, Gn7, Gn6, Fn, Gs8, Gs7, Gs6, Fs,
      Gd8, Gd7, Gd6, Fd, Gv8, Gv7, Gv6, Fv, Gt8, Gt7, Gt6.
    destruct (status f), (status (formData s5)); reflexivity. }
  assert (Hfilled : blank (completeName (formData s8)) = false
                    /\ blank (designation (formData s8)) = false
                    /\ blank (division (formData s8)) = false).
  { rewrite Gn8, Gn7, Gn6, Fn, Gd8, Gd7, Gd6, Fd, Gv8, Gv7, Gv6, Fv.
    repeat split; assumption. }
  destruct Hfilled as (Bn & Bd & Bv).
  (* the stroke and the button *)
  rewrite (stroke s8 w8 image [] [] [] Hpage Hready8 Hq8).
  match goal with
  | |- context [step Submit [] (_, ?w)] => set (w11 := w)
  end.
  assert (Hstore11 : store w11 = store w0) by exact Hstore.
  assert (Hnow11 : now w11 = now w0) by exact Hnow.
  assert (Hcanvas11 : canvasImage w11 = image) by reflexivity.
  clearbody w11.
  rewrite step_submit_stores.
  - unfold collection. rewrite Hstore11, Hnow11, Hcanvas11.
    change (formData (setSignatureCaptured true s8)) with (formData s8).
    rewrite Hform. reflexivity.
  - unfold readyToSubmit, canvasMounted. simpl. rewrite Bn, Bd, Bv, Hpage, Hready8.
    reflexivity.
  - constructor.
  - rewrite Hstore11. exact Hwf.
Qed.

Lemma entry_is_stored_as_typed_witness :
  map data (collection (snd (steps (enter Sample.bob "data:image/png;base64,BBB")
                               Scenario.loaded)))
  = [Sample.bob].
Proof.
  assert (Hready : isDBReady (fst Scenario.loaded) = true)
    by (vm_compute; reflexivity).
  assert (Hname : blank (completeName Sample.bob) = false)
    by (vm_compute; reflexivity).
  assert (Hdes : blank (designation Sample.bob) = false)
    by (vm_compute; reflexivity).
  assert (Hdiv : blank (division Sample.bob) = false)
    by (vm_compute; reflexivity).
  rewrite (entry_is_stored_as_typed Scenario.loaded Sample.bob
             "data:image/png;base64,BBB" loaded_reachable Hready
             (or_introl eq_refl) Hname Hdes Hdiv).
  vm_compute. reflexivity.
Defined.

(** * Submission: the signature and the event date *)

(** C9, where the code departs from it.  [handleSubmit] takes the flag
    [signatureCaptured] for the signature.  A press on the canvas sets the
    flag before anything is drawn, and showing the form page again blanks
    the canvas and leaves the flag: in both runs the submission passes the
    checks, no validation message is set, [addRecord] is called and the record
    is stored with the image of the blank canvas as its signature. *)
Theorem submit_accepts_a_blank_canvas :
  let stored3 (c : AppState * World) :=
    map (fun r => (id r, completeName (data r), signature (data r)))
      (collection (snd c)) in
  (reachable pressedOnly
   /\ canvasImage (snd pressedOnly) = blankCanvas
   /\ signatureCaptured (fst pressedOnly) = true
   /\ message (fst (handleSubmit (fst pressedOnly) (snd pressedOnly)))
      = IDB_SUCCESS_MESSAGE
   /\ filter isInsert (calls (snd (step Submit [] pressedOnly)))
      = [CallAdd (withSignature blankCanvas (formData (fst pressedOnly)))]
   /\ stored3 (step Submit [] pressedOnly) = [(1, "Jane Doe", Some blankCanvas)])
  /\ (reachable cameBack
      /\ canvasImage (snd Scenario.formFilled) = "data:image/png;base64,AAA"
      /\ canvasImage (snd cameBack) = blankCanvas
      /\ signatureCaptured (fst cameBack) = true
      /\ message (fst (handleSubmit (fst cameBack) (snd cameBack)))
         = IDB_SUCCESS_MESSAGE
      /\ filter isInsert (calls (snd (step Submit [] cameBack)))
         = [CallAdd (withSignature blankCanvas (formData (fst cameBack)))]
      /\ stored3 (step Submit [] cameBack) = [(1, "Jane Doe", Some blankCanvas)]).
Proof.
  split.
  - split.
    + unfold pressedOnly. apply steps_reachable. exact loaded_reachable.
    + vm_compute. repeat split.
  - split.
    + unfold cameBack. apply steps_reachable. exact formFilled_reachable.
    + vm_compute. repeat split.
Qed.




